(** * WAV-to-hex table generators and the sample-header splitter

    A shallow embedding of [kick/tools/convert.py] (command-line converter),
    [kick/tools/wav_table_gen_v1.py] (dialog-driven converter) and
    [kick/tools/split_samples.py] (header splitter), followed by the
    properties the specification states about them.

    Python integers are [Z]; [bytes] objects are [list byte]; a [str] is
    kept as the bytes of its UTF-8 encoding, one [ascii] per byte, and is
    cut into characters where the code looks at characters; the file
    system is a finite map from paths to files; printing, dialogs,
    [sys.exit] and exceptions are threaded through a small
    state-and-outcome monad. *)

From Stdlib Require Import ZArith List String Ascii Lia.
From Stdlib Require Import Strings.Byte.
From stdpp Require Import gmap strings list fin_maps pretty.
Import ListNotations.
Local Open Scope Z_scope.

(** ** Python text primitives used by the three scripts *)

Module Py.

(** The newline character, written [\n] in the sources. *)
Definition nl : string := String "010" EmptyString.

(** [sep.join(parts)]. *)
Definition join (sep : string) (parts : list string) : string :=
  String.concat sep parts.

(** [c in s] for a single ASCII character. *)
Fixpoint mem (c : ascii) (s : string) : bool :=
  match s with
  | EmptyString => false
  | String a s' => Ascii.eqb a c || mem c s'
  end.

(** [s.count(c)] for a single ASCII character. *)
Fixpoint count (c : ascii) (s : string) : nat :=
  match s with
  | EmptyString => O
  | String a s' => ((if Ascii.eqb a c then 1 else 0) + count c s')%nat
  end.

(** [s.startswith(p)]. *)
Fixpoint startswith (p s : string) : bool :=
  match p, s with
  | EmptyString, _ => true
  | String a p', String b s' => Ascii.eqb a b && startswith p' s'
  | String _ _, EmptyString => false
  end.

(** [needle in s] for text. *)
Fixpoint contains (needle s : string) : bool :=
  startswith needle s ||
  match s with
  | EmptyString => false
  | String _ s' => contains needle s'
  end.

(** The first [n] bytes of a text. *)
Fixpoint take (n : nat) (s : string) : string :=
  match n, s with
  | S n', String a s' => String a (take n' s')
  | _, _ => EmptyString
  end.

(** *** Characters

    Text files are read and written in UTF-8.  The well-formed sequences
    are a byte below 128 alone, or a lead byte with one, two or three
    trail bytes, overlong forms, surrogates and values above U+10FFFF
    excluded. *)

Definition code (a : ascii) : N := N_of_ascii a.

Definition trail (a : ascii) : bool :=
  ((128 <=? code a) && (code a <=? 191))%N.

Definition two_bytes (a b : ascii) : bool :=
  ((194 <=? code a) && (code a <=? 223))%N && trail b.

Definition three_bytes (a b c : ascii) : bool :=
  ((224 <=? code a) && (code a <=? 239))%N && trail b && trail c
  && (negb (code a =? 224)%N || (160 <=? code b)%N)
  && (negb (code a =? 237)%N || (code b <=? 159)%N).

Definition four_bytes (a b c d : ascii) : bool :=
  ((240 <=? code a) && (code a <=? 244))%N && trail b && trail c && trail d
  && (negb (code a =? 240)%N || (144 <=? code b)%N)
  && (negb (code a =? 244)%N || (code b <=? 143)%N).

(** The characters of a text, each as the bytes that encode it.  A byte
    that starts no well-formed sequence stands alone; no text that
    [read_text] returns holds one. *)
Fixpoint chars (s : string) : list string :=
  match s with
  | EmptyString => []
  | String a s1 =>
      match s1 with
      | String b s2 =>
          if two_bytes a b
          then String a (String b EmptyString) :: chars s2
          else
            match s2 with
            | String c s3 =>
                if three_bytes a b c
                then String a (String b (String c EmptyString)) :: chars s3
                else
                  match s3 with
                  | String d s4 =>
                      if four_bytes a b c d
                      then String a (String b (String c (String d EmptyString)))
                           :: chars s4
                      else String a EmptyString :: chars s1
                  | EmptyString => String a EmptyString :: chars s1
                  end
            | EmptyString => String a EmptyString :: chars s1
            end
      | EmptyString => [String a EmptyString]
      end
  end.

(** [len(s)]: the number of characters. *)
Definition len (s : string) : Z := Z.of_nat (length (chars s)).

(** [ord(ch)] of one character.  A stray byte gets the code point the
    [surrogateescape] handler gives it, which belongs to no class. *)
Definition ord (ch : string) : N :=
  match ch with
  | String a EmptyString =>
      if (code a <? 128)%N then code a else (56320 + code a)%N
  | String a (String b EmptyString) =>
      ((code a - 192) * 64 + (code b - 128))%N
  | String a (String b (String c EmptyString)) =>
      ((code a - 224) * 4096 + (code b - 128) * 64 + (code c - 128))%N
  | String a (String b (String c (String d EmptyString))) =>
      ((code a - 240) * 262144 + (code b - 128) * 4096
       + (code c - 128) * 64 + (code d - 128))%N
  | _ => 0%N
  end.

Definition in_ranges (ranges : list (N * N)) (n : N) : bool :=
  existsb (fun r => ((fst r <=? n) && (n <=? snd r))%N) ranges.

(** The code points [str.isspace], [str.strip] and the class [\s] of
    [re] accept. *)
Definition whitespace : list (N * N) :=
  [(9, 13); (28, 32); (133, 133); (160, 160); (5760, 5760); (8192, 8202);
   (8232, 8233); (8239, 8239); (8287, 8287); (12288, 12288)]%N.

(** The decimal digits (category Nd), which the class [\d] of [re]
    accepts on text; the ranges are those of Unicode 14, the version of
    Python 3.11. *)
Definition decimal_digits : list (N * N) :=
  [(48, 57); (1632, 1641); (1776, 1785); (1984, 1993); (2406, 2415);
   (2534, 2543); (2662, 2671); (2790, 2799); (2918, 2927); (3046, 3055);
   (3174, 3183); (3302, 3311); (3430, 3439); (3558, 3567); (3664, 3673);
   (3792, 3801); (3872, 3881); (4160, 4169); (4240, 4249); (6112, 6121);
   (6160, 6169); (6470, 6479); (6608, 6617); (6784, 6793); (6800, 6809);
   (6992, 7001); (7088, 7097); (7232, 7241); (7248, 7257); (42528, 42537);
   (43216, 43225); (43264, 43273); (43472, 43481); (43504, 43513);
   (43600, 43609); (44016, 44025); (65296, 65305); (66720, 66729);
   (68912, 68921); (69734, 69743); (69872, 69881); (69942, 69951);
   (70096, 70105); (70384, 70393); (70736, 70745); (70864, 70873);
   (71248, 71257); (71360, 71369); (71472, 71481); (71904, 71913);
   (72016, 72025); (72784, 72793); (73040, 73049); (73120, 73129);
   (92768, 92777); (92864, 92873); (93008, 93017); (120782, 120831);
   (123200, 123209); (123632, 123641); (125264, 125273);
   (130032, 130041)]%N.

Definition isspace (ch : string) : bool := in_ranges whitespace (ord ch).

Definition isdecimal (ch : string) : bool := in_ranges decimal_digits (ord ch).

(** The Kelvin sign and the capital I with a dot above, the two
    characters outside ASCII whose lower case holds an ASCII letter
    ([k], and [i] followed by a combining dot). *)
Definition kelvin_sign : string :=
  String "226" (String "132" (String "170" EmptyString)).
Definition dotted_capital_i : string := String "196" (String "176" EmptyString).
Definition combining_dot : string := String "204" (String "135" EmptyString).

(** The lower case of one character, as far as ASCII letters come or go:
    any other character is kept as it is, which changes no ASCII
    character of the result. *)
Definition lower_char (ch : string) : string :=
  match ch with
  | String a EmptyString =>
      if ((65 <=? code a) && (code a <=? 90))%N
      then String (ascii_of_N (code a + 32)) EmptyString
      else ch
  | _ =>
      if String.eqb ch kelvin_sign then "k"
      else if String.eqb ch dotted_capital_i then "i" +:+ combining_dot
      else ch
  end.

(** The upper case of one character, for ASCII letters; other characters
    are kept (exact for digits and characters without case). *)
Definition upper_char (ch : string) : string :=
  match ch with
  | String a EmptyString =>
      if ((97 <=? code a) && (code a <=? 122))%N
      then String (ascii_of_N (code a - 32)) EmptyString
      else ch
  | _ => ch
  end.

(** [s.lower()] and [s.upper()].  The scripts compare the lower case with
    ASCII words and take the upper case of array names only. *)
Definition lower (s : string) : string :=
  String.concat EmptyString (map lower_char (chars s)).
Definition upper (s : string) : string :=
  String.concat EmptyString (map upper_char (chars s)).

Fixpoint lstrip_chars (l : list string) : list string :=
  match l with
  | ch :: l' => if isspace ch then lstrip_chars l' else l
  | [] => []
  end.

Fixpoint rstrip_chars (l : list string) : list string :=
  match l with
  | [] => []
  | ch :: l' =>
      match rstrip_chars l' with
      | [] => if isspace ch then [] else [ch]
      | r => ch :: r
      end
  end.

(** [s.strip()]. *)
Definition strip (s : string) : string :=
  String.concat EmptyString (rstrip_chars (lstrip_chars (chars s))).

(** [s.split(sep)] for a non-empty separator: the text is cut at each
    occurrence of [sep], scanning left to right.  [skip] counts the
    bytes of a separator still to be passed over and [cur] holds the
    current piece, reversed. *)
Fixpoint split_go (sep : string) (s : string) (skip : nat) (cur : list ascii)
  : list string :=
  match s with
  | EmptyString => [string_of_list_ascii (rev cur)]
  | String a s' =>
      match skip with
      | S k => split_go sep s' k cur
      | O =>
          if startswith sep s
          then string_of_list_ascii (rev cur)
               :: split_go sep s' (String.length sep - 1) []
          else split_go sep s' O (a :: cur)
      end
  end.

Definition split (sep s : string) : list string := split_go sep s O [].

(** [values[i:i+n]] on a list. *)
Definition slice {A} (l : list A) (i n : nat) : list A :=
  firstn n (skipn i l).

(** [range(0, stop, step)] for a positive step. *)
Definition range_step (stop step : nat) : list nat :=
  map (fun k => (k * step)%nat) (seq 0 ((stop + step - 1) / step)).

End Py.

(** ** A regular-expression matcher for the patterns of [split_samples.py]

    The three patterns are sequences of single characters, character
    classes, greedy [+] and [*] over a class, and capture groups.  The
    matcher works on the characters of the text and backtracks the way
    [re] does: a greedy repetition takes as much as it can and gives
    characters back while the rest fails. *)

Module Re.

Inductive atom :=
| One (p : string -> bool)       (* a literal or a class, once *)
| Star (p : string -> bool)      (* [p*], greedy *)
| Plus (p : string -> bool)      (* [p+], greedy *)
| Open                           (* [(] *)
| Close.                         (* [)] *)

(** Matching state: the finished groups (latest first) and the text
    gathered for the groups still open (innermost first). *)
Record caps := { done_groups : list string; open_groups : list string }.

Definition feed (ch : string) (st : caps) : caps :=
  {| done_groups := done_groups st;
     open_groups := map (fun g => g +:+ ch) (open_groups st) |}.

Definition open_group (st : caps) : caps :=
  {| done_groups := done_groups st;
     open_groups := EmptyString :: open_groups st |}.

Definition close_group (st : caps) : caps :=
  match open_groups st with
  | g :: gs => {| done_groups := g :: done_groups st; open_groups := gs |}
  | [] => st
  end.

(** Greedy repetition of class [p], then the continuation [k]; on
    failure of the longer attempt the shorter one is tried. *)
Fixpoint many {R} (p : string -> bool) (k : list string -> caps -> option R)
         (s : list string) (st : caps) : option R :=
  match s with
  | ch :: s' =>
      if p ch then
        match many p k s' (feed ch st) with
        | Some r => Some r
        | None => k s st
        end
      else k s st
  | [] => k s st
  end.

(** Match the atoms at the start of [s]; the result is the capture state
    and the characters left after the match. *)
Fixpoint run (atoms : list atom) (s : list string) (st : caps)
  : option (caps * list string) :=
  match atoms with
  | [] => Some (st, s)
  | One p :: r =>
      match s with
      | ch :: s' => if p ch then run r s' (feed ch st) else None
      | [] => None
      end
  | Star p :: r => many p (run r) s st
  | Plus p :: r =>
      match s with
      | ch :: s' => if p ch then many p (run r) s' (feed ch st) else None
      | [] => None
      end
  | Open :: r => run r s (open_group st)
  | Close :: r => run r s (close_group st)
  end.

(** A match at the start of [s]: its groups and the number of characters
    it spans. *)
Definition match_at (atoms : list atom) (s : list string)
  : option (list string * nat) :=
  match run atoms s {| done_groups := []; open_groups := [] |} with
  | Some (st, rest) => Some (rev (done_groups st),
                             (length s - length rest)%nat)
  | None => None
  end.

(** [re.findall]: the groups of every match, left to right, matches not
    overlapping.  [skip] counts the characters of the last match still
    to be passed over.  (No pattern here matches the empty text.) *)
Fixpoint findall_go (atoms : list atom) (s : list string) (skip : nat)
  : list (list string) :=
  match s with
  | [] => []
  | _ :: s' =>
      match skip with
      | S k => findall_go atoms s' k
      | O =>
          match match_at atoms s with
          | Some (groups, n) => groups :: findall_go atoms s' (n - 1)
          | None => findall_go atoms s' O
          end
      end
  end.

Definition findall (atoms : list atom) (s : string) : list (list string) :=
  findall_go atoms (Py.chars s) O.

(** [re.sub(pattern, repl, s)] for a replacement without group
    references. *)
Fixpoint sub_go (atoms : list atom) (repl : string) (s : list string)
         (skip : nat) : string :=
  match s with
  | [] => EmptyString
  | ch :: s' =>
      match skip with
      | S k => sub_go atoms repl s' k
      | O =>
          match match_at atoms s with
          | Some (_, n) => repl +:+ sub_go atoms repl s' (n - 1)
          | None => ch +:+ sub_go atoms repl s' O
          end
      end
  end.

Definition sub (atoms : list atom) (repl s : string) : string :=
  sub_go atoms repl (Py.chars s) O.

(** Atoms for a literal text. *)
Definition lit (s : string) : list atom :=
  map (fun ch => One (String.eqb ch)) (Py.chars s).

End Re.

(** ** The hex encoder shared by both converters *)

Module Hex.

Definition hex_digit (d : N) : ascii :=
  match String.get (N.to_nat d) "0123456789ABCDEF" with
  | Some c => c
  | None => "0"%char
  end.

(** Upper-case hexadecimal digits of [n], most significant first. *)
Fixpoint hex_upper_go (fuel : nat) (n : N) (acc : string) : string :=
  match fuel with
  | O => acc
  | S fuel' =>
      let acc' := String (hex_digit (n mod 16)) acc in
      if (n / 16 =? 0)%N then acc' else hex_upper_go fuel' (n / 16) acc'
  end.

Definition hex_upper (n : N) : string :=
  hex_upper_go (S (N.to_nat (N.log2 n))) n EmptyString.

Fixpoint zeros (k : nat) : string :=
  match k with O => EmptyString | S k' => String "0" (zeros k') end.

(** The format specification [02X]: upper-case hex, zero-padded to at
    least two characters. *)
Definition format_02X (n : N) : string :=
  let digits := hex_upper n in
  zeros (2 - String.length digits) +:+ digits.

(** [f"0x{b:02X}"] for one element [b] of a [bytes] object. *)
Definition entry (b : byte) : string := "0x" +:+ format_02X (Byte.to_N b).

(** [",".join(f"0x{b:02X}" for b in raw_bytes)]. *)
Definition hex_line (raw_bytes : list byte) : string :=
  Py.join "," (map entry raw_bytes).

Definition is_upper_hex (c : ascii) : bool := Py.mem c "0123456789ABCDEF".

End Hex.

(** ** The [wave] reader, as far as the converters use it *)

Module Wave.

Definition WAVE_FORMAT_PCM : N := 1.

(** The fields of a [fmt] chunk the reader looks at, as the file stores
    them: unsigned integers. *)
Record fmt := {
  wFormatTag : N;
  nChannels : N;
  nSamplesPerSec : N;
  wBitsPerSample : N
}.

(** The reader [wave.open] returns.  There is one only for a header with
    the PCM format tag, at least one bit per sample and at least one
    channel, so channel count and sample width are positive; for every
    reader the compression type is [NONE].  [chunksize] is the size the
    header of the [data] chunk declares and [data_chunk] the bytes of that
    chunk the reader can get at, which are fewer when the file has been
    cut short or the enclosing RIFF chunk ends before them. *)
Record Wave_read := {
  nchannels : positive;
  sampwidth : positive;
  framerate : N;
  chunksize : N;
  data_chunk : list byte
}.

Definition getnchannels (w : Wave_read) : Z := Z.pos (nchannels w).
Definition getsampwidth (w : Wave_read) : Z := Z.pos (sampwidth w).
Definition getcomptype (w : Wave_read) : string := "NONE".
Definition getframerate (w : Wave_read) : Z := Z.of_N (framerate w).

Definition framesize (w : Wave_read) : Z := getnchannels w * getsampwidth w.

(** The reader sets the frame count to chunk size [//] frame size. *)
Definition getnframes (w : Wave_read) : Z :=
  Z.of_N (chunksize w) / framesize w.

(** [w.readframes(n)] on a freshly opened file (on a little-endian
    machine): nothing for [n = 0]; otherwise [n * framesize] bytes are
    asked of the data chunk, a negative size standing for the whole chunk
    and a size beyond the chunk being cut to it, and the file gives what
    it holds of them. *)
Definition readframes (w : Wave_read) (n : Z) : list byte :=
  if n =? 0 then []
  else
    let size := n * framesize w in
    let size := if size <? 0 then Z.of_N (chunksize w) else size in
    let size := if Z.of_N (chunksize w) <? size
                then Z.of_N (chunksize w) else size in
    let size := Z.min size (Z.of_nat (length (data_chunk w))) in
    firstn (Z.to_nat size) (data_chunk w).

(** The data chunk is whole: as many bytes of it can be read as its
    header declares. *)
Definition intact (w : Wave_read) : Prop :=
  N.of_nat (length (data_chunk w)) = chunksize w.

(** [_read_fmt_chunk]: the error the reader raises on the header, or the
    channel count and the sample width in bytes. *)
Definition read_fmt (h : fmt) : string + positive * positive :=
  if negb (wFormatTag h =? WAVE_FORMAT_PCM)%N
  then inl ("unknown format: " +:+ pretty (wFormatTag h))
  else
    match ((wBitsPerSample h + 7) / 8)%N with
    | N0 => inl "bad sample width"
    | Npos width =>
        match nChannels h with
        | N0 => inl "bad # of channels"
        | Npos channels => inr (channels, width)
        end
    end.

(** The header of a PCM file that gives the reader [w]. *)
Definition fmt_of (w : Wave_read) : fmt :=
  {| wFormatTag := WAVE_FORMAT_PCM;
     nChannels := Npos (nchannels w);
     nSamplesPerSec := framerate w;
     wBitsPerSample := (8 * Npos (sampwidth w))%N |}.

(** How the reader's look at a file's bytes ends: with a value, with
    [wave.Error], with [EOFError], or with the [RuntimeError] of a seek
    past the end of the RIFF chunk. *)
Inductive result (A : Type) :=
| Ok (a : A)
| Refused (msg : string)
| EndOfFile
| BadSeek.
Arguments Ok {A} a.
Arguments Refused {A} msg.
Arguments EndOfFile {A}.
Arguments BadSeek {A}.

Definition size_of (s : string) : N := N.of_nat (String.length s).

(** [struct.unpack] of an unsigned little-endian integer. *)
Definition unpack (s : string) : N :=
  fold_right (fun c n => (Py.code c + 256 * n)%N) 0%N (list_ascii_of_string s).

(** The [n] bytes of [s] from offset [p], as far as they are there. *)
Definition bytes_at (s : string) (p n : N) : string :=
  substring (N.to_nat (N.min p (size_of s))) (N.to_nat (N.min n (size_of s))) s.

Section riff.

(** The file after the eight bytes of the RIFF header, and the size that
    header declares. *)
Variable rest : string.
Variable riff_size : N.

(** [Chunk.read(n)] on the RIFF chunk with [p] bytes of it read: the
    bytes, and the count of bytes read after it.  The pad byte after a
    chunk of odd size is read along with its last byte. *)
Definition riff_read (p n : N) : string * N :=
  if (riff_size <=? p)%N then (EmptyString, p)
  else
    let data := bytes_at rest p (N.min n (riff_size - p)) in
    let p := (p + size_of data)%N in
    if (p =? riff_size)%N && N.odd riff_size
    then (data, (p + size_of (bytes_at rest p 1))%N)
    else (data, p).

(** [Chunk.read(n)] on a chunk of size [csize] inside the RIFF chunk, with
    [r] bytes of it read. *)
Definition chunk_read (csize r p n : N) : string * (N * N) :=
  if (csize <=? r)%N then (EmptyString, (r, p))
  else
    let '(data, p) := riff_read p (N.min n (csize - r)) in
    let r := (r + size_of data)%N in
    if (r =? csize)%N && N.odd csize
    then let '(dummy, p) := riff_read p 1 in
         (data, ((r + size_of dummy)%N, p))
    else (data, (r, p)).

(** [Chunk.skip()]: a seek in the RIFF chunk to the end of the inner
    chunk and its pad byte, refused beyond the size of the RIFF chunk. *)
Definition skip (csize r p : N) : option N :=
  let pos := (p + (csize + (if N.odd csize then 1 else 0) - r))%N in
  if (riff_size <? pos)%N then None else Some pos.

(** [_read_fmt_chunk] on the bytes of a [fmt] chunk: the channel count,
    sample width and frame rate, with the counts of bytes read. *)
Definition read_fmt_chunk (csize p : N)
  : result (positive * positive * N * (N * N)) :=
  let '(head, (r, p)) := chunk_read csize 0 p 14 in
  if (size_of head <? 14)%N then EndOfFile
  else
    let tag := unpack (substring 0 2 head) in
    if negb (tag =? WAVE_FORMAT_PCM)%N
    then Refused ("unknown format: " +:+ pretty tag)
    else
      let '(bits, (r, p)) := chunk_read csize r p 2 in
      if (size_of bits <? 2)%N then EndOfFile
      else
        match read_fmt {| wFormatTag := tag;
                          nChannels := unpack (substring 2 2 head);
                          nSamplesPerSec := unpack (substring 4 4 head);
                          wBitsPerSample := unpack bits |} with
        | inl msg => Refused msg
        | inr (channels, width) =>
            Ok (channels, width, unpack (substring 4 4 head), (r, p))
        end.

(** The loop of [initfp] over the chunks of the form, [params] being what
    the last [fmt] chunk gave. *)
Fixpoint read_chunks (fuel : nat) (p : N)
    (params : option (positive * positive * N)) : result Wave_read :=
  match fuel with
  | O => Refused "fmt chunk and/or data chunk missing"
  | S fuel =>
      let '(name, p) := riff_read p 4 in
      if (size_of name <? 4)%N
      then Refused "fmt chunk and/or data chunk missing"
      else
        let '(size, p) := riff_read p 4 in
        if (size_of size <? 4)%N
        then Refused "fmt chunk and/or data chunk missing"
        else
          let csize := unpack size in
          if String.eqb name "fmt " then
            match read_fmt_chunk csize p with
            | Ok (channels, width, rate, (r, p)) =>
                match skip csize r p with
                | Some p => read_chunks fuel p (Some (channels, width, rate))
                | None => BadSeek
                end
            | Refused msg => Refused msg
            | EndOfFile => EndOfFile
            | BadSeek => BadSeek
            end
          else if String.eqb name "data" then
            match params with
            | None => Refused "data chunk before fmt chunk"
            | Some (channels, width, rate) =>
                Ok {| nchannels := channels; sampwidth := width;
                      framerate := rate; chunksize := csize;
                      data_chunk :=
                        list_byte_of_string (riff_read p csize).1 |}
            end
          else
            match skip csize 0 p with
            | Some p => read_chunks fuel p params
            | None => BadSeek
            end
  end.

End riff.

(** [Wave_read.initfp] on the bytes of a file. *)
Definition initfp (s : string) : result Wave_read :=
  if (size_of s <? 8)%N then EndOfFile
  else if negb (String.eqb (substring 0 4 s) "RIFF")
  then Refused "file does not start with RIFF id"
  else
    let rest := substring 8 (String.length s - 8) s in
    let riff_size := unpack (substring 4 4 s) in
    let '(form, p) := riff_read rest riff_size 0 4 in
    if negb (String.eqb form "WAVE") then Refused "not a WAVE file"
    else read_chunks rest riff_size (S (String.length rest)) p None.

End Wave.

(** ** Paths, files, and the effects of a run *)

(** The operations of [pathlib.Path] the scripts call. *)
Class Pathlib (path : Type) `{Countable path} := {
  Path : string -> path;                  (* Path(text) *)
  path_str : path -> string;              (* str(p) *)
  path_name : path -> string;             (* p.name *)
  path_suffix : path -> string;           (* p.suffix *)
  path_parent : path -> path;             (* p.parent *)
  with_suffix : path -> string -> path;   (* p.with_suffix(s) *)
  path_join : path -> string -> path      (* p / name *)
}.

(** The text of [f"{a / b:.2f}"] for [b] not zero. *)
Class FloatFormat := { format_2f : Z -> Z -> string }.

Inductive exn :=
| WaveError (msg : string)          (* wave.Error *)
| EOFError
| FileNotFoundError (msg : string)
| OSError (msg : string)
| UnicodeDecodeError
| ZeroDivisionError
| RuntimeError.

(** [str(e)]. *)
Definition exn_str (e : exn) : string :=
  match e with
  | WaveError msg | FileNotFoundError msg | OSError msg => msg
  | EOFError | RuntimeError => EmptyString
  | UnicodeDecodeError => "invalid start byte"
  | ZeroDivisionError => "division by zero"
  end.

Definition is_wave_error (e : exn) : bool :=
  match e with WaveError _ => true | _ => false end.

(** A regular file: a RIFF/WAVE container in which the reader gets to the
    [data] chunk, given by what it finds on the way, the [fmt] header, the
    declared size of the [data] chunk and the bytes of that chunk that can
    be read; a text file, given by its text, whose bytes are the UTF-8
    encoding of the text with line ends of a single line feed, so that
    reading gives the text and [wave.open] sees its bytes; or a file on
    which opening fails with the given exception (a folder, a file without
    read permission). *)
Inductive file :=
| Wav (h : Wave.fmt) (chunksize : N) (data : list byte)
| TextFile (s : string)
| Unreadable (e : exn).

(** The PCM file that [wave.open] reads as [w]. *)
Definition WavFile (w : Wave.Wave_read) : file :=
  Wav (Wave.fmt_of w) (Wave.chunksize w) (Wave.data_chunk w).

(** A failure of the file system at a path: the error text and, when it
    strikes a write after the file has been opened and thereby emptied,
    the number of bytes that reached the file.  With [None] the path
    cannot be opened or created, and nothing changes. *)
Record fault := { reason : string; reached : option nat }.

Inductive dialog :=
| ShowError (title msg : string)
| ShowInfo (title msg : string).

(** How a computation ends: a value, [SystemExit] with a status, or an
    exception. *)
Inductive outcome (A : Type) :=
| Ret (a : A)
| Exit (code : Z)
| Raise (e : exn).
Arguments Ret {A} a.
Arguments Exit {A} code.
Arguments Raise {A} e.

Section runtime.
Context `{Pathlib path}.

Record world := {
  fs : gmap path file;              (* the regular files *)
  locked : gmap path fault;         (* where creating or writing fails *)
  writes : list (path * string);    (* what write_text has left in a file,
                                       write after write *)
  stdout : list string;             (* one entry per print *)
  stderr : list string;
  dialogs : list dialog             (* message boxes shown *)
}.

Definition M (A : Type) : Type := world -> world * outcome A.

Definition ret {A} (a : A) : M A := fun w => (w, Ret a).

Definition bind {A B} (m : M A) (k : A -> M B) : M B :=
  fun w =>
    match m w with
    | (w', Ret a) => k a w'
    | (w', Exit c) => (w', Exit c)
    | (w', Raise e) => (w', Raise e)
    end.

(** [sys.exit(code)]. *)
Definition sys_exit {A} (code : Z) : M A := fun w => (w, Exit code).

Definition raise {A} (e : exn) : M A := fun w => (w, Raise e).

(** [try: m  except Exception as e: h e]; [SystemExit] passes through. *)
Definition try_except {A} (m : M A) (h : exn -> M A) : M A :=
  fun w =>
    match m w with
    | (w', Raise e) => h e w'
    | r => r
    end.

(** [print(line)] and [print(line, file=sys.stderr)]. *)
Definition print (line : string) : M unit :=
  fun w => ({| fs := fs w; locked := locked w; writes := writes w;
               stdout := stdout w ++ [line]; stderr := stderr w;
               dialogs := dialogs w |}, Ret tt).

Definition eprint (line : string) : M unit :=
  fun w => ({| fs := fs w; locked := locked w; writes := writes w;
               stdout := stdout w; stderr := stderr w ++ [line];
               dialogs := dialogs w |}, Ret tt).

Definition show (d : dialog) : M unit :=
  fun w => ({| fs := fs w; locked := locked w; writes := writes w;
               stdout := stdout w; stderr := stderr w;
               dialogs := dialogs w ++ [d] |}, Ret tt).

(** [p.exists()]. *)
Definition path_exists (p : path) : M bool :=
  fun w => (w, Ret (bool_decide (is_Some (fs w !! p)))).

(** [d.mkdir(parents=True, exist_ok=True)]; directories are not part of
    the file map, so the call only succeeds or fails. *)
Definition mkdir_parents (d : path) : M unit :=
  fun w =>
    match locked w !! d with
    | Some f => (w, Raise (OSError (reason f)))
    | None => (w, Ret tt)
    end.

(** [p.write_text(text)]: the file is opened for writing, which empties
    it, and the text is written.  A failure on opening leaves the file as
    it was; a later one leaves it with the bytes that had reached it. *)
Definition write_text (p : path) (text : string) : M unit :=
  fun w =>
    match locked w !! p with
    | Some f =>
        match reached f with
        | Some n =>
            ({| fs := <[p := TextFile (Py.take n text)]> (fs w);
                locked := locked w;
                writes := writes w ++ [(p, Py.take n text)];
                stdout := stdout w; stderr := stderr w;
                dialogs := dialogs w |}, Raise (OSError (reason f)))
        | None => (w, Raise (OSError (reason f)))
        end
    | None =>
        ({| fs := <[p := TextFile text]> (fs w); locked := locked w;
            writes := writes w ++ [(p, text)];
            stdout := stdout w; stderr := stderr w;
            dialogs := dialogs w |}, Ret tt)
    end.

(** [p.read_text()]; audio data is taken not to decode as text. *)
Definition read_text (p : path) : M string :=
  fun w =>
    match fs w !! p with
    | Some (TextFile s) => (w, Ret s)
    | Some (Wav _ _ _) => (w, Raise UnicodeDecodeError)
    | Some (Unreadable e) => (w, Raise e)
    | None => (w, Raise (FileNotFoundError
                           ("[Errno 2] No such file or directory: '"
                              +:+ path_str p +:+ "'")))
    end.

(** [wave.open(str(p), "rb")]: the header of a container is checked by
    [_read_fmt_chunk], and a reader is returned when it passes; the bytes
    of a text file go through [Wave_read.initfp]. *)
Definition wave_open (p : path) : M Wave.Wave_read :=
  fun w =>
    match fs w !! p with
    | Some (Wav h size data) =>
        match Wave.read_fmt h with
        | inl msg => (w, Raise (WaveError msg))
        | inr (channels, width) =>
            (w, Ret {| Wave.nchannels := channels; Wave.sampwidth := width;
                       Wave.framerate := Wave.nSamplesPerSec h;
                       Wave.chunksize := size; Wave.data_chunk := data |})
        end
    | Some (TextFile s) =>
        match Wave.initfp s with
        | Wave.Ok r => (w, Ret r)
        | Wave.Refused msg => (w, Raise (WaveError msg))
        | Wave.EndOfFile => (w, Raise EOFError)
        | Wave.BadSeek => (w, Raise RuntimeError)
        end
    | Some (Unreadable e) => (w, Raise e)
    | None => (w, Raise (FileNotFoundError
                           ("[Errno 2] No such file or directory: '"
                              +:+ path_str p +:+ "'")))
    end.

Definition when (c : bool) (m : M unit) : M unit :=
  if c then m else ret tt.

(** [for x in l: body x]. *)
Fixpoint for_each {A} (l : list A) (body : A -> M unit) : M unit :=
  match l with
  | [] => ret tt
  | x :: l' => bind (body x) (fun _ => for_each l' body)
  end.

(** The status the process ends with. *)
Definition exit_status {A} (r : outcome A) : Z :=
  match r with
  | Ret _ => 0
  | Exit c => c
  | Raise _ => 1
  end.

End runtime.

Arguments world path {_ _}.
Arguments M path {_ _} A.

(** stdpp's monad notations: [x ← m; k] and [m;; k]. *)
#[global] Instance M_ret `{Pathlib path} : MRet (M path) := @ret path _ _.
#[global] Instance M_bind `{Pathlib path} : MBind (M path) :=
  fun A B k m => bind m k.
(** ** [convert.py]: the command-line converter *)

Module Convert.
Section convert.
Context `{Pathlib path} `{FloatFormat}.

Definition MAX_FILES : Z := 18.
Definition MAX_SECONDS : Z := 20.

(** The body of [with wave.open(...) as w:]; it leaves [rate], [frames]
    and [raw_bytes] to the code after the block. *)
Definition with_wave (w : Wave.Wave_read) (max_seconds : Z)
  : M path (Z * Z * list byte) :=
  when (negb (Wave.getnchannels w =? 1))
    (eprint "Error: Stereo is not supported. Use mono.";; sys_exit 1);;
  when (negb (Wave.getsampwidth w =? 2))
    (eprint "Error: Only 16‑bit PCM is supported.";; sys_exit 1);;
  when (negb (String.eqb (Wave.getcomptype w) "NONE"))
    (eprint "Error: Compressed WAV is not supported.";; sys_exit 1);;
  let rate := Wave.getframerate w in
  let frames := Z.min (rate * max_seconds) (Wave.getnframes w) in
  let raw_bytes := Wave.readframes w frames in
  mret (rate, frames, raw_bytes).

(** [frames / rate] formatted with [.2f]. *)
Definition duration (frames rate : Z) : M path string :=
  if rate =? 0 then raise ZeroDivisionError
  else mret (format_2f frames rate).

(** The [if output_dir: ... else: ...] that chooses [out_path]. *)
Definition out_path_for (in_path : path) (output_dir : option path) : path :=
  match output_dir with
  | Some d => path_join d (path_name (with_suffix in_path ".txt"))
  | None => with_suffix in_path ".txt"
  end.

Definition process_file (in_path : path) (output_dir : option path)
           (verbose : bool) (max_seconds : Z) : M path unit :=
  found ← path_exists in_path;
  when (negb found)
    (eprint ("Error: File not found: " +:+ path_str in_path);; sys_exit 1);;
  let out_path := out_path_for in_path output_dir in
  try_except
    ('(rate, frames, raw_bytes) ←
         (w ← wave_open in_path; with_wave w max_seconds);
     let hex_line := Hex.hex_line raw_bytes in
     mkdir_parents (path_parent out_path);;
     write_text out_path hex_line;;
     when verbose
       (print ("Processed: " +:+ path_name in_path);;
        print ("  Sample rate: " +:+ pretty rate +:+ " Hz");;
        d ← duration frames rate;
        print ("  Duration: " +:+ d +:+ " seconds");;
        print ("  Bytes: " +:+ pretty (Z.of_nat (length raw_bytes))));;
     print ("Wrote " +:+ pretty (Z.of_nat (length raw_bytes)) +:+ " bytes ("
            +:+ pretty (Py.len hex_line) +:+ " characters) to "
            +:+ path_str out_path))
    (fun e =>
       if is_wave_error e
       then eprint ("Error processing " +:+ path_str in_path +:+ ": "
                    +:+ exn_str e);; sys_exit 1
       else eprint ("Unexpected error processing " +:+ path_str in_path
                    +:+ ": " +:+ exn_str e);; sys_exit 1).

(** What [parser.parse_args()] returns: the positional [files] and the
    options [-o/--output-dir], [-v/--verbose] and [--max-seconds]. *)
Record Namespace := {
  files : list path;
  output_dir : option path;
  verbose : bool;
  max_seconds : Z
}.

(** The namespace when only the files are given. *)
Definition defaults (fl : list path) : Namespace :=
  {| files := fl; output_dir := None; verbose := false;
     max_seconds := MAX_SECONDS |}.

(** The body of the loop that validates the paths before any is
    processed. *)
Definition precheck (file_path : path) : M path unit :=
  found ← path_exists file_path;
  when (negb found)
    (eprint ("Error: File not found: " +:+ path_str file_path);;
     sys_exit 1);;
  when (negb (String.eqb (Py.lower (path_suffix file_path)) ".wav"))
    (eprint ("Warning: " +:+ path_str file_path
             +:+ " doesn't have .wav extension")).

Definition main (args : Namespace) : M path unit :=
  let n := Z.of_nat (length (files args)) in
  when (n >? MAX_FILES)
    (eprint ("Error: Too many files specified (" +:+ pretty n
             +:+ "). The limit is " +:+ pretty MAX_FILES +:+ ".");;
     sys_exit 1);;
  for_each (files args) precheck;;
  for_each (files args) (fun file_path =>
    process_file file_path (output_dir args) (verbose args)
                 (max_seconds args));;
  print (Py.nl +:+ "Successfully processed " +:+ pretty n +:+ " file(s)").

End convert.
End Convert.

(** ** [wav_table_gen_v1.py]: the dialog-driven converter *)

Module WavTableGenV1.
Section gui.
Context `{Pathlib path}.

Definition MAX_FILES : Z := 18.
Definition MAX_SECONDS : Z := 20.

(** [bail(msg)]: an error box, then exit. *)
Definition bail {A} (msg : string) : M path A :=
  show (ShowError "Aborted" msg);; sys_exit 1.

Definition with_wave (w : Wave.Wave_read) : M path (Z * Z * list byte) :=
  when (negb (Wave.getnchannels w =? 1))
    (bail "Stereo is not supported. Use mono.");;
  when (negb (Wave.getsampwidth w =? 2))
    (bail "Only 16‑bit PCM is supported.");;
  when (negb (String.eqb (Wave.getcomptype w) "NONE"))
    (bail "Compressed WAV is not supported.");;
  let rate := Wave.getframerate w in
  let frames := Z.min (rate * MAX_SECONDS) (Wave.getnframes w) in
  let raw_bytes := Wave.readframes w frames in
  mret (rate, frames, raw_bytes).

Definition process_file (in_path : path) : M path unit :=
  found ← path_exists in_path;
  when (negb found) (bail ("File not found: " +:+ path_str in_path));;
  let out_path := with_suffix in_path ".txt" in
  '(rate, frames, raw_bytes) ← (w ← wave_open in_path; with_wave w);
  let hex_line := Hex.hex_line raw_bytes in
  write_text out_path hex_line;;
  show (ShowInfo "Done"
          ("Wrote " +:+ pretty (Z.of_nat (length raw_bytes)) +:+ " bytes ("
           +:+ pretty (Py.len hex_line) +:+ " characters) to "
           +:+ path_name out_path)).

(** [main], given what [pick_files()] returned from the dialog. *)
Definition main (picked : list path) : M path unit :=
  let in_paths := picked in
  when (bool_decide (in_paths = []))
    (eprint "Cancelled by user";; sys_exit 1);;
  let n := Z.of_nat (length in_paths) in
  when (n >? MAX_FILES)
    (bail ("Too many files selected (" +:+ pretty n
           +:+ "). The limit is " +:+ pretty MAX_FILES +:+ "."));;
  for_each in_paths process_file.

End gui.
End WavTableGenV1.

(** ** [split_samples.py]: the header splitter *)

Module SplitSamples.
Section split.
Context `{Pathlib path}.

(** The double-quote character. *)
Definition dq : string := String "034" EmptyString.

(** A class that excludes one character. *)
Definition not_char (c : string) : string -> bool :=
  fun ch => negb (String.eqb ch c).

(** [const uint8_t (sample\d+)\[\] PROGMEM = \{([^}]+)\};] *)
Definition pattern : list Re.atom :=
  Re.lit "const uint8_t "
  ++ [Re.Open] ++ Re.lit "sample" ++ [Re.Plus Py.isdecimal; Re.Close]
  ++ Re.lit "[] PROGMEM = {"
  ++ [Re.Open; Re.Plus (not_char "}"); Re.Close]
  ++ Re.lit "};".

(** [/\*[^*]*\*/] *)
Definition comment_pattern : list Re.atom :=
  Re.lit "/*" ++ [Re.Star (not_char "*")] ++ Re.lit "*/".

(** [\s+] *)
Definition space_pattern : list Re.atom := [Re.Plus Py.isspace].

(** [re.findall(pattern, content, re.DOTALL)]: one (name, data) pair per
    match. *)
Definition find_matches (content : string) : list (string * string) :=
  map (fun groups =>
         match groups with
         | [sample_name; sample_data] => (sample_name, sample_data)
         | _ => (EmptyString, EmptyString)
         end)
      (Re.findall pattern content).

(** The two [re.sub] calls that build [cleaned_data]. *)
Definition clean (sample_data : string) : string :=
  let cleaned_data := Re.sub comment_pattern EmptyString sample_data in
  Re.sub space_pattern " " (Py.strip cleaned_data).

(** The test guarding [continue]. *)
Definition skipped (cleaned_data : string) : bool :=
  String.eqb cleaned_data EmptyString
  || String.eqb (Py.strip cleaned_data) EmptyString
  || Py.contains "placeholder" (Py.lower cleaned_data).

(** The loop building [formatted_lines]. *)
Definition format_lines (hex_values : list string) : list string :=
  map (fun i =>
         let line := Py.join ", " (Py.slice hex_values i 16) in
         let line := if (i + 16 <? length hex_values)%nat
                     then line +:+ "," else line in
         "    " +:+ line)
      (Py.range_step (length hex_values) 16).

Definition header_content (sample_name formatted_data : string) : string :=
  let guard := Py.upper sample_name in
  "#ifndef " +:+ guard +:+ "_H" +:+ Py.nl
  +:+ "#define " +:+ guard +:+ "_H" +:+ Py.nl
  +:+ Py.nl
  +:+ "#include <pgmspace.h>" +:+ Py.nl
  +:+ Py.nl
  +:+ "// Sample data for " +:+ sample_name +:+ Py.nl
  +:+ "const uint8_t " +:+ sample_name +:+ "[] PROGMEM = {" +:+ Py.nl
  +:+ formatted_data +:+ Py.nl
  +:+ "};" +:+ Py.nl
  +:+ Py.nl
  +:+ "// Sample length in 16-bit units" +:+ Py.nl
  +:+ "#define " +:+ guard +:+ "_LEN ((uint32_t)(sizeof(" +:+ sample_name
  +:+ ") / 2))" +:+ Py.nl
  +:+ Py.nl
  +:+ "#endif // " +:+ guard +:+ "_H" +:+ Py.nl.

(** [for sample_name, sample_data in matches: ...], threading
    [valid_samples]. *)
Fixpoint samples_loop (output_dir : path) (matches : list (string * string))
         (valid_samples : list string) : M path (list string) :=
  match matches with
  | [] => mret valid_samples
  | (sample_name, sample_data) :: rest =>
      let cleaned_data := clean sample_data in
      if skipped cleaned_data then
        print ("Skipping empty sample: " +:+ sample_name);;
        samples_loop output_dir rest valid_samples
      else
        let valid_samples := valid_samples ++ [sample_name] in
        let hex_values := Py.split ", " cleaned_data in
        let formatted_data := Py.join Py.nl (format_lines hex_values) in
        let output_file := path_join output_dir (sample_name +:+ ".h") in
        write_text output_file (header_content sample_name formatted_data);;
        print ("Created: " +:+ path_str output_file);;
        samples_loop output_dir rest valid_samples
  end.

(** The lines added by [for i, sample_name in enumerate(valid_samples)]. *)
Definition enumerated (item : string -> string) (valid_samples : list string)
  : string :=
  String.concat EmptyString
    (imap (fun i sample_name =>
             "    " +:+ item sample_name
             +:+ (if Z.of_nat i <? Z.of_nat (length valid_samples) - 1
                  then "," else EmptyString)
             +:+ Py.nl)
          valid_samples).

Definition master_content (valid_samples : list string) : string :=
  "#ifndef SAMPLES_H" +:+ Py.nl
  +:+ "#define SAMPLES_H" +:+ Py.nl
  +:+ Py.nl
  +:+ "// Include all individual sample headers" +:+ Py.nl
  +:+ String.concat EmptyString
        (map (fun sample_name =>
                "#include " +:+ dq +:+ sample_name +:+ ".h" +:+ dq +:+ Py.nl)
             valid_samples)
  +:+ Py.nl
  +:+ "// Array of sample pointers for easy access" +:+ Py.nl
  +:+ "const uint8_t* const samples[] = {" +:+ Py.nl
  +:+ enumerated (fun sample_name => sample_name) valid_samples
  +:+ "};" +:+ Py.nl
  +:+ Py.nl
  +:+ "// Array of sample lengths" +:+ Py.nl
  +:+ "const uint16_t sample_lengths[] = {" +:+ Py.nl
  +:+ enumerated (fun sample_name => Py.upper sample_name +:+ "_LEN")
        valid_samples
  +:+ "};" +:+ Py.nl
  +:+ Py.nl
  +:+ "#define NUM_SAMPLES (sizeof(samples) / sizeof(samples[0]))" +:+ Py.nl
  +:+ Py.nl
  +:+ "#endif // SAMPLES_H" +:+ Py.nl.

Definition extract_samples (input_file output_dir : path) : M path unit :=
  content ← read_text input_file;
  mkdir_parents output_dir;;
  let matches := find_matches content in
  print ("Found " +:+ pretty (Z.of_nat (length matches)) +:+ " sample arrays");;
  valid_samples ← samples_loop output_dir matches [];
  let master_file := path_join output_dir "samples.h" in
  write_text master_file (master_content valid_samples);;
  print ("Created master include file: " +:+ path_str master_file).

Definition main : M path unit :=
  let input_file := Path "src/sample.h" in
  let output_dir := Path "src/samples" in
  found ← path_exists input_file;
  if negb found
  then print ("Error: Input file " +:+ path_str input_file +:+ " not found")
  else
    extract_samples input_file output_dir;;
    print "Sample extraction complete!".

(** A match the loop does not skip, and the header file it writes for
    such a match. *)
Definition kept (m : string * string) : bool :=
  negb (skipped (clean m.2)).

Definition array_file (output_dir : path) (m : string * string)
  : path * string :=
  (path_join output_dir (m.1 +:+ ".h"),
   header_content m.1
     (Py.join Py.nl (format_lines (Py.split ", " (clean m.2))))).

End split.
End SplitSamples.

(** ** Paths as plain text

    An instance of [Pathlib] for relative POSIX paths written without
    redundant separators; it is what the examples run on. *)

Module TextPath.

(** The text after the last [/]. *)
Fixpoint name_of (s : string) : string :=
  match s with
  | EmptyString => EmptyString
  | String a s' =>
      if Py.mem "/" s' then name_of s'
      else if Ascii.eqb a "/" then s' else s
  end.

(** The text up to the last [/]. *)
Fixpoint dir_of (s : string) : string :=
  match s with
  | EmptyString => EmptyString
  | String a s' => if Py.mem "/" s' then String a (dir_of s') else EmptyString
  end.

(** [.] when the path has a single component. *)
Definition parent_of (s : string) : string :=
  if Py.mem "/" s then dir_of s else ".".

(** The last dot of the name and what follows, unless the dot starts or
    ends the name. *)
Fixpoint suffix_go (s : string) (first : bool) : string :=
  match s with
  | EmptyString => EmptyString
  | String a s' =>
      if Py.mem "." s' then suffix_go s' false
      else if Ascii.eqb a "." && negb first
              && negb (String.eqb s' EmptyString)
           then s else EmptyString
  end.

Definition suffix_of (s : string) : string := suffix_go (name_of s) true.

Definition with_suffix_of (s suffix : string) : string :=
  Py.take (String.length s - String.length (suffix_of s)) s +:+ suffix.

Definition join_of (d name : string) : string := d +:+ "/" +:+ name.

#[global] Instance text_pathlib : Pathlib string := {|
  Path := fun s => s;
  path_str := fun p => p;
  path_name := name_of;
  path_suffix := suffix_of;
  path_parent := parent_of;
  with_suffix := with_suffix_of;
  path_join := join_of
|}.

(** A stand-in for the float formatting, which the embedding leaves open:
    whole part and two decimals of the quotient, cut off rather than
    rounded.  No example below prints a duration. *)
Definition two_decimals (a b : Z) : string :=
  let q := (a * 100) / b in
  let frac := q mod 100 in
  pretty (q / 100) +:+ "." +:+ (if frac <? 10 then "0" else EmptyString)
  +:+ pretty frac.

#[global] Instance text_float : FloatFormat := {| format_2f := two_decimals |}.

(** A world holding the given files and nothing else. *)
Definition world_of (files : list (string * file)) : world string :=
  {| fs := list_to_map files; locked := ∅; writes := []; stdout := [];
     stderr := []; dialogs := [] |}.

End TextPath.

(** ** Vocabulary of the properties and sample inputs *)

(** A valid input of the converters: mono, 16-bit, uncompressed. *)
Definition pcm_mono16 (w : Wave.Wave_read) : Prop :=
  Wave.getnchannels w = 1 /\ Wave.getsampwidth w = 2
  /\ Wave.getcomptype w = "NONE"%string.

(** The line both converters report after writing. *)
Definition wrote_line (raw_bytes : list byte) (target : string) : string :=
  "Wrote " +:+ pretty (Z.of_nat (length raw_bytes)) +:+ " bytes ("
  +:+ pretty (Py.len (Hex.hex_line raw_bytes)) +:+ " characters) to "
  +:+ target.

(** The text of the header for one array, given the lines of its byte
    list. *)
Definition header_text (name : string) (lines : list string) : string :=
  "#ifndef " +:+ Py.upper name +:+ "_H" +:+ Py.nl
  +:+ "#define " +:+ Py.upper name +:+ "_H" +:+ Py.nl
  +:+ Py.nl
  +:+ "#include <pgmspace.h>" +:+ Py.nl
  +:+ Py.nl
  +:+ "// Sample data for " +:+ name +:+ Py.nl
  +:+ "const uint8_t " +:+ name +:+ "[] PROGMEM = {" +:+ Py.nl
  +:+ Py.join Py.nl lines +:+ Py.nl
  +:+ "};" +:+ Py.nl
  +:+ Py.nl
  +:+ "// Sample length in 16-bit units" +:+ Py.nl
  +:+ "#define " +:+ Py.upper name +:+ "_LEN ((uint32_t)(sizeof(" +:+ name
  +:+ ") / 2))" +:+ Py.nl
  +:+ Py.nl
  +:+ "#endif // " +:+ Py.upper name +:+ "_H" +:+ Py.nl.

(** The text of the index for the given array names, line by line. *)
Definition index_text (names : list string) : string :=
  "#ifndef SAMPLES_H" +:+ Py.nl
  +:+ "#define SAMPLES_H" +:+ Py.nl
  +:+ Py.nl
  +:+ "// Include all individual sample headers" +:+ Py.nl
  +:+ String.concat EmptyString
        (map (fun name => "#include " +:+ SplitSamples.dq +:+ name +:+ ".h"
                          +:+ SplitSamples.dq +:+ Py.nl) names)
  +:+ Py.nl
  +:+ "// Array of sample pointers for easy access" +:+ Py.nl
  +:+ "const uint8_t* const samples[] = {" +:+ Py.nl
  +:+ String.concat EmptyString
        (imap (fun i name =>
                 "    " +:+ name
                 +:+ (if (S i <? length names)%nat then "," else EmptyString)
                 +:+ Py.nl) names)
  +:+ "};" +:+ Py.nl
  +:+ Py.nl
  +:+ "// Array of sample lengths" +:+ Py.nl
  +:+ "const uint16_t sample_lengths[] = {" +:+ Py.nl
  +:+ String.concat EmptyString
        (imap (fun i name =>
                 "    " +:+ Py.upper name +:+ "_LEN"
                 +:+ (if (S i <? length names)%nat then "," else EmptyString)
                 +:+ Py.nl) names)
  +:+ "};" +:+ Py.nl
  +:+ Py.nl
  +:+ "#define NUM_SAMPLES (sizeof(samples) / sizeof(samples[0]))" +:+ Py.nl
  +:+ Py.nl
  +:+ "#endif // SAMPLES_H" +:+ Py.nl.

Module Examples.
Import TextPath.

(** Three frames at 1 Hz. *)
Definition kick : Wave.Wave_read :=
  {| Wave.nchannels := 1; Wave.sampwidth := 2; Wave.framerate := 1;
     Wave.chunksize := 6;
     Wave.data_chunk := [x00; x01; xff; x7f; x10; x20] |}.

(** Two channels of 8-bit samples. *)
Definition wide : Wave.Wave_read :=
  {| Wave.nchannels := 2; Wave.sampwidth := 1; Wave.framerate := 8000;
     Wave.chunksize := 4; Wave.data_chunk := [x01; x02; x03; x04] |}.

(** A header with frame rate 0, which the reader accepts. *)
Definition still : Wave.Wave_read :=
  {| Wave.nchannels := 1; Wave.sampwidth := 2; Wave.framerate := 0;
     Wave.chunksize := 4; Wave.data_chunk := [x01; x02; x03; x04] |}.

Definition studio : world string :=
  world_of [("kick.wav", WavFile kick); ("wide.wav", WavFile wide);
            ("still.wav", WavFile still)].

(** Nineteen valid files, one more than the limit. *)
Definition nineteen : list string :=
  map (fun i => "take" +:+ pretty i +:+ ".wav") (seq 1 19).

Definition crate : world string :=
  world_of (map (fun p => (p, WavFile kick)) nineteen).

(** A header with two arrays: four bytes with a comment among them, and
    a placeholder. *)
Definition two_arrays : string :=
  "// kick samples" +:+ Py.nl
  +:+ "const uint8_t sample1[] PROGMEM = {" +:+ Py.nl
  +:+ "  0x00, 0x01, /* attack */ 0x02," +:+ Py.nl
  +:+ "  0x03" +:+ Py.nl
  +:+ "};" +:+ Py.nl
  +:+ "const uint8_t sample2[] PROGMEM = { PLACEHOLDER };" +:+ Py.nl.

Definition sources : world string :=
  world_of [("src/sample.h", TextFile two_arrays)].





(** A stereo file in mu-law coding (format tag 7), and a PCM header that
    declares no channel. *)
Definition mulaw_stereo : file :=
  Wav {| Wave.wFormatTag := 7; Wave.nChannels := 2;
         Wave.nSamplesPerSec := 8000; Wave.wBitsPerSample := 8 |}
      4 [x01; x02; x03; x04].

Definition no_channel : file :=
  Wav {| Wave.wFormatTag := 1; Wave.nChannels := 0;
         Wave.nSamplesPerSec := 8000; Wave.wBitsPerSample := 16 |}
      4 [x01; x02; x03; x04].

(** A recording cut short: the header declares fifty frames, the file
    holds two. *)
Definition cut_short : Wave.Wave_read :=
  {| Wave.nchannels := 1; Wave.sampwidth := 2; Wave.framerate := 8000;
     Wave.chunksize := 100; Wave.data_chunk := [x01; x02; x03; x04] |}.

Definition stage : world string :=
  world_of [("kick.wav", WavFile kick); ("mulaw.wav", mulaw_stereo);
            ("mute.wav", no_channel); ("cut.wav", WavFile cut_short)].

End Examples.

(** ** Vocabulary of the further properties *)

(** The three format checks of both converters, in the order the code
    makes them: the message of the first that fails. *)
Definition format_error (w : Wave.Wave_read) : option string :=
  if negb (Wave.getnchannels w =? 1)
  then Some "Stereo is not supported. Use mono."
  else if negb (Wave.getsampwidth w =? 2)
  then Some "Only 16‑bit PCM is supported."
  else if negb (String.eqb (Wave.getcomptype w) "NONE")
  then Some "Compressed WAV is not supported."
  else None.

(** What [wave.open] raises on a file that does not begin with [RIFF]:
    [EOFError] when the eight bytes of a chunk header are not there. *)
Definition refusal_of (s : string) : exn :=
  if (String.length s <? 8)%nat then EOFError
  else WaveError "file does not start with RIFF id".

(** A character as [Py.chars] yields it: not empty, and holding a byte
    below 128 only when it is that byte alone. *)
Definition one_char (ch : string) : Prop :=
  ch <> EmptyString
  /\ forall a : ascii,
       Py.mem a ch = true -> (Py.code a < 128)%N -> ch = String a EmptyString.

(** The capture state once the open groups have taken in the characters
    [taken]. *)
Definition fed_all (taken : list string) (st : Re.caps) : Re.caps :=
  {| Re.done_groups := Re.done_groups st;
     Re.open_groups :=
       map (fun g => g +:+ String.concat EmptyString taken)
           (Re.open_groups st) |}.

(** More sample inputs. *)

Module Gallery.
Import TextPath Examples.

(** A mono file of 8-bit samples, and a mono file in mu-law coding. *)
Definition narrow : Wave.Wave_read :=
  {| Wave.nchannels := 1; Wave.sampwidth := 1; Wave.framerate := 8000;
     Wave.chunksize := 2; Wave.data_chunk := [x01; x02] |}.

Definition packed : file :=
  Wav {| Wave.wFormatTag := 7; Wave.nChannels := 1;
         Wave.nSamplesPerSec := 8000; Wave.wBitsPerSample := 8 |}
      2 [x01; x02].

(** A PCM header that declares samples of no bits. *)
Definition hollow : file :=
  Wav {| Wave.wFormatTag := 1; Wave.nChannels := 1;
         Wave.nSamplesPerSec := 8000; Wave.wBitsPerSample := 0 |}
      2 [x01; x02].

(** A folder with valid and invalid inputs, a listing kept from an
    earlier run, and a valid file under another suffix. *)
Definition desk : world string :=
  world_of [("kick.wav", WavFile kick); ("narrow.wav", WavFile narrow);
            ("packed.wav", packed); ("hollow.wav", hollow);
            ("wide.wav", WavFile wide); ("still.wav", WavFile still);
            ("old.txt", TextFile "0x00,0x01"); ("kick.raw", WavFile kick)].

(** The same folder where [kick.txt] cannot be written. *)
Definition sealed : world string :=
  {| fs := fs desk;
     locked := {["kick.txt" :=
                   {| reason := "[Errno 13] Permission denied: 'kick.txt'";
                      reached := None |}]};
     writes := []; stdout := []; stderr := []; dialogs := [] |}.

(** The same folder where the disk fills up after nine bytes of
    [kick.txt]. *)
Definition cramped : world string :=
  {| fs := fs desk;
     locked := {["kick.txt" :=
                   {| reason := "[Errno 28] No space left on device";
                      reached := Some 9%nat |}]};
     writes := []; stdout := []; stderr := []; dialogs := [] |}.

(** The bytes of the file the library's writer makes of [kick]: the RIFF
    header with the form name, a [fmt] chunk of 16 bytes, and the [data]
    chunk of 6 bytes. *)
Definition kick_bytes : string :=
  string_of_list_byte
    [x52; x49; x46; x46; x2a; x00; x00; x00; x57; x41; x56; x45;
     x66; x6d; x74; x20; x10; x00; x00; x00;
     x01; x00; x01; x00; x01; x00; x00; x00; x02; x00; x00; x00;
     x02; x00; x10; x00;
     x64; x61; x74; x61; x06; x00; x00; x00;
     x00; x01; xff; x7f; x10; x20].

(** A header without any array. *)
Definition bare : world string :=
  world_of [("src/sample.h", TextFile "// no samples yet")].

(** A header whose second array is named with a full-width digit and
    whose third holds only a no-break space. *)
Definition fullwidth_one : string :=
  String "239" (String "188" (String "145" EmptyString)).
Definition no_break_space : string := String "194" (String "160" EmptyString).

Definition wide_text : string :=
  "const uint8_t sample1[] PROGMEM = { 0x01, 0x02 };" +:+ Py.nl
  +:+ "const uint8_t sample" +:+ fullwidth_one
  +:+ "[] PROGMEM = { 0x03 };" +:+ Py.nl
  +:+ "const uint8_t sample3[] PROGMEM = {" +:+ no_break_space +:+ "};"
  +:+ Py.nl.

End Gallery.

(* ===================================================================== *)
(** * Properties *)
(* ===================================================================== *)

(** ** Text lemmas *)

(** stdpp keeps [simpl] from unfolding text concatenation; the proofs
    below compute with it. *)
#[local] Arguments String.append !_ _ / : simpl nomatch.

Section text_lemmas.

Lemma append_nil_r (s : string) : s +:+ EmptyString = s.
Proof. induction s as [|a s IH]; simpl; [reflexivity | now rewrite IH]. Qed.

Lemma append_assoc (s t u : string) : (s +:+ t) +:+ u = s +:+ (t +:+ u).
Proof. induction s as [|a s IH]; simpl; [reflexivity | now rewrite IH]. Qed.

Lemma length_append (s t : string) :
  String.length (s +:+ t) = (String.length s + String.length t)%nat.
Proof. induction s as [|a s IH]; simpl; [reflexivity | now rewrite IH]. Qed.

Lemma mem_append (c : ascii) (s t : string) :
  Py.mem c (s +:+ t) = Py.mem c s || Py.mem c t.
Proof.
  induction s as [|a s IH]; simpl; [reflexivity |].
  rewrite IH. now rewrite orb_assoc.
Qed.

Lemma count_append (c : ascii) (s t : string) :
  Py.count c (s +:+ t) = (Py.count c s + Py.count c t)%nat.
Proof. induction s as [|a s IH]; simpl; [reflexivity | rewrite IH; lia]. Qed.

(** Joining with one more part at the end. *)
Lemma join_snoc (sep : string) (parts : list string) (x : string) :
  Py.join sep (parts ++ [x]) =
  match parts with
  | [] => x
  | _ :: _ => Py.join sep parts +:+ sep +:+ x
  end.
Proof.
  unfold Py.join.
  induction parts as [|y parts IH]; [reflexivity |].
  destruct parts as [|z parts].
  - reflexivity.
  - change (String.concat sep ((y :: z :: parts) ++ [x]))
      with (y +:+ sep +:+ String.concat sep ((z :: parts) ++ [x])).
    rewrite IH.
    change (String.concat sep (y :: z :: parts))
      with (y +:+ sep +:+ String.concat sep (z :: parts)).
    now rewrite !append_assoc.
Qed.

End text_lemmas.

(** ** The hex encoder *)

Section hex_encoder.

(** Every entry is [0x] and the two upper-case digits of the byte. *)
Lemma entry_digits (b : byte) :
  Hex.entry b =
  String "0" (String "x"
    (String (Hex.hex_digit (Byte.to_N b / 16))
       (String (Hex.hex_digit (Byte.to_N b mod 16)) EmptyString))).
Proof. destruct b; reflexivity. Qed.

Lemma hex_digit_upper (d : N) : Hex.is_upper_hex (Hex.hex_digit d) = true.
Proof.
  unfold Hex.hex_digit.
  destruct (N.to_nat d) as [|[|[|[|[|[|[|[|[|[|[|[|[|[|[|[|n]]]]]]]]]]]]]]]];
    reflexivity.
Qed.

Lemma entry_length (b : byte) : String.length (Hex.entry b) = 4%nat.
Proof. now rewrite entry_digits. Qed.

Lemma entry_no_char (c : ascii) (b : byte) :
  Hex.is_upper_hex c = false -> c <> "x"%char -> Py.mem c (Hex.entry b) = false.
Proof.
  intros Hc Hx. rewrite entry_digits. cbn [Py.mem].
  assert (Hd : forall d, Ascii.eqb (Hex.hex_digit d) c = false).
  { intros d. destruct (Ascii.eqb_spec (Hex.hex_digit d) c) as [<-|]; [|reflexivity].
    now rewrite hex_digit_upper in Hc. }
  assert (H0 : Ascii.eqb "0" c = false).
  { destruct (Ascii.eqb_spec "0" c) as [<-|]; [discriminate Hc | reflexivity]. }
  assert (H1 : Ascii.eqb "x" c = false).
  { destruct (Ascii.eqb_spec "x" c) as [<-|]; [now destruct Hx | reflexivity]. }
  now rewrite !Hd, H0, H1.
Qed.

Lemma entry_count (c : ascii) (b : byte) :
  Py.mem c (Hex.entry b) = false -> Py.count c (Hex.entry b) = 0%nat.
Proof.
  generalize (Hex.entry b) as s.
  induction s as [|a s IH]; simpl; [reflexivity |].
  destruct (Ascii.eqb a c); simpl; [discriminate | exact IH].
Qed.

Lemma hex_line_cons (b : byte) (rest : list byte) :
  Hex.hex_line (b :: rest) =
  match rest with
  | [] => Hex.entry b
  | _ :: _ => Hex.entry b +:+ "," +:+ Hex.hex_line rest
  end.
Proof. destruct rest; reflexivity. Qed.

Lemma hex_line_length (raw_bytes : list byte) :
  raw_bytes <> [] ->
  String.length (Hex.hex_line raw_bytes) = (5 * length raw_bytes - 1)%nat.
Proof.
  induction raw_bytes as [|b rest IH]; [congruence | intros _].
  rewrite hex_line_cons. destruct rest as [|b' rest].
  - now rewrite entry_length.
  - rewrite !length_append, entry_length, IH by discriminate.
    simpl String.length. simpl length. lia.
Qed.

Lemma hex_line_mem (c : ascii) (raw_bytes : list byte) :
  Hex.is_upper_hex c = false -> c <> "x"%char -> c <> ","%char ->
  Py.mem c (Hex.hex_line raw_bytes) = false.
Proof.
  intros Hc Hx Hcomma.
  induction raw_bytes as [|b rest IH]; [reflexivity |].
  rewrite hex_line_cons. destruct rest as [|b' rest].
  - now apply entry_no_char.
  - rewrite !mem_append, IH, entry_no_char by assumption. cbn [Py.mem].
    destruct (Ascii.eqb_spec "," c) as [<-|]; [now destruct Hcomma | reflexivity].
Qed.

Lemma hex_line_commas (raw_bytes : list byte) :
  Py.count "," (Hex.hex_line raw_bytes) = (length raw_bytes - 1)%nat.
Proof.
  induction raw_bytes as [|b rest IH]; [reflexivity |].
  rewrite hex_line_cons. destruct rest as [|b' rest].
  - now rewrite entry_count by (now apply entry_no_char).
  - rewrite !count_append, IH, entry_count by (now apply entry_no_char).
    simpl. lia.
Qed.

(** C1, as the code has it.  For a non-empty buffer, every byte is
    rendered as [0x] followed by exactly two upper-case hex digits (its
    high and low nibble); the listing is the entries in order with a
    single comma between neighbours, so it ends with the last entry and
    has one comma fewer than entries; it holds no line break; and it is
    [5 * len(buffer) - 1] characters long (four per entry plus the
    commas), not [4 * len(buffer) - 1]. *)
Theorem hex_listing_shape (raw_bytes : list byte) :
  raw_bytes <> [] ->
  (forall b, In b raw_bytes ->
     exists hi lo : ascii,
       Hex.entry b = String "0" (String "x" (String hi (String lo EmptyString)))
       /\ Hex.is_upper_hex hi = true /\ Hex.is_upper_hex lo = true
       /\ hi = Hex.hex_digit (Byte.to_N b / 16)
       /\ lo = Hex.hex_digit (Byte.to_N b mod 16))
  /\ (forall front b, raw_bytes = front ++ [b] ->
        Hex.hex_line raw_bytes =
        match front with
        | [] => Hex.entry b
        | _ :: _ => Hex.hex_line front +:+ "," +:+ Hex.entry b
        end)
  /\ Py.count "," (Hex.hex_line raw_bytes) = (length raw_bytes - 1)%nat
  /\ Py.mem "010" (Hex.hex_line raw_bytes) = false
  /\ Py.mem "013" (Hex.hex_line raw_bytes) = false
  /\ Z.of_nat (String.length (Hex.hex_line raw_bytes))
     = 5 * Z.of_nat (length raw_bytes) - 1.
Proof.
  intros Hne. repeat split.
  - intros b _. exists (Hex.hex_digit (Byte.to_N b / 16)),
                       (Hex.hex_digit (Byte.to_N b mod 16)).
    repeat split; auto using entry_digits, hex_digit_upper.
  - intros front b ->. unfold Hex.hex_line. rewrite map_app. simpl map.
    rewrite join_snoc. destruct front; reflexivity.
  - apply hex_line_commas.
  - now apply hex_line_mem.
  - now apply hex_line_mem.
  - rewrite hex_line_length by assumption.
    destruct raw_bytes; [congruence | simpl length; lia].
Qed.

Lemma hex_listing_shape_witness :
  [x00; xff] <> []
  /\ Hex.hex_line [x00; xff] = "0x00,0xFF"
  /\ Z.of_nat (String.length (Hex.hex_line [x00; xff])) = 5 * 2 - 1.
Proof.
  split; [discriminate |]. split; [reflexivity |].
  apply (hex_listing_shape [x00; xff]). discriminate.
Defined.

(** The length [4 * len(buffer) - 1] is already wrong
    for a one-byte buffer: the listing [0x00] has four characters. *)
Lemma hex_listing_length_counterexample :
  [x00] <> []
  /\ Hex.hex_line [x00] = "0x00"
  /\ Z.of_nat (String.length (Hex.hex_line [x00]))
     <> 4 * Z.of_nat (length [x00]) - 1.
Proof. split; [discriminate |]. split; [reflexivity |]. vm_compute. discriminate. Qed.

End hex_encoder.

(** ** The converters *)

Section converters.
Context `{Pathlib path} `{FloatFormat}.
Implicit Types (st : world path) (in_path : path) (w : Wave.Wave_read).

(** Unfolds the monad so that a run can be computed step by step. *)
Ltac run_steps :=
  unfold mbind, mret, M_bind, M_ret, bind, ret, try_except, when, sys_exit,
    raise;
  cbn -[path_exists wave_open write_text mkdir_parents pretty Z.mul Z.min
        Wave.readframes Wave.getnframes Hex.hex_line String.append Z.of_nat
        String.eqb Z.eqb Z.gtb Convert.precheck Convert.process_file
        WavTableGenV1.process_file Convert.with_wave WavTableGenV1.with_wave
        Wave.getnchannels Wave.getsampwidth Wave.getcomptype
        Wave.getframerate Py.take].

Lemma path_exists_present st in_path (f : file) :
  fs st !! in_path = Some f -> path_exists in_path st = (st, Ret true).
Proof.
  intros Hf. unfold path_exists. rewrite Hf.
  now rewrite bool_decide_eq_true_2 by eauto.
Qed.

Lemma path_exists_absent st in_path :
  fs st !! in_path = None -> path_exists in_path st = (st, Ret false).
Proof.
  intros Hf. unfold path_exists. rewrite Hf.
  rewrite bool_decide_eq_false_2; [reflexivity |].
  intros [x Hx]. discriminate.
Qed.

(** The header written for a reader is read back as that reader. *)
Lemma read_fmt_of w :
  Wave.read_fmt (Wave.fmt_of w) = inr (Wave.nchannels w, Wave.sampwidth w).
Proof.
  unfold Wave.read_fmt, Wave.fmt_of. cbn -[N.div N.mul].
  assert (Hw : ((8 * N.pos (Wave.sampwidth w) + 7) / 8 = N.pos (Wave.sampwidth w))%N).
  { symmetry. apply N.div_unique with 7%N; lia. }
  now rewrite Hw.
Qed.

Lemma wave_open_wav st in_path w :
  fs st !! in_path = Some (WavFile w) -> wave_open in_path st = (st, Ret w).
Proof.
  intros Hf. unfold wave_open. rewrite Hf. unfold WavFile.
  rewrite read_fmt_of. now destruct w.
Qed.

(** A container with the PCM tag, at least one bit per sample and at
    least one channel is opened, and the reader reports its header. *)
Lemma wave_open_pcm st in_path (h : Wave.fmt) (size : N) (data : list byte) :
  fs st !! in_path = Some (Wav h size data) ->
  Wave.wFormatTag h = Wave.WAVE_FORMAT_PCM ->
  Wave.wBitsPerSample h <> 0%N ->
  Wave.nChannels h <> 0%N ->
  exists w,
    wave_open in_path st = (st, Ret w)
    /\ Wave.getnchannels w = Z.of_N (Wave.nChannels h)
    /\ Wave.getsampwidth w = Z.of_N ((Wave.wBitsPerSample h + 7) / 8)
    /\ Wave.framerate w = Wave.nSamplesPerSec h
    /\ Wave.chunksize w = size /\ Wave.data_chunk w = data.
Proof.
  intros Hf Htag Hbits Hch. unfold wave_open. rewrite Hf.
  unfold Wave.read_fmt. rewrite Htag. cbn [N.eqb Wave.WAVE_FORMAT_PCM Pos.eqb negb].
  assert (Hw : (0 < (Wave.wBitsPerSample h + 7) / 8)%N)
    by (apply N.div_str_pos; lia).
  destruct ((Wave.wBitsPerSample h + 7) / 8)%N as [|width]; [lia |].
  destruct (Wave.nChannels h) as [|channels]; [congruence |].
  eexists. split; [reflexivity |]. repeat split.
Qed.

(** C6, as the code has it.  A PCM file that the reader opens (PCM format
    tag, at least one bit per sample) and that has two channels or more
    is refused with the stereo message whatever its sample width: the
    command-line converter prints it on the error stream, the dialog one
    shows it in an error box; both exit with status 1 and write nothing.
    (A file in another coding, or one that declares no channel, is
    refused by the reader before the channel check.) *)
Theorem stereo_always_rejected st in_path (h : Wave.fmt) (size : N)
        (data : list byte) (output_dir : option path) (verbose : bool)
        (max_seconds : Z) :
  fs st !! in_path = Some (Wav h size data) ->
  Wave.wFormatTag h = Wave.WAVE_FORMAT_PCM ->
  Wave.wBitsPerSample h <> 0%N ->
  (1 < Wave.nChannels h)%N ->
  let cli := Convert.process_file in_path output_dir verbose max_seconds st in
  let gui := WavTableGenV1.process_file in_path st in
  (cli.2 = Exit 1
   /\ stderr cli.1 = stderr st ++ ["Error: Stereo is not supported. Use mono."]
   /\ stdout cli.1 = stdout st /\ fs cli.1 = fs st /\ writes cli.1 = writes st)
  /\ (gui.2 = Exit 1
      /\ dialogs gui.1
         = dialogs st ++ [ShowError "Aborted" "Stereo is not supported. Use mono."]
      /\ fs gui.1 = fs st /\ writes gui.1 = writes st).
Proof.
  intros Hf Htag Hbits Hch cli gui. subst cli gui.
  destruct (wave_open_pcm st in_path h size data Hf Htag Hbits)
    as (w & Hopen & Hn & _); [lia |].
  assert (Hne : (Wave.getnchannels w =? 1) = false)
    by (apply Z.eqb_neq; lia).
  unfold Convert.process_file, WavTableGenV1.process_file,
    Convert.with_wave, WavTableGenV1.with_wave, WavTableGenV1.bail.
  run_steps.
  rewrite (path_exists_present _ _ _ Hf). run_steps.
  rewrite Hopen. run_steps.
  rewrite Hne. run_steps. repeat split.
Qed.

Lemma cli_too_many st (args : Convert.Namespace) :
  Z.of_nat (length (Convert.files args)) > 18 ->
  Convert.main args st
  = ((eprint ("Error: Too many files specified ("
              +:+ pretty (Z.of_nat (length (Convert.files args)))
              +:+ "). The limit is " +:+ pretty 18 +:+ ".") st).1, Exit 1).
Proof.
  intros Hn. unfold Convert.main.
  assert (Hgt : (Z.of_nat (length (Convert.files args)) >? Convert.MAX_FILES)
                = true) by (unfold Convert.MAX_FILES; apply Z.gtb_lt; lia).
  rewrite Hgt. now run_steps.
Qed.

Lemma gui_too_many st (picked : list path) :
  Z.of_nat (length picked) > 18 ->
  WavTableGenV1.main picked st
  = ((show (ShowError "Aborted"
              ("Too many files selected (" +:+ pretty (Z.of_nat (length picked))
               +:+ "). The limit is " +:+ pretty 18 +:+ ".")) st).1, Exit 1).
Proof.
  intros Hn. unfold WavTableGenV1.main, WavTableGenV1.bail.
  assert (Hgt : (Z.of_nat (length picked) >? WavTableGenV1.MAX_FILES) = true)
    by (unfold WavTableGenV1.MAX_FILES; apply Z.gtb_lt; lia).
  assert (Hnil : bool_decide (picked = []) = false).
  { apply bool_decide_eq_false_2. intros ->. simpl in Hn. lia. }
  rewrite Hgt, Hnil. now run_steps.
Qed.

(** C7.  A batch of more than 18 paths is refused at once: the
    command-line converter reports the count on the error stream, the
    dialog one in an error box; neither looks at any file, nothing is
    written or printed, and the status is 1. *)
Theorem too_many_files_abort st (args : Convert.Namespace) :
  Z.of_nat (length (Convert.files args)) > 18 ->
  let n := Z.of_nat (length (Convert.files args)) in
  let cli := Convert.main args st in
  let gui := WavTableGenV1.main (Convert.files args) st in
  (cli.2 = Exit 1 /\ exit_status cli.2 <> 0
   /\ fs cli.1 = fs st /\ writes cli.1 = writes st /\ stdout cli.1 = stdout st
   /\ stderr cli.1
      = stderr st ++ ["Error: Too many files specified (" +:+ pretty n
                      +:+ "). The limit is " +:+ pretty 18 +:+ "."])
  /\ (gui.2 = Exit 1 /\ exit_status gui.2 <> 0
      /\ fs gui.1 = fs st /\ writes gui.1 = writes st
      /\ dialogs gui.1
         = dialogs st ++ [ShowError "Aborted"
                            ("Too many files selected (" +:+ pretty n
                             +:+ "). The limit is " +:+ pretty 18 +:+ ".")]).
Proof.
  intros Hn n cli gui. subst cli gui n.
  rewrite (cli_too_many st args Hn), (gui_too_many st _ Hn).
  cbn. repeat split; discriminate.
Qed.

Lemma precheck_frame (batch : list path) st :
  let r := for_each batch Convert.precheck st in
  fs r.1 = fs st /\ writes r.1 = writes st /\ stdout r.1 = stdout st
  /\ locked r.1 = locked st /\ dialogs r.1 = dialogs st.
Proof.
  revert st. induction batch as [|p batch IH]; intros st; [now cbn |].
  cbn [for_each]. unfold bind.
  assert (Hp : exists st', (Convert.precheck p st = (st', Ret tt) \/ Convert.precheck p st = (st', Exit 1))
                 /\ fs st' = fs st /\ writes st' = writes st
                 /\ stdout st' = stdout st /\ locked st' = locked st
                 /\ dialogs st' = dialogs st).
  { unfold Convert.precheck. run_steps. unfold path_exists.
    destruct (bool_decide (is_Some (fs st !! p))); run_steps.
    - destruct (negb _); run_steps; eauto 10.
    - eauto 10. }
  destruct Hp as (st' & [-> | ->] & Hfs & Hw & Ho & Hl & Hd); cbn.
  - destruct (IH st') as (? & ? & ? & ? & ?). repeat split; congruence.
  - auto.
Qed.

Lemma precheck_missing (batch : list path) st :
  (exists p, In p batch /\ fs st !! p = None) ->
  (for_each batch Convert.precheck st).2 = Exit 1.
Proof.
  revert st. induction batch as [|p batch IH]; intros st (q & Hin & Hq).
  { destruct Hin. }
  cbn [for_each]. unfold bind.
  destruct (fs st !! p) as [f|] eqn:Hp.
  - assert (Hq' : q <> p) by congruence.
    destruct Hin as [->|Hin]; [congruence |].
    unfold Convert.precheck at 1. run_steps.
    rewrite (path_exists_present _ _ _ Hp). run_steps.
    destruct (negb _); run_steps; apply IH; exists q; auto.
  - unfold Convert.precheck at 1. run_steps.
    rewrite (path_exists_absent _ _ Hp). now run_steps.
Qed.

(** C5.  When some path of the batch does not exist, the command-line
    converter converts nothing: the run ends with status 1 before any file
    is opened, the files are as they were, no write has happened and
    nothing is printed on the output stream.  This holds whatever the other
    paths are and wherever the missing one stands in the batch. *)
Theorem missing_file_blocks_batch st (args : Convert.Namespace) :
  (exists p, In p (Convert.files args) /\ fs st !! p = None) ->
  let cli := Convert.main args st in
  cli.2 = Exit 1 /\ exit_status cli.2 <> 0
  /\ fs cli.1 = fs st /\ writes cli.1 = writes st /\ stdout cli.1 = stdout st.
Proof.
  intros Hmiss cli. subst cli. unfold Convert.main.
  destruct (Z.of_nat (length (Convert.files args)) >? Convert.MAX_FILES) eqn:Hn.
  { run_steps. repeat split; discriminate. }
  run_steps.
  pose proof (precheck_missing _ st Hmiss) as Hexit.
  pose proof (precheck_frame (Convert.files args) st) as Hframe.
  destruct (for_each (Convert.files args) Convert.precheck st) as [st' r].
  cbn in Hexit, Hframe. subst r. cbn.
  destruct Hframe as (? & ? & ? & _). repeat split; auto; discriminate.
Qed.


(** *** Reading a mono 16-bit file *)

Lemma framesize_mono16 w : pcm_mono16 w -> Wave.framesize w = 2.
Proof.
  intros (Hc & Hs & _). unfold Wave.framesize. now rewrite Hc, Hs.
Qed.

Lemma getnframes_mono16 w :
  pcm_mono16 w -> Wave.getnframes w = Z.of_N (Wave.chunksize w) / 2.
Proof.
  intros Hv. unfold Wave.getnframes. now rewrite (framesize_mono16 w Hv).
Qed.

Lemma getnframes_nonneg w : pcm_mono16 w -> 0 <= Wave.getnframes w.
Proof.
  intros Hv. rewrite (getnframes_mono16 w Hv). apply Z.div_pos; lia.
Qed.

(** Asking a file for more than it holds gives what it holds. *)
Lemma firstn_held {A} (l : list A) (k : Z) :
  firstn (Z.to_nat (Z.min k (Z.of_nat (length l)))) l = firstn (Z.to_nat k) l.
Proof.
  destruct (Z.le_gt_cases k (Z.of_nat (length l))) as [Hk | Hk].
  - now rewrite Z.min_l.
  - rewrite Z.min_r, Nat2Z.id by lia.
    rewrite firstn_all, firstn_all2; [reflexivity | lia].
Qed.

(** Up to the frame count of the header, the reader asks the file for two
    bytes per frame, from the start of the data. *)
Lemma readframes_mono16 w (n : Z) :
  pcm_mono16 w -> 0 <= n <= Wave.getnframes w ->
  Wave.readframes w n = firstn (Z.to_nat (2 * n)) (Wave.data_chunk w).
Proof.
  intros Hv Hn. rewrite (getnframes_mono16 w Hv) in Hn.
  unfold Wave.readframes. rewrite (framesize_mono16 w Hv).
  destruct (n =? 0) eqn:Hz.
  - apply Z.eqb_eq in Hz. now subst n.
  - assert (Hneg : (n * 2 <? 0) = false) by (apply Z.ltb_ge; lia).
    assert (Hcap : 2 * (Z.of_N (Wave.chunksize w) / 2)
                   <= Z.of_N (Wave.chunksize w))
      by (apply Z.mul_div_le; lia).
    assert (Hin : (Z.of_N (Wave.chunksize w) <? n * 2) = false)
      by (apply Z.ltb_ge; lia).
    rewrite Hneg, Hin, firstn_held. f_equal. lia.
Qed.

(** When the data chunk is whole, the file gives all of them. *)
Lemma readframes_intact w (n : Z) :
  pcm_mono16 w -> Wave.intact w -> 0 <= n <= Wave.getnframes w ->
  Z.of_nat (length (Wave.readframes w n)) = 2 * n.
Proof.
  intros Hv Hwhole Hn. rewrite (readframes_mono16 w n Hv Hn).
  rewrite (getnframes_mono16 w Hv) in Hn. unfold Wave.intact in Hwhole.
  assert (Hcap : 2 * (Z.of_N (Wave.chunksize w) / 2)
                 <= Z.of_N (Wave.chunksize w))
    by (apply Z.mul_div_le; lia).
  rewrite length_firstn. lia.
Qed.

(** A negative count, which only a negative seconds bound can produce,
    makes the reader ask for the whole data chunk. *)
Lemma readframes_negative w (n : Z) :
  pcm_mono16 w -> n < 0 ->
  Wave.readframes w n
  = firstn (N.to_nat (Wave.chunksize w)) (Wave.data_chunk w).
Proof.
  intros Hv Hn. unfold Wave.readframes. rewrite (framesize_mono16 w Hv).
  assert (Hz : (n =? 0) = false) by (apply Z.eqb_neq; lia).
  assert (Hneg : (n * 2 <? 0) = true) by (apply Z.ltb_lt; lia).
  rewrite Hz, Hneg, Z.ltb_irrefl, firstn_held. f_equal. lia.
Qed.

Lemma cli_with_wave_valid st w (max_seconds : Z) :
  pcm_mono16 w ->
  let rate := Wave.getframerate w in
  let frames := Z.min (rate * max_seconds) (Wave.getnframes w) in
  Convert.with_wave w max_seconds st
  = (st, Ret (rate, frames, Wave.readframes w frames)).
Proof.
  intros (Hc & Hs & Ht). unfold Convert.with_wave.
  rewrite Hc, Hs, Ht. now run_steps.
Qed.

Lemma gui_with_wave_valid st w :
  pcm_mono16 w ->
  let rate := Wave.getframerate w in
  let frames := Z.min (rate * 20) (Wave.getnframes w) in
  WavTableGenV1.with_wave w st
  = (st, Ret (rate, frames, Wave.readframes w frames)).
Proof.
  intros (Hc & Hs & Ht). unfold WavTableGenV1.with_wave.
  rewrite Hc, Hs, Ht. now run_steps.
Qed.

(** A valid file converts: the listing of the bytes read is written to the
    output path and the run goes on.  In verbose mode this needs a
    non-zero frame rate, since the duration line divides by it. *)
Lemma cli_process_valid st in_path w (output_dir : option path)
      (verbose : bool) (max_seconds : Z) :
  fs st !! in_path = Some (WavFile w) ->
  pcm_mono16 w ->
  let out := Convert.out_path_for in_path output_dir in
  locked st !! out = None -> locked st !! path_parent out = None ->
  verbose = false \/ Wave.getframerate w <> 0 ->
  let raw_bytes :=
    Wave.readframes w
      (Z.min (Wave.getframerate w * max_seconds) (Wave.getnframes w)) in
  let r := Convert.process_file in_path output_dir verbose max_seconds st in
  r.2 = Ret tt
  /\ fs r.1 = <[out := TextFile (Hex.hex_line raw_bytes)]> (fs st)
  /\ writes r.1 = writes st ++ [(out, Hex.hex_line raw_bytes)]
  /\ locked r.1 = locked st /\ stderr r.1 = stderr st
  /\ exists pre,
       stdout r.1 = stdout st ++ pre ++ [wrote_line raw_bytes (path_str out)].
Proof.
  intros Hf Hv out Hout Hpar Hverb raw_bytes r. subst r.
  unfold Convert.process_file. run_steps.
  rewrite (path_exists_present _ _ _ Hf). run_steps.
  rewrite (wave_open_wav _ _ _ Hf). run_steps.
  rewrite (cli_with_wave_valid st w max_seconds Hv). run_steps.
  unfold mkdir_parents, write_text. fold out.
  rewrite Hpar, Hout. run_steps.
  destruct verbose; run_steps.
  - destruct Hverb as [|Hrate]; [discriminate |].
    unfold Convert.duration. apply Z.eqb_neq in Hrate. rewrite Hrate.
    run_steps. repeat split.
    eexists [_; _; _; _]. cbn. rewrite <- !app_assoc. reflexivity.
  - repeat split. now exists [].
Qed.

Lemma gui_process_valid st in_path w :
  fs st !! in_path = Some (WavFile w) ->
  pcm_mono16 w ->
  let out := with_suffix in_path ".txt" in
  locked st !! out = None ->
  let raw_bytes :=
    Wave.readframes w (Z.min (Wave.getframerate w * 20) (Wave.getnframes w)) in
  let r := WavTableGenV1.process_file in_path st in
  r.2 = Ret tt
  /\ fs r.1 = <[out := TextFile (Hex.hex_line raw_bytes)]> (fs st)
  /\ writes r.1 = writes st ++ [(out, Hex.hex_line raw_bytes)]
  /\ locked r.1 = locked st
  /\ dialogs r.1
     = dialogs st ++ [ShowInfo "Done" (wrote_line raw_bytes (path_name out))].
Proof.
  intros Hf Hv out Hout raw_bytes r. subst r.
  unfold WavTableGenV1.process_file. run_steps.
  rewrite (path_exists_present _ _ _ Hf). run_steps.
  rewrite (wave_open_wav _ _ _ Hf). run_steps.
  rewrite (gui_with_wave_valid st w Hv). run_steps.
  unfold write_text. fold out. rewrite Hout. run_steps.
  repeat split.
Qed.


(** C3, as the code has it.  For a valid (mono, 16-bit, uncompressed)
    file whose data chunk is whole, and a seconds bound that is not
    negative, both converters read exactly
    [min(rate * max_seconds, total_frames)] frames (the dialog one with 20
    seconds), two bytes each, from the start of the data, and the listing
    written is that of these bytes.  When the file has fewer frames than
    [rate * max_seconds], the bytes read are those of all its frames, none
    added, and the conversion succeeds, writing their listing. *)
Theorem frames_read_is_min st in_path w (output_dir : option path)
        (verbose : bool) (max_seconds : Z) :
  fs st !! in_path = Some (WavFile w) ->
  pcm_mono16 w ->
  Wave.intact w ->
  0 <= max_seconds ->
  let rate := Wave.getframerate w in
  let total := Wave.getnframes w in
  let frames := Z.min (rate * max_seconds) total in
  let gui_frames := Z.min (rate * 20) total in
  let first_frames (n : Z) := firstn (Z.to_nat (2 * n)) (Wave.data_chunk w) in
  (Convert.with_wave w max_seconds st
   = (st, Ret (rate, frames, first_frames frames))
   /\ Z.of_nat (length (first_frames frames)) = 2 * frames)
  /\ (WavTableGenV1.with_wave w st
      = (st, Ret (rate, gui_frames, first_frames gui_frames))
      /\ Z.of_nat (length (first_frames gui_frames)) = 2 * gui_frames)
  /\ (let out := Convert.out_path_for in_path output_dir in
      locked st !! out = None -> locked st !! path_parent out = None ->
      verbose = false \/ rate <> 0 ->
      let r := Convert.process_file in_path output_dir verbose max_seconds st in
      r.2 = Ret tt
      /\ writes r.1 = writes st ++ [(out, Hex.hex_line (first_frames frames))])
  /\ (let out := with_suffix in_path ".txt" in
      locked st !! out = None ->
      let r := WavTableGenV1.process_file in_path st in
      r.2 = Ret tt
      /\ writes r.1
         = writes st ++ [(out, Hex.hex_line (first_frames gui_frames))])
  /\ (total < rate * max_seconds ->
      let out := Convert.out_path_for in_path output_dir in
      locked st !! out = None -> locked st !! path_parent out = None ->
      let r := Convert.process_file in_path output_dir verbose max_seconds st in
      frames = total
      /\ Z.of_nat (length (first_frames total)) = 2 * total
      /\ r.2 = Ret tt
      /\ writes r.1 = writes st ++ [(out, Hex.hex_line (first_frames total))])
  /\ (total < rate * 20 ->
      let out := with_suffix in_path ".txt" in
      locked st !! out = None ->
      let r := WavTableGenV1.process_file in_path st in
      gui_frames = total
      /\ r.2 = Ret tt
      /\ writes r.1 = writes st ++ [(out, Hex.hex_line (first_frames total))]).
Proof.
  intros Hf Hv Hwhole Hsec rate total frames gui_frames first_frames.
  pose proof (getnframes_nonneg w Hv) as Htotal. fold total in Htotal.
  assert (Hrate : 0 <= rate) by (subst rate; unfold Wave.getframerate; lia).
  assert (Hframes : 0 <= frames <= total) by (subst frames; nia).
  assert (Hgui : 0 <= gui_frames <= total) by (subst gui_frames; nia).
  pose proof (readframes_mono16 w frames Hv Hframes) as Hread.
  pose proof (readframes_mono16 w gui_frames Hv Hgui) as Hread_gui.
  pose proof (readframes_intact w frames Hv Hwhole Hframes) as Hlen.
  pose proof (readframes_intact w gui_frames Hv Hwhole Hgui) as Hlen_gui.
  fold (first_frames frames) in Hread.
  fold (first_frames gui_frames) in Hread_gui.
  rewrite Hread in Hlen. rewrite Hread_gui in Hlen_gui.
  assert (Hcli : forall out', out' = Convert.out_path_for in_path output_dir ->
            locked st !! out' = None -> locked st !! path_parent out' = None ->
            verbose = false \/ rate <> 0 ->
            (Convert.process_file in_path output_dir verbose max_seconds st).2
            = Ret tt
            /\ writes (Convert.process_file in_path output_dir verbose
                         max_seconds st).1
               = writes st ++ [(out', Hex.hex_line (first_frames frames))]).
  { intros out' -> Hout Hpar Hverb.
    destruct (cli_process_valid st in_path w output_dir verbose max_seconds
                Hf Hv Hout Hpar Hverb) as (Hret & _ & Hwrites & _).
    fold rate total frames in Hwrites. rewrite Hread in Hwrites. auto. }
  assert (Hdlg : forall out', out' = with_suffix in_path ".txt" ->
            locked st !! out' = None ->
            (WavTableGenV1.process_file in_path st).2 = Ret tt
            /\ writes (WavTableGenV1.process_file in_path st).1
               = writes st ++ [(out', Hex.hex_line (first_frames gui_frames))]).
  { intros out' -> Hout.
    destruct (gui_process_valid st in_path w Hf Hv Hout)
      as (Hret & _ & Hwrites & _).
    fold rate total gui_frames in Hwrites. rewrite Hread_gui in Hwrites. auto. }
  split; [split; [| exact Hlen] |].
  { rewrite <- Hread. apply (cli_with_wave_valid st w max_seconds Hv). }
  split; [split; [| exact Hlen_gui] |].
  { rewrite <- Hread_gui. apply (gui_with_wave_valid st w Hv). }
  split; [intros out Hout Hpar Hverb r; now apply Hcli |].
  split; [intros out Hout r; now apply Hdlg |].
  split.
  - intros Hshort out Hout Hpar r.
    assert (Hmin : frames = total) by (subst frames; lia).
    assert (Hnz : rate <> 0) by (intros Hz; rewrite Hz in Hshort; lia).
    destruct (Hcli out eq_refl Hout Hpar (or_intror Hnz)) as [Hret Hwrites].
    rewrite Hmin in Hlen, Hwrites. auto.
  - intros Hshort out Hout r.
    assert (Hmin : gui_frames = total) by (subst gui_frames; lia).
    destruct (Hdlg out eq_refl Hout) as [Hret Hwrites].
    rewrite Hmin in Hwrites. auto.
Qed.

(** C2, as the code has it.  For a valid file whose data chunk is whole
    and from which at least one frame is read, the listing written holds
    two bytes per frame read, each as an upper-case [0xHH] entry, and is
    [5 * (2 * min(rate * max_seconds, total_frames)) - 1] characters long;
    the same holds for the dialog converter with 20 seconds. *)
Theorem wav_listing_length st in_path w (output_dir : option path)
        (verbose : bool) (max_seconds : Z) :
  fs st !! in_path = Some (WavFile w) ->
  pcm_mono16 w ->
  Wave.intact w ->
  let rate := Wave.getframerate w in
  let total := Wave.getnframes w in
  let upper_entries (listing : string) (raw_bytes : list byte) :=
    listing = Py.join "," (map Hex.entry raw_bytes)
    /\ Forall (fun b => exists hi lo : ascii,
                 Hex.entry b
                 = String "0" (String "x" (String hi (String lo EmptyString)))
                 /\ Hex.is_upper_hex hi = true /\ Hex.is_upper_hex lo = true)
              raw_bytes in
  (0 < Z.min (rate * max_seconds) total ->
   let out := Convert.out_path_for in_path output_dir in
   locked st !! out = None -> locked st !! path_parent out = None ->
   let r := Convert.process_file in_path output_dir verbose max_seconds st in
   exists listing raw_bytes,
     r.2 = Ret tt
     /\ writes r.1 = writes st ++ [(out, listing)]
     /\ fs r.1 !! out = Some (TextFile listing)
     /\ upper_entries listing raw_bytes
     /\ Z.of_nat (length raw_bytes) = 2 * Z.min (rate * max_seconds) total
     /\ Z.of_nat (String.length listing)
        = 5 * (2 * Z.min (rate * max_seconds) total) - 1)
  /\ (0 < Z.min (rate * 20) total ->
      let out := with_suffix in_path ".txt" in
      locked st !! out = None ->
      let r := WavTableGenV1.process_file in_path st in
      exists listing raw_bytes,
        r.2 = Ret tt
        /\ writes r.1 = writes st ++ [(out, listing)]
        /\ fs r.1 !! out = Some (TextFile listing)
        /\ upper_entries listing raw_bytes
        /\ Z.of_nat (length raw_bytes) = 2 * Z.min (rate * 20) total
        /\ Z.of_nat (String.length listing)
           = 5 * (2 * Z.min (rate * 20) total) - 1).
Proof.
  intros Hf Hv Hwhole rate total upper_entries.
  assert (Hentries : forall raw_bytes,
             upper_entries (Hex.hex_line raw_bytes) raw_bytes).
  { intros raw_bytes. split; [reflexivity |].
    apply Forall_forall. intros b _.
    exists (Hex.hex_digit (Byte.to_N b / 16)),
           (Hex.hex_digit (Byte.to_N b mod 16)).
    auto using entry_digits, hex_digit_upper. }
  assert (Hlen : forall n raw_bytes,
             0 < n -> Z.of_nat (length raw_bytes) = 2 * n ->
             Z.of_nat (String.length (Hex.hex_line raw_bytes))
             = 5 * (2 * n) - 1).
  { intros n raw_bytes Hn Hraw. rewrite hex_line_length.
    - lia.
    - intros ->. simpl in Hraw. lia. }
  split.
  - intros Hpos out Hout Hpar r.
    assert (Hrate : rate <> 0) by (intros Hz; rewrite Hz in Hpos; lia).
    pose proof (readframes_intact w (Z.min (rate * max_seconds) total)
                  Hv Hwhole) as Hraw.
    destruct (cli_process_valid st in_path w output_dir verbose max_seconds
                Hf Hv Hout Hpar (or_intror Hrate))
      as (Hret & Hfs & Hwrites & _).
    eexists _, _. split; [exact Hret |]. split; [exact Hwrites |].
    split; [unfold r; rewrite Hfs; apply lookup_insert_eq |].
    split; [apply Hentries |].
    assert (Hcount : Z.of_nat (length (Wave.readframes w
                                         (Z.min (rate * max_seconds) total)))
                     = 2 * Z.min (rate * max_seconds) total)
      by (apply Hraw; subst total; lia).
    split; [exact Hcount |]. now apply Hlen.
  - intros Hpos out Hout r.
    pose proof (readframes_intact w (Z.min (rate * 20) total) Hv Hwhole)
      as Hraw.
    destruct (gui_process_valid st in_path w Hf Hv Hout)
      as (Hret & Hfs & Hwrites & _).
    eexists _, _. split; [exact Hret |]. split; [exact Hwrites |].
    split; [unfold r; rewrite Hfs; apply lookup_insert_eq |].
    split; [apply Hentries |].
    assert (Hcount : Z.of_nat (length (Wave.readframes w
                                         (Z.min (rate * 20) total)))
                     = 2 * Z.min (rate * 20) total)
      by (apply Hraw; subst total; lia).
    split; [exact Hcount |]. now apply Hlen.
Qed.


Lemma precheck_present st in_path (f : file) :
  fs st !! in_path = Some f ->
  exists st', Convert.precheck in_path st = (st', Ret tt)
    /\ fs st' = fs st /\ writes st' = writes st /\ locked st' = locked st
    /\ stdout st' = stdout st.
Proof.
  intros Hf. unfold Convert.precheck. run_steps.
  rewrite (path_exists_present _ _ _ Hf). run_steps.
  destruct (negb _); run_steps; eauto 10.
Qed.

(** A batch of one valid file, converted by the command-line [main]. *)
Lemma cli_main_single st in_path w (args : Convert.Namespace) :
  Convert.files args = [in_path] ->
  fs st !! in_path = Some (WavFile w) ->
  pcm_mono16 w ->
  let out := Convert.out_path_for in_path (Convert.output_dir args) in
  locked st !! out = None -> locked st !! path_parent out = None ->
  Convert.verbose args = false \/ Wave.getframerate w <> 0 ->
  let raw_bytes :=
    Wave.readframes w
      (Z.min (Wave.getframerate w * Convert.max_seconds args)
             (Wave.getnframes w)) in
  let r := Convert.main args st in
  r.2 = Ret tt /\ writes r.1 = writes st ++ [(out, Hex.hex_line raw_bytes)].
Proof.
  intros Hfiles Hf Hv out Hout Hpar Hverb raw_bytes r. subst r.
  unfold Convert.main. rewrite Hfiles. cbn [length for_each].
  change (Z.of_nat 1 >? Convert.MAX_FILES) with false.
  destruct (precheck_present st in_path _ Hf)
    as (st' & Hpre & Hfs & Hw & Hl & _).
  run_steps. rewrite Hpre. run_steps.
  rewrite <- Hfs in Hf. rewrite <- Hl in Hout, Hpar.
  destruct (cli_process_valid st' in_path w (Convert.output_dir args)
              (Convert.verbose args) (Convert.max_seconds args)
              Hf Hv Hout Hpar Hverb) as (Hret & _ & Hwrites & _).
  destruct (Convert.process_file _ _ _ _ st') as [st'' res].
  cbn in Hret, Hwrites. subst res. run_steps.
  split; [reflexivity |]. now rewrite Hwrites, Hw.
Qed.

Lemma gui_main_single st in_path w :
  fs st !! in_path = Some (WavFile w) ->
  pcm_mono16 w ->
  let out := with_suffix in_path ".txt" in
  locked st !! out = None ->
  let raw_bytes :=
    Wave.readframes w (Z.min (Wave.getframerate w * 20) (Wave.getnframes w)) in
  let r := WavTableGenV1.main [in_path] st in
  r.2 = Ret tt /\ writes r.1 = writes st ++ [(out, Hex.hex_line raw_bytes)].
Proof.
  intros Hf Hv out Hout raw_bytes r. subst r.
  unfold WavTableGenV1.main. cbn [length for_each].
  change (Z.of_nat 1 >? WavTableGenV1.MAX_FILES) with false.
  rewrite bool_decide_eq_false_2 by discriminate. run_steps.
  destruct (gui_process_valid st in_path w Hf Hv Hout)
    as (Hret & _ & Hwrites & _).
  destruct (WavTableGenV1.process_file in_path st) as [st' res].
  cbn in Hret, Hwrites. subst res. now run_steps.
Qed.

(** C9, as the code has it.  At the command line only the seconds bound
    can be set: [--max-seconds] defaults to 20 and is the bound the
    conversion applies, while a batch of more than 18 paths is refused
    whatever the options are.  The dialog converter takes no options: it
    applies 20 seconds and refuses more than 18 paths. *)
Theorem limits_configuration st in_path w (args : Convert.Namespace) :
  Convert.files args = [in_path] ->
  fs st !! in_path = Some (WavFile w) ->
  pcm_mono16 w ->
  let out := Convert.out_path_for in_path (Convert.output_dir args) in
  locked st !! out = None -> locked st !! path_parent out = None ->
  locked st !! with_suffix in_path ".txt" = None ->
  Convert.verbose args = false \/ Wave.getframerate w <> 0 ->
  let rate := Wave.getframerate w in
  let total := Wave.getnframes w in
  let listing_for (seconds : Z) :=
    Hex.hex_line (Wave.readframes w (Z.min (rate * seconds) total)) in
  (forall batch : list path,
     Convert.max_seconds (Convert.defaults batch) = 20)
  /\ (Convert.main args st).2 = Ret tt
  /\ writes (Convert.main args st).1
     = writes st ++ [(out, listing_for (Convert.max_seconds args))]
  /\ (forall (many : Convert.Namespace) st',
        Z.of_nat (length (Convert.files many)) > 18 ->
        (Convert.main many st').2 = Exit 1
        /\ writes (Convert.main many st').1 = writes st')
  /\ (WavTableGenV1.main [in_path] st).2 = Ret tt
  /\ writes (WavTableGenV1.main [in_path] st).1
     = writes st ++ [(with_suffix in_path ".txt", listing_for 20)]
  /\ (forall (picked : list path) st',
        Z.of_nat (length picked) > 18 ->
        (WavTableGenV1.main picked st').2 = Exit 1
        /\ writes (WavTableGenV1.main picked st').1 = writes st').
Proof.
  intros Hfiles Hf Hv out Hout Hpar Hgui Hverb rate total listing_for.
  split; [reflexivity |].
  destruct (cli_main_single st in_path w args Hfiles Hf Hv Hout Hpar Hverb)
    as [Hcli Hcliw].
  destruct (gui_main_single st in_path w Hf Hv Hgui) as [Hg Hgw].
  repeat split; try assumption.
  - now rewrite cli_too_many.
  - now rewrite cli_too_many.
  - now rewrite gui_too_many.
  - now rewrite gui_too_many.
Qed.

(** Reading nothing is not an error: the empty listing is written and the
    conversion reports success, except that the verbose duration line
    needs a non-zero frame rate. *)
Lemma empty_read_converts st in_path w (output_dir : option path)
      (verbose : bool) (max_seconds : Z) :
  fs st !! in_path = Some (WavFile w) ->
  pcm_mono16 w ->
  Wave.readframes w
    (Z.min (Wave.getframerate w * max_seconds) (Wave.getnframes w)) = [] ->
  let out := Convert.out_path_for in_path output_dir in
  locked st !! out = None -> locked st !! path_parent out = None ->
  verbose = false \/ Wave.getframerate w <> 0 ->
  let r := Convert.process_file in_path output_dir verbose max_seconds st in
  r.2 = Ret tt
  /\ writes r.1 = writes st ++ [(out, EmptyString)]
  /\ exists pre,
       stdout r.1
       = stdout st ++ pre
         ++ ["Wrote 0 bytes (0 characters) to " +:+ path_str out].
Proof.
  intros Hf Hv Hempty out Hout Hpar Hverb r.
  destruct (cli_process_valid st in_path w output_dir verbose max_seconds
              Hf Hv Hout Hpar Hverb) as (Hret & _ & Hwrites & _ & _ & Hout').
  rewrite Hempty in Hwrites, Hout'. auto.
Qed.

Lemma empty_read_converts_gui st in_path w :
  fs st !! in_path = Some (WavFile w) ->
  pcm_mono16 w ->
  Wave.readframes w
    (Z.min (Wave.getframerate w * 20) (Wave.getnframes w)) = [] ->
  let out := with_suffix in_path ".txt" in
  locked st !! out = None ->
  let r := WavTableGenV1.process_file in_path st in
  r.2 = Ret tt
  /\ writes r.1 = writes st ++ [(out, EmptyString)]
  /\ dialogs r.1
     = dialogs st ++ [ShowInfo "Done" ("Wrote 0 bytes (0 characters) to "
                                        +:+ path_name out)].
Proof.
  intros Hf Hv Hempty out Hout r.
  destruct (gui_process_valid st in_path w Hf Hv Hout)
    as (Hret & _ & Hwrites & _ & Hdlg).
  rewrite Hempty in Hwrites, Hdlg. auto.
Qed.

End converters.

(** ** The header splitter *)

Section splitter.
Context `{Pathlib path}.
Implicit Types (st : world path) (output_dir : path).


(** *** Splitting the cleaned payload *)







Lemma write_text_unlocked st (p : path) (text : string) :
  locked st = ∅ ->
  write_text p text st
  = ({| fs := <[p := TextFile text]> (fs st); locked := locked st;
        writes := writes st ++ [(p, text)]; stdout := stdout st;
        stderr := stderr st; dialogs := dialogs st |}, Ret tt).
Proof.
  intros Hl. unfold write_text. now rewrite Hl, lookup_empty.
Qed.




(** The header and the index the code builds are the texts spelled out
    in [header_text] and [index_text]. *)
Lemma array_file_text output_dir (m : string * string) :
  SplitSamples.array_file output_dir m
  = (path_join output_dir (m.1 +:+ ".h"),
     header_text m.1
       (SplitSamples.format_lines (Py.split ", " (SplitSamples.clean m.2)))).
Proof. reflexivity. Qed.

Lemma enumerated_text (item : string -> string) (names : list string) :
  SplitSamples.enumerated item names
  = String.concat EmptyString
      (imap (fun i name =>
               "    " +:+ item name
               +:+ (if (S i <? length names)%nat then "," else EmptyString)
               +:+ Py.nl) names).
Proof.
  unfold SplitSamples.enumerated. f_equal. apply imap_ext.
  intros i name _. cbn beta.
  destruct (Z.ltb_spec (Z.of_nat i) (Z.of_nat (length names) - 1)),
    (Nat.ltb_spec (S i) (length names)); try reflexivity; lia.
Qed.

Lemma master_content_text (names : list string) :
  SplitSamples.master_content names = index_text names.
Proof.
  unfold SplitSamples.master_content, index_text.
  rewrite !enumerated_text.
  assert (Hlen : imap (fun (i : nat) name =>
                         "    " +:+ (Py.upper name +:+ "_LEN")
                         +:+ (if (S i <? length names)%nat
                              then "," else EmptyString) +:+ Py.nl) names
                 = imap (fun (i : nat) name =>
                           "    " +:+ Py.upper name +:+ "_LEN"
                           +:+ (if (S i <? length names)%nat
                                then "," else EmptyString) +:+ Py.nl) names).
  { apply imap_ext. intros i name _. cbn beta. now rewrite !append_assoc. }
  now rewrite Hlen.
Qed.


End splitter.

(** ** The properties on sample inputs *)

Section samples.
Import TextPath Examples.

Lemma stereo_always_rejected_witness :
  fs studio !! "wide.wav" = Some (WavFile wide)
  /\ Wave.wFormatTag (Wave.fmt_of wide) = Wave.WAVE_FORMAT_PCM
  /\ Wave.wBitsPerSample (Wave.fmt_of wide) = 8%N
  /\ Wave.nChannels (Wave.fmt_of wide) = 2%N
  /\ (Convert.process_file "wide.wav" None false 20 studio).2 = Exit 1
  /\ stderr (Convert.process_file "wide.wav" None false 20 studio).1
     = ["Error: Stereo is not supported. Use mono."]
  /\ (WavTableGenV1.process_file "wide.wav" studio).2 = Exit 1.
Proof.
  assert (Hf : fs studio !! "wide.wav" = Some (WavFile wide)) by reflexivity.
  split; [exact Hf |]. split; [reflexivity |]. split; [reflexivity |].
  split; [reflexivity |].
  destruct (stereo_always_rejected studio "wide.wav" (Wave.fmt_of wide)
              (Wave.chunksize wide) (Wave.data_chunk wide) None false 20
              Hf eq_refl)
    as [(Hcli & Herr & _) [Hgui _]].
  - discriminate.
  - reflexivity.
  - split; [exact Hcli |]. split; [exact Herr | exact Hgui].
Defined.

(** A stereo file in mu-law coding is not told that stereo is not
    supported: the reader refuses its format tag, the command-line
    converter reports that, and in the dialog converter the exception
    escapes without any box.  A header that declares no channel is
    refused by the reader as well. *)
Lemma stereo_always_rejected_counterexample :
  fs stage !! "mulaw.wav"
  = Some (Wav {| Wave.wFormatTag := 7; Wave.nChannels := 2;
                 Wave.nSamplesPerSec := 8000; Wave.wBitsPerSample := 8 |}
              4 [x01; x02; x03; x04])
  /\ (let r := Convert.process_file "mulaw.wav" None false 20 stage in
      r.2 = Exit 1
      /\ stderr r.1 = ["Error processing mulaw.wav: unknown format: 7"]
      /\ ~ In "Error: Stereo is not supported. Use mono." (stderr r.1))
  /\ (let r := WavTableGenV1.process_file "mulaw.wav" stage in
      r.2 = Raise (WaveError "unknown format: 7") /\ dialogs r.1 = [])
  /\ fs stage !! "mute.wav"
     = Some (Wav {| Wave.wFormatTag := 1; Wave.nChannels := 0;
                    Wave.nSamplesPerSec := 8000; Wave.wBitsPerSample := 16 |}
                 4 [x01; x02; x03; x04])
  /\ (let r := Convert.process_file "mute.wav" None false 20 stage in
      r.2 = Exit 1
      /\ stderr r.1 = ["Error processing mute.wav: bad # of channels"])
  /\ (let r := WavTableGenV1.process_file "mute.wav" stage in
      r.2 = Raise (WaveError "bad # of channels") /\ dialogs r.1 = []).
Proof.
  repeat split; try reflexivity.
  vm_compute. intros [Heq | []]. discriminate Heq.
Qed.

Lemma too_many_files_abort_witness :
  Z.of_nat (length (Convert.files (Convert.defaults nineteen))) > 18
  /\ (Convert.main (Convert.defaults nineteen) crate).2 = Exit 1
  /\ writes (Convert.main (Convert.defaults nineteen) crate).1 = [].
Proof.
  assert (Hn : Z.of_nat (length (Convert.files (Convert.defaults nineteen))) > 18)
    by (vm_compute; reflexivity).
  split; [exact Hn |].
  destruct (too_many_files_abort crate (Convert.defaults nineteen) Hn)
    as [(Hcli & _ & _ & Hw & _) _].
  split; assumption.
Defined.

Lemma missing_file_blocks_batch_witness :
  (exists p, In p ["kick.wav"; "absent.wav"; "still.wav"]
             /\ fs studio !! p = None)
  /\ (Convert.main (Convert.defaults ["kick.wav"; "absent.wav"; "still.wav"])
        studio).2 = Exit 1
  /\ writes (Convert.main
               (Convert.defaults ["kick.wav"; "absent.wav"; "still.wav"])
               studio).1 = [].
Proof.
  assert (Hm : exists p, In p ["kick.wav"; "absent.wav"; "still.wav"]
                         /\ fs studio !! p = None).
  { exists "absent.wav". split; [simpl; auto | reflexivity]. }
  split; [exact Hm |].
  destruct (missing_file_blocks_batch studio
              (Convert.defaults ["kick.wav"; "absent.wav"; "still.wav"]) Hm)
    as (Hexit & _ & _ & Hw & _).
  split; assumption.
Defined.

Lemma kick_valid : pcm_mono16 kick.
Proof. repeat split. Defined.

Lemma kick_intact : Wave.intact kick.
Proof. reflexivity. Defined.

Lemma frames_read_is_min_witness :
  fs studio !! "kick.wav" = Some (WavFile kick)
  /\ pcm_mono16 kick /\ Wave.intact kick /\ 0 <= 2 <= 20
  /\ Wave.getnframes kick < Wave.getframerate kick * 20
  /\ Convert.with_wave kick 20 studio
     = (studio, Ret (1, 3, [x00; x01; xff; x7f; x10; x20]))
  /\ Convert.with_wave kick 2 studio
     = (studio, Ret (1, 2, [x00; x01; xff; x7f]))
  /\ writes (Convert.process_file "kick.wav" None false 2 studio).1
     = [("kick.txt", "0x00,0x01,0xFF,0x7F")]
  /\ writes (Convert.process_file "kick.wav" None false 20 studio).1
     = [("kick.txt", "0x00,0x01,0xFF,0x7F,0x10,0x20")].
Proof.
  assert (Hf : fs studio !! "kick.wav" = Some (WavFile kick)) by reflexivity.
  assert (Hsec : 0 <= 2 <= 20) by lia.
  split; [exact Hf |]. split; [exact kick_valid |].
  split; [exact kick_intact |]. split; [exact Hsec |].
  split; [vm_compute; reflexivity |].
  destruct (frames_read_is_min studio "kick.wav" kick None false 20
              Hf kick_valid kick_intact (Z.le_trans _ _ _ (proj1 Hsec) (proj2 Hsec)))
    as ((Hblock & _) & _ & _ & _ & Hall & _).
  destruct (frames_read_is_min studio "kick.wav" kick None false 2
              Hf kick_valid kick_intact (proj1 Hsec))
    as ((Hblock2 & _) & _ & Hrun2 & _).
  split; [exact Hblock |]. split; [exact Hblock2 |]. split.
  - destruct Hrun2 as [_ Hw]; [reflexivity | reflexivity | now left |].
    exact Hw.
  - destruct Hall as (_ & _ & _ & Hw).
    + vm_compute; reflexivity.
    + reflexivity.
    + reflexivity.
    + exact Hw.
Defined.

(** With a negative seconds bound the count handed to the reader is
    negative, which makes it read the whole data chunk: at [-1] second the
    three frames of a 1 Hz file are all read and listed, where the minimum
    is [-1].  And a file cut short gives fewer frames than the minimum:
    its header declares fifty frames, the minimum is fifty, and the two
    frames the file holds are read. *)
Lemma frames_read_is_min_counterexample :
  pcm_mono16 kick /\ Wave.intact kick
  /\ Z.min (Wave.getframerate kick * -1) (Wave.getnframes kick) = -1
  /\ Convert.with_wave kick (-1) studio
     = (studio, Ret (1, -1, [x00; x01; xff; x7f; x10; x20]))
  /\ (Convert.process_file "kick.wav" None false (-1) studio).2 = Ret tt
  /\ writes (Convert.process_file "kick.wav" None false (-1) studio).1
     = [("kick.txt", "0x00,0x01,0xFF,0x7F,0x10,0x20")]
  /\ pcm_mono16 cut_short
  /\ Wave.getnframes cut_short = 50
  /\ Z.min (Wave.getframerate cut_short * 20) (Wave.getnframes cut_short) = 50
  /\ Convert.with_wave cut_short 20 stage
     = (stage, Ret (8000, 50, [x01; x02; x03; x04]))
  /\ writes (Convert.process_file "cut.wav" None false 20 stage).1
     = [("cut.txt", "0x01,0x02,0x03,0x04")]
  /\ writes (WavTableGenV1.process_file "cut.wav" stage).1
     = [("cut.txt", "0x01,0x02,0x03,0x04")].
Proof. repeat split. Qed.

Lemma wav_listing_length_witness :
  fs studio !! "kick.wav" = Some (WavFile kick)
  /\ pcm_mono16 kick /\ Wave.intact kick
  /\ 0 < Z.min (Wave.getframerate kick * 2) (Wave.getnframes kick)
  /\ exists (listing : string) (raw_bytes : list byte),
       writes (Convert.process_file "kick.wav" None false 2 studio).1
       = [("kick.txt", listing)]
       /\ Z.of_nat (length raw_bytes) = 2 * 2
       /\ Z.of_nat (String.length listing) = 5 * (2 * 2) - 1.
Proof.
  assert (Hf : fs studio !! "kick.wav" = Some (WavFile kick)) by reflexivity.
  split; [exact Hf |]. split; [exact kick_valid |].
  split; [exact kick_intact |].
  split; [vm_compute; reflexivity |].
  destruct (wav_listing_length studio "kick.wav" kick None false 2
              Hf kick_valid kick_intact) as [Hcli _].
  destruct Hcli as (listing & raw_bytes & _ & Hw & _ & _ & Hraw & Hlen).
  - vm_compute; reflexivity.
  - reflexivity.
  - reflexivity.
  - exists listing, raw_bytes. split; [exact Hw |]. split; assumption.
Defined.

(** The length [4 * min(rate * max_seconds, total_frames * 2) - 1]
    fails on a three-frame file at 1 Hz: six bytes are read, the listing
    has 29 characters, the formula gives 23. *)
Lemma wav_listing_length_counterexample :
  pcm_mono16 kick
  /\ Wave.getframerate kick = 1 /\ Wave.getnframes kick = 3
  /\ (Convert.process_file "kick.wav" None false 20 studio).2 = Ret tt
  /\ writes (Convert.process_file "kick.wav" None false 20 studio).1
     = [("kick.txt", "0x00,0x01,0xFF,0x7F,0x10,0x20")]
  /\ writes (WavTableGenV1.process_file "kick.wav" studio).1
     = [("kick.txt", "0x00,0x01,0xFF,0x7F,0x10,0x20")]
  /\ Z.of_nat (String.length "0x00,0x01,0xFF,0x7F,0x10,0x20")
     <> 4 * Z.min (Wave.getframerate kick * 20) (Wave.getnframes kick * 2) - 1.
Proof.
  split; [exact kick_valid |]. repeat split; vm_compute; (reflexivity || discriminate).
Qed.


Lemma limits_configuration_witness :
  fs studio !! "kick.wav" = Some (WavFile kick)
  /\ pcm_mono16 kick
  /\ writes (Convert.main (Convert.defaults ["kick.wav"]) studio).1
     = [("kick.txt", "0x00,0x01,0xFF,0x7F,0x10,0x20")]
  /\ writes (Convert.main {| Convert.files := ["kick.wav"];
                             Convert.output_dir := Some "tables";
                             Convert.verbose := false;
                             Convert.max_seconds := 1 |} studio).1
     = [("tables/kick.txt", "0x00,0x01")]
  /\ writes (WavTableGenV1.main ["kick.wav"] studio).1
     = [("kick.txt", "0x00,0x01,0xFF,0x7F,0x10,0x20")].
Proof.
  assert (Hf : fs studio !! "kick.wav" = Some (WavFile kick)) by reflexivity.
  assert (Hrate : Wave.getframerate kick <> 0) by (vm_compute; discriminate).
  split; [exact Hf |]. split; [exact kick_valid |].
  destruct (limits_configuration studio "kick.wav" kick
              (Convert.defaults ["kick.wav"]) eq_refl Hf kick_valid
              eq_refl eq_refl
              eq_refl (or_introl eq_refl))
    as (_ & _ & Hdefault & _ & _ & Hgui & _).
  destruct (limits_configuration studio "kick.wav" kick
              {| Convert.files := ["kick.wav"];
                 Convert.output_dir := Some "tables";
                 Convert.verbose := false;
                 Convert.max_seconds := 1 |} eq_refl Hf kick_valid
              eq_refl eq_refl
              eq_refl (or_intror Hrate))
    as (_ & _ & Hone & _).
  split; [exact Hdefault |]. split; [exact Hone | exact Hgui].
Defined.

(** No choice of options lets the command-line converter take nineteen
    files, all present and valid: the run stops at the count check with
    nothing written.  The parser has no option for the file limit. *)
Lemma max_files_override_counterexample :
  length nineteen = 19%nat
  /\ Forall (fun p => fs crate !! p = Some (WavFile kick)) nineteen
  /\ forall (output_dir : option string) (verbose : bool) (max_seconds : Z),
       let r := Convert.main {| Convert.files := nineteen;
                                Convert.output_dir := output_dir;
                                Convert.verbose := verbose;
                                Convert.max_seconds := max_seconds |} crate in
       r.2 = Exit 1 /\ writes r.1 = [] /\ stdout r.1 = [].
Proof.
  split; [reflexivity |]. split.
  - repeat constructor.
  - intros output_dir verbose max_seconds. cbv zeta.
    unfold Convert.main. cbn [Convert.files].
    change (Z.of_nat (length nineteen) >? Convert.MAX_FILES) with true.
    repeat split.
Qed.

(** C10 fails in verbose mode on a file whose header gives frame rate 0:
    no frame is requested, the empty listing is written, and then the
    duration line divides by the rate; the handler for unexpected errors
    reports it and the run ends with status 1. *)
Theorem verbose_zero_rate_fails :
  pcm_mono16 still
  /\ Wave.readframes still
       (Z.min (Wave.getframerate still * 20) (Wave.getnframes still)) = []
  /\ let r := Convert.process_file "still.wav" None true 20 studio in
     r.2 = Exit 1
     /\ writes r.1 = [("still.txt", EmptyString)]
     /\ stdout r.1 = ["Processed: still.wav"; "  Sample rate: 0 Hz"]
     /\ stderr r.1
        = ["Unexpected error processing still.wav: division by zero"].
Proof. repeat split. Qed.

(** The same file converts without the verbose flag, and in the dialog
    converter. *)
Lemma quiet_zero_rate_converts :
  (let r := Convert.process_file "still.wav" None false 20 studio in
   r.2 = Ret tt /\ writes r.1 = [("still.txt", EmptyString)]
   /\ stdout r.1 = ["Wrote 0 bytes (0 characters) to still.txt"])
  /\ (let r := WavTableGenV1.process_file "still.wav" studio in
      r.2 = Ret tt /\ writes r.1 = [("still.txt", EmptyString)]
      /\ dialogs r.1
         = [ShowInfo "Done" "Wrote 0 bytes (0 characters) to still.txt"]).
Proof. repeat split. Qed.




End samples.

(* ===================================================================== *)
(** * Further properties of the code *)
(* ===================================================================== *)

(** Runs the monad one layer, leaving the operations on files and the
    program's own functions folded. *)
Ltac run_io :=
  unfold mbind, mret, M_bind, M_ret, bind, ret, try_except, when, sys_exit,
    raise;
  cbn -[path_exists wave_open write_text mkdir_parents read_text pretty
        Z.mul Z.min Wave.readframes Wave.getnframes Hex.hex_line
        String.append Z.of_nat String.eqb Z.eqb Z.gtb for_each
        Convert.precheck Convert.process_file WavTableGenV1.process_file
        Convert.with_wave WavTableGenV1.with_wave Convert.duration
        SplitSamples.extract_samples SplitSamples.samples_loop
        SplitSamples.clean SplitSamples.skipped SplitSamples.header_content
        SplitSamples.master_content SplitSamples.format_lines
        SplitSamples.find_matches Py.split Py.join Py.lower
        Wave.getnchannels Wave.getsampwidth Wave.getcomptype
        Wave.getframerate Py.take].

(** ** The listing determines the bytes *)

Section hex_more.

Lemma startswith_append (s t : string) : Py.startswith s (s +:+ t) = true.
Proof.
  induction s as [|a s IH]; [reflexivity |].
  cbn. now rewrite Ascii.eqb_refl, IH.
Qed.

Lemma entry_inj (b c : byte) : Hex.entry b = Hex.entry c -> b = c.
Proof.
  intros Heq.
  pose (value := fun a : ascii =>
                   let n := N_of_ascii a in
                   if (n <=? 57)%N then (n - 48)%N else (n - 55)%N).
  pose (decode := fun s : string =>
                    match s with
                    | String _ (String _ (String hi (String lo _))) =>
                        (16 * value hi + value lo)%N
                    | _ => 0%N
                    end).
  assert (Hdec : forall x, decode (Hex.entry x) = Byte.to_N x)
    by (intros x; destruct x; reflexivity).
  assert (HN : Byte.to_N b = Byte.to_N c) by now rewrite <- !Hdec, Heq.
  pose proof (Byte.of_to_N b) as Hb. rewrite HN, Byte.of_to_N in Hb.
  now inversion Hb.
Qed.

(** What follows the first entry of a listing. *)
Lemma hex_line_first (b : byte) (rest : list byte) :
  Hex.hex_line (b :: rest)
  = Hex.entry b +:+ match rest with
                    | [] => EmptyString
                    | _ :: _ => "," +:+ Hex.hex_line rest
                    end.
Proof.
  rewrite hex_line_cons. destruct rest; [now rewrite append_nil_r | reflexivity].
Qed.

Lemma entry_append_inj (b c : byte) (s t : string) :
  Hex.entry b +:+ s = Hex.entry c +:+ t -> b = c /\ s = t.
Proof.
  intros Heq. rewrite (entry_digits b), (entry_digits c) in Heq.
  cbn in Heq. injection Heq as Hhi Hlo Hst.
  split; [| exact Hst].
  apply entry_inj. rewrite (entry_digits b), (entry_digits c).
  now rewrite Hhi, Hlo.
Qed.

(** X1.  Two buffers with the same listing are the same buffer: the text keeps
    every byte, in order. *)
Theorem hex_line_injective (raw_bytes other : list byte) :
  Hex.hex_line raw_bytes = Hex.hex_line other -> raw_bytes = other.
Proof.
  revert other.
  induction raw_bytes as [|b rest IH]; intros [|c other] Heq.
  - reflexivity.
  - rewrite hex_line_first, (entry_digits c) in Heq. discriminate Heq.
  - rewrite hex_line_first, (entry_digits b) in Heq. discriminate Heq.
  - rewrite !hex_line_first in Heq.
    apply entry_append_inj in Heq. destruct Heq as [-> Htail].
    f_equal. destruct rest as [|b' rest], other as [|c' other];
      try discriminate Htail; [reflexivity |].
    apply IH. now injection Htail.
Qed.

Lemma hex_line_injective_witness :
  Hex.hex_line [x0a; xff] = Hex.hex_line [x0a; xff]
  /\ Hex.hex_line [x0a; xff] = "0x0A,0xFF"
  /\ [x0a; xff] = [x0a; xff].
Proof.
  split; [reflexivity |]. split; [reflexivity |].
  apply (hex_line_injective [x0a; xff] [x0a; xff]). reflexivity.
Defined.

Lemma hex_line_app (front back : list byte) :
  Hex.hex_line (front ++ back)
  = match front, back with
    | [], _ => Hex.hex_line back
    | _, [] => Hex.hex_line front
    | _ :: _, _ :: _ => Hex.hex_line front +:+ "," +:+ Hex.hex_line back
    end.
Proof.
  induction front as [|b front IH]; [reflexivity |].
  destruct back as [|c back]; [now rewrite app_nil_r |].
  cbn [app]. rewrite (hex_line_first b (front ++ c :: back)), IH.
  destruct front as [|b' front]; cbn [app]; [reflexivity |].
  rewrite (hex_line_first b (b' :: front)). now rewrite append_assoc.
Qed.

Lemma hex_line_prefix (k : nat) (raw_bytes : list byte) :
  Py.startswith (Hex.hex_line (firstn k raw_bytes)) (Hex.hex_line raw_bytes)
  = true.
Proof.
  rewrite <- (firstn_skipn k raw_bytes) at 2. rewrite hex_line_app.
  destruct (firstn k raw_bytes) as [|b front] eqn:Hfront; [reflexivity |].
  destruct (skipn k raw_bytes).
  - rewrite <- (append_nil_r (Hex.hex_line (b :: front))) at 2.
    apply startswith_append.
  - apply startswith_append.
Qed.

End hex_more.

(** ** The reader on the bytes of a file *)

Section reader_facts.

Lemma length_substring_le (a b : nat) (s : string) :
  (String.length (substring a b s) <= b)%nat
  /\ (String.length (substring a b s) <= String.length s - a)%nat.
Proof.
  revert a b. induction s as [| c s IH]; intros a b.
  - destruct a, b; cbn; lia.
  - destruct a as [| a].
    + destruct b as [| b]; cbn; [lia |].
      specialize (IH 0%nat b). cbn in IH. lia.
    + cbn. specialize (IH a b). lia.
Qed.

Lemma bytes_at_size (s : string) (p n : N) :
  (Wave.size_of (Wave.bytes_at s p n) <= n)%N
  /\ (Wave.size_of (Wave.bytes_at s p n) + p <= N.max p (Wave.size_of s))%N.
Proof.
  unfold Wave.bytes_at, Wave.size_of.
  pose proof (length_substring_le
                (N.to_nat (N.min p (N.of_nat (String.length s))))
                (N.to_nat (N.min n (N.of_nat (String.length s)))) s).
  lia.
Qed.

Lemma riff_read_size rest riff_size (p n : N) :
  (p + Wave.size_of (Wave.riff_read rest riff_size p n).1
   <= (Wave.riff_read rest riff_size p n).2)%N
  /\ (Wave.size_of (Wave.riff_read rest riff_size p n).1 <= n)%N
  /\ (Wave.size_of (Wave.riff_read rest riff_size p n).1 + p
      <= N.max p (Wave.size_of rest))%N.
Proof.
  unfold Wave.riff_read.
  destruct (riff_size <=? p)%N; [unfold Wave.size_of; cbn; lia |].
  pose proof (bytes_at_size rest p (N.min n (riff_size - p))) as Hb.
  destruct (_ && _); cbn [fst snd]; unfold Wave.size_of in *; lia.
Qed.

Lemma chunk_read_pos rest riff_size (csize r p n : N) :
  (p <= (Wave.chunk_read rest riff_size csize r p n).2.2)%N.
Proof.
  unfold Wave.chunk_read.
  destruct (csize <=? r)%N; [cbn; lia |].
  pose proof (riff_read_size rest riff_size p (N.min n (csize - r))) as H1.
  destruct (Wave.riff_read rest riff_size p (N.min n (csize - r)))
    as [data p1].
  cbn in H1.
  destruct (_ && _); [| cbn; lia].
  pose proof (riff_read_size rest riff_size p1 1) as H2.
  destruct (Wave.riff_read rest riff_size p1 1) as [dummy p2].
  cbn in *. lia.
Qed.

Lemma read_fmt_chunk_pos rest riff_size (csize p : N) channels width rate r p' :
  Wave.read_fmt_chunk rest riff_size csize p
  = Wave.Ok (channels, width, rate, (r, p')) ->
  (p <= p')%N.
Proof.
  unfold Wave.read_fmt_chunk.
  pose proof (chunk_read_pos rest riff_size csize 0 p 14) as H1.
  destruct (Wave.chunk_read rest riff_size csize 0 p 14) as [head [r1 p1]].
  destruct (_ <? _)%N; [discriminate |].
  destruct (negb _); [discriminate |].
  pose proof (chunk_read_pos rest riff_size csize r1 p1 2) as H2.
  destruct (Wave.chunk_read rest riff_size csize r1 p1 2) as [bits [r2 p2]].
  destruct (_ <? _)%N; [discriminate |].
  destruct (Wave.read_fmt _) as [msg | [c w]]; [discriminate |].
  intros [= _ _ _ _ <-]. cbn in *. lia.
Qed.

Lemma skip_pos riff_size (csize r p p' : N) :
  Wave.skip riff_size csize r p = Some p' -> (p <= p')%N.
Proof.
  unfold Wave.skip. destruct (_ <? _)%N; [discriminate |].
  intros [= <-]. lia.
Qed.

(** The loop over the chunks ends before its fuel does: every round reads
    eight bytes of the file further on. *)
Lemma read_chunks_fuel rest riff_size (fuel fuel' : nat) (p : N) params :
  (Wave.size_of rest < p + 8 * N.of_nat fuel)%N ->
  (Wave.size_of rest < p + 8 * N.of_nat fuel')%N ->
  Wave.read_chunks rest riff_size fuel p params
  = Wave.read_chunks rest riff_size fuel' p params.
Proof.
  revert fuel' p params.
  induction fuel as [| fuel IH]; intros fuel' p params Hf Hf'.
  - destruct fuel' as [| fuel']; [reflexivity |].
    cbn [Wave.read_chunks].
    pose proof (riff_read_size rest riff_size p 4) as H1.
    destruct (Wave.riff_read rest riff_size p 4) as [name p1]. cbn in H1.
    replace (Wave.size_of name <? 4)%N with true
      by (symmetry; apply N.ltb_lt; lia).
    reflexivity.
  - destruct fuel' as [| fuel'].
    + cbn [Wave.read_chunks].
      pose proof (riff_read_size rest riff_size p 4) as H1.
      destruct (Wave.riff_read rest riff_size p 4) as [name p1]. cbn in H1.
      replace (Wave.size_of name <? 4)%N with true
        by (symmetry; apply N.ltb_lt; lia).
      reflexivity.
    + cbn [Wave.read_chunks].
      pose proof (riff_read_size rest riff_size p 4) as H1.
      destruct (Wave.riff_read rest riff_size p 4) as [name p1]. cbn in H1.
      destruct (Wave.size_of name <? 4)%N eqn:Hn; [reflexivity |].
      apply N.ltb_ge in Hn.
      pose proof (riff_read_size rest riff_size p1 4) as H2.
      destruct (Wave.riff_read rest riff_size p1 4) as [size p2]. cbn in H2.
      destruct (Wave.size_of size <? 4)%N eqn:Hs; [reflexivity |].
      apply N.ltb_ge in Hs.
      destruct (String.eqb name "fmt ").
      * destruct (Wave.read_fmt_chunk rest riff_size (Wave.unpack size) p2)
          as [[[[c w] rate] [r p3]] | msg | |] eqn:Hfmt; try reflexivity.
        apply read_fmt_chunk_pos in Hfmt.
        destruct (Wave.skip riff_size (Wave.unpack size) r p3) as [p4 |] eqn:Hk;
          [| reflexivity].
        apply skip_pos in Hk. apply IH; lia.
      * destruct (String.eqb name "data"); [reflexivity |].
        destruct (Wave.skip riff_size (Wave.unpack size) 0 p2) as [p4 |] eqn:Hk;
          [| reflexivity].
        apply skip_pos in Hk. apply IH; lia.
Qed.

(** The fuel [initfp] gives the loop is enough: more of it changes nothing. *)
Lemma read_chunks_enough rest riff_size (more : nat) (p : N) params :
  Wave.read_chunks rest riff_size (S (String.length rest) + more) p params
  = Wave.read_chunks rest riff_size (S (String.length rest)) p params.
Proof. apply read_chunks_fuel; unfold Wave.size_of; lia. Qed.

End reader_facts.

(** ** Error paths of the converters *)

Section converter_errors.
Context `{Pathlib path} `{FloatFormat}.
Implicit Types (st : world path) (in_path : path) (w : Wave.Wave_read).

Lemma format_error_none w : format_error w = None <-> pcm_mono16 w.
Proof.
  unfold format_error, pcm_mono16.
  destruct (Z.eqb_spec (Wave.getnchannels w) 1) as [Hc|Hc]; cbn [negb];
    [| split; [discriminate | intros (? & _); contradiction]].
  destruct (Z.eqb_spec (Wave.getsampwidth w) 2) as [Hs|Hs]; cbn [negb];
    [| split; [discriminate | intros (_ & ? & _); contradiction]].
  destruct (String.eqb_spec (Wave.getcomptype w) "NONE") as [Ht|Ht]; cbn [negb];
    [tauto | split; [discriminate | intros (_ & _ & ?); contradiction]].
Qed.

(** After a successful open, a failing format check ends the conversion
    with its message. *)
Lemma cli_check_fails st in_path w (msg : string)
      (output_dir : option path) (verbose : bool) (max_seconds : Z) :
  is_Some (fs st !! in_path) ->
  wave_open in_path st = (st, Ret w) ->
  format_error w = Some msg ->
  Convert.process_file in_path output_dir verbose max_seconds st
  = ((eprint ("Error: " +:+ msg) st).1, Exit 1).
Proof.
  intros [f Hf] Hopen Hmsg. unfold Convert.process_file. run_io.
  rewrite (path_exists_present _ _ _ Hf). run_io.
  rewrite Hopen. unfold Convert.with_wave. run_io.
  unfold format_error in Hmsg.
  destruct (negb (Wave.getnchannels w =? 1)); run_io;
    [now inversion Hmsg |].
  destruct (negb (Wave.getsampwidth w =? 2)); run_io;
    [now inversion Hmsg |].
  destruct (negb (String.eqb (Wave.getcomptype w) "NONE")); run_io;
    [now inversion Hmsg | discriminate].
Qed.

Lemma gui_check_fails st in_path w (msg : string) :
  is_Some (fs st !! in_path) ->
  wave_open in_path st = (st, Ret w) ->
  format_error w = Some msg ->
  WavTableGenV1.process_file in_path st
  = ((show (ShowError "Aborted" msg) st).1, Exit 1).
Proof.
  intros [f Hf] Hopen Hmsg. unfold WavTableGenV1.process_file. run_io.
  rewrite (path_exists_present _ _ _ Hf). run_io.
  rewrite Hopen.
  unfold WavTableGenV1.with_wave, WavTableGenV1.bail. run_io.
  unfold format_error in Hmsg.
  destruct (negb (Wave.getnchannels w =? 1)); run_io;
    [now inversion Hmsg |].
  destruct (negb (Wave.getsampwidth w =? 2)); run_io;
    [now inversion Hmsg |].
  destruct (negb (String.eqb (Wave.getcomptype w) "NONE")); run_io;
    [now inversion Hmsg | discriminate].
Qed.


Lemma gui_format_error st in_path w (msg : string) :
  fs st !! in_path = Some (WavFile w) ->
  format_error w = Some msg ->
  WavTableGenV1.process_file in_path st
  = ((show (ShowError "Aborted" msg) st).1, Exit 1).
Proof.
  intros Hf Hmsg. apply gui_check_fails with w; eauto using wave_open_wav.
Qed.

(** X3.  A mono PCM file that the reader opens (at least one bit per
    sample) and whose samples are not two bytes wide is refused with the
    bit-depth message: on the error stream by the command-line converter,
    in an error box by the dialog one; both exit with status 1 and write
    nothing. *)
Theorem bit_depth_rejected st in_path (h : Wave.fmt) (size : N)
        (data : list byte) (output_dir : option path) (verbose : bool)
        (max_seconds : Z) :
  fs st !! in_path = Some (Wav h size data) ->
  Wave.wFormatTag h = Wave.WAVE_FORMAT_PCM ->
  Wave.nChannels h = 1%N ->
  Wave.wBitsPerSample h <> 0%N ->
  ((Wave.wBitsPerSample h + 7) / 8 <> 2)%N ->
  let cli := Convert.process_file in_path output_dir verbose max_seconds st in
  let gui := WavTableGenV1.process_file in_path st in
  (cli.2 = Exit 1
   /\ stderr cli.1 = stderr st ++ ["Error: Only 16‑bit PCM is supported."]
   /\ stdout cli.1 = stdout st /\ fs cli.1 = fs st /\ writes cli.1 = writes st)
  /\ (gui.2 = Exit 1
      /\ dialogs gui.1
         = dialogs st ++ [ShowError "Aborted" "Only 16‑bit PCM is supported."]
      /\ fs gui.1 = fs st /\ writes gui.1 = writes st).
Proof.
  intros Hf Htag Hch Hbits Hwidth cli gui. subst cli gui.
  destruct (wave_open_pcm st in_path h size data Hf Htag Hbits)
    as (w & Hopen & Hn & Hs & _); [lia |].
  assert (Hmsg : format_error w = Some "Only 16‑bit PCM is supported.").
  { unfold format_error. rewrite Hn, Hs, Hch.
    change (negb (Z.of_N 1 =? 1)) with false. cbn match.
    assert (Hne : (Z.of_N ((Wave.wBitsPerSample h + 7) / 8) =? 2) = false)
      by (apply Z.eqb_neq; lia).
    now rewrite Hne. }
  rewrite (cli_check_fails st in_path w _ output_dir verbose max_seconds
             (ex_intro _ _ Hf) Hopen Hmsg).
  rewrite (gui_check_fails st in_path w _ (ex_intro _ _ Hf) Hopen Hmsg).
  repeat split.
Qed.

(** X4.  A WAVE file in another coding than PCM never reaches the
    converters' own compression check: the reader refuses its format tag
    with [unknown format], which the command-line converter reports as an
    error of that file before exiting with status 1, while in the dialog
    converter the exception escapes and no box is shown.  Neither writes
    anything.  (The tag 65534 of the extensible format is left out: later
    versions of the reader look further into such a header.) *)
Theorem compressed_refused_by_reader st in_path (h : Wave.fmt) (size : N)
        (data : list byte) (output_dir : option path) (verbose : bool)
        (max_seconds : Z) :
  fs st !! in_path = Some (Wav h size data) ->
  Wave.wFormatTag h <> Wave.WAVE_FORMAT_PCM ->
  Wave.wFormatTag h <> 65534%N ->
  let cli := Convert.process_file in_path output_dir verbose max_seconds st in
  let gui := WavTableGenV1.process_file in_path st in
  let refusal := "unknown format: " +:+ pretty (Wave.wFormatTag h) in
  (cli.2 = Exit 1
   /\ stderr cli.1
      = stderr st ++ ["Error processing " +:+ path_str in_path +:+ ": "
                      +:+ refusal]
   /\ stdout cli.1 = stdout st /\ fs cli.1 = fs st /\ writes cli.1 = writes st)
  /\ (gui.2 = Raise (WaveError refusal) /\ dialogs gui.1 = dialogs st
      /\ fs gui.1 = fs st /\ writes gui.1 = writes st).
Proof.
  intros Hf Htag _ cli gui refusal. subst cli gui.
  assert (Hopen : wave_open in_path st = (st, Raise (WaveError refusal))).
  { unfold wave_open. rewrite Hf. unfold Wave.read_fmt.
    apply N.eqb_neq in Htag. now rewrite Htag. }
  unfold Convert.process_file, WavTableGenV1.process_file.
  run_io. rewrite (path_exists_present _ _ _ Hf). run_io. rewrite Hopen.
  run_io. repeat split.
Qed.




(** X7.  When the output cannot be written, the command-line converter
    reports the failure as an unexpected error carrying the system's
    message and exits with status 1; in the dialog converter the exception
    escapes.  If the failure comes on creating the folder or on opening
    the file, no file changes; if it comes while writing, the output file
    is left holding only the part of the listing that had been written,
    possibly nothing. *)
Theorem write_failure_reported st in_path w (f : fault)
        (output_dir : option path) (verbose : bool) (max_seconds : Z) :
  fs st !! in_path = Some (WavFile w) ->
  pcm_mono16 w ->
  let out := Convert.out_path_for in_path output_dir in
  let listing (seconds : Z) :=
    Hex.hex_line
      (Wave.readframes w (Z.min (Wave.getframerate w * seconds)
                                (Wave.getnframes w))) in
  let left_behind (target : path) (text : string) (r : world path) :=
    match reached f with
    | None => fs r = fs st /\ writes r = writes st
    | Some n => fs r = <[target := TextFile (Py.take n text)]> (fs st)
                /\ writes r = writes st ++ [(target, Py.take n text)]
    end in
  let cli := Convert.process_file in_path output_dir verbose max_seconds st in
  let gui := WavTableGenV1.process_file in_path st in
  let report :=
    "Unexpected error processing " +:+ path_str in_path +:+ ": "
    +:+ reason f in
  (locked st !! path_parent out = Some f ->
   cli.2 = Exit 1 /\ stderr cli.1 = stderr st ++ [report]
   /\ stdout cli.1 = stdout st /\ fs cli.1 = fs st /\ writes cli.1 = writes st)
  /\ (locked st !! path_parent out = None -> locked st !! out = Some f ->
      cli.2 = Exit 1 /\ stderr cli.1 = stderr st ++ [report]
      /\ stdout cli.1 = stdout st
      /\ left_behind out (listing max_seconds) cli.1)
  /\ (locked st !! with_suffix in_path ".txt" = Some f ->
      gui.2 = Raise (OSError (reason f)) /\ dialogs gui.1 = dialogs st
      /\ left_behind (with_suffix in_path ".txt") (listing 20) gui.1).
Proof.
  intros Hf Hv out listing left_behind cli gui report.
  subst cli gui left_behind. split; [| split].
  - intros Hpar. unfold Convert.process_file. run_io.
    rewrite (path_exists_present _ _ _ Hf). run_io.
    rewrite (wave_open_wav _ _ _ Hf). run_io.
    rewrite (cli_with_wave_valid st w max_seconds Hv). run_io.
    unfold mkdir_parents. fold out. rewrite Hpar. run_io. repeat split.
  - intros Hpar Hout. unfold Convert.process_file. run_io.
    rewrite (path_exists_present _ _ _ Hf). run_io.
    rewrite (wave_open_wav _ _ _ Hf). run_io.
    rewrite (cli_with_wave_valid st w max_seconds Hv). run_io.
    unfold mkdir_parents, write_text. fold out. rewrite Hpar, Hout.
    destruct (reached f) as [n |]; run_io; repeat split.
  - intros Hout. unfold WavTableGenV1.process_file. run_io.
    rewrite (path_exists_present _ _ _ Hf). run_io.
    rewrite (wave_open_wav _ _ _ Hf). run_io.
    rewrite (gui_with_wave_valid st w Hv). run_io.
    unfold write_text. rewrite Hout.
    destruct (reached f) as [n |]; run_io; repeat split.
Qed.

(** *** What a conversion leaves alone *)

Lemma wave_open_frame st in_path : (wave_open in_path st).1 = st.
Proof.
  unfold wave_open.
  destruct (fs st !! in_path) as [[h n d | s | e] |]; try reflexivity.
  - destruct (Wave.read_fmt h) as [msg | [channels width]]; reflexivity.
  - destruct (Wave.initfp s); reflexivity.
Qed.

Lemma cli_with_wave_frame st w (max_seconds : Z) :
  let r := Convert.with_wave w max_seconds st in
  fs r.1 = fs st /\ locked r.1 = locked st /\ writes r.1 = writes st.
Proof.
  unfold Convert.with_wave. run_io.
  destruct (negb (Wave.getnchannels w =? 1)); run_io; [repeat split |].
  destruct (negb (Wave.getsampwidth w =? 2)); run_io; [repeat split |].
  destruct (negb (String.eqb (Wave.getcomptype w) "NONE")); run_io;
    repeat split.
Qed.

Lemma gui_with_wave_frame st w :
  let r := WavTableGenV1.with_wave w st in
  fs r.1 = fs st /\ locked r.1 = locked st /\ writes r.1 = writes st.
Proof.
  unfold WavTableGenV1.with_wave, WavTableGenV1.bail. run_io.
  destruct (negb (Wave.getnchannels w =? 1)); run_io; [repeat split |].
  destruct (negb (Wave.getsampwidth w =? 2)); run_io; [repeat split |].
  destruct (negb (String.eqb (Wave.getcomptype w) "NONE")); run_io;
    repeat split.
Qed.

Ltac frame_close :=
  match goal with HP : forall st' o, _ -> ?P (st', o) |- ?P _ => apply HP end;
  cbn; split;
  [ congruence
  | first [ left; split; congruence
          | right; eexists; split; [f_equal; congruence | f_equal; congruence] ] ].

(** Whatever the input and however it ends, one conversion changes no file
    other than its output path, and changes that one only by a write it
    logs. *)
Lemma cli_process_frame st in_path (output_dir : option path)
      (verbose : bool) (max_seconds : Z) :
  let out := Convert.out_path_for in_path output_dir in
  let r := Convert.process_file in_path output_dir verbose max_seconds st in
  locked r.1 = locked st
  /\ ((fs r.1 = fs st /\ writes r.1 = writes st)
      \/ exists text, fs r.1 = <[out := TextFile text]> (fs st)
                      /\ writes r.1 = writes st ++ [(out, text)]).
Proof.
  intros out r.
  enough (Hgen : forall P : world path * outcome unit -> Prop,
             (forall st' o,
                 locked st' = locked st
                 /\ ((fs st' = fs st /\ writes st' = writes st)
                     \/ exists text, fs st' = <[out := TextFile text]> (fs st)
                                     /\ writes st' = writes st ++ [(out, text)])
                 -> P (st', o)) -> P r).
  { apply Hgen. intros st' o Hframe. exact Hframe. }
  intros P HP. subst r. unfold Convert.process_file. run_io. fold out.
  unfold path_exists.
  destruct (bool_decide (is_Some (fs st !! in_path))); run_io;
    [| frame_close].
  pose proof (wave_open_frame st in_path) as Hopen.
  destruct (wave_open in_path st) as [st0 [w | c | e]];
    cbn [fst] in Hopen; subst st0; run_io;
    [| frame_close | destruct (is_wave_error e); run_io; frame_close].
  pose proof (cli_with_wave_frame st w max_seconds) as Hframe.
    destruct (Convert.with_wave w max_seconds st)
      as [st1 [[[rate frames] raw] | c | e]];
      cbn in Hframe; destruct Hframe as (Hfs & Hl & Hw); run_io.
  - unfold mkdir_parents, write_text.
    destruct (locked st1 !! path_parent out); run_io; [frame_close |].
    destruct (locked st1 !! out) as [f |];
      [destruct (reached f); run_io; frame_close |].
    run_io. destruct verbose; run_io; [| frame_close].
    unfold Convert.duration. destruct (rate =? 0); run_io; frame_close.
  - frame_close.
  - destruct (is_wave_error e); run_io; frame_close.
Qed.

Lemma gui_process_frame st in_path :
  let out := with_suffix in_path ".txt" in
  let r := WavTableGenV1.process_file in_path st in
  locked r.1 = locked st
  /\ ((fs r.1 = fs st /\ writes r.1 = writes st)
      \/ exists text, fs r.1 = <[out := TextFile text]> (fs st)
                      /\ writes r.1 = writes st ++ [(out, text)]).
Proof.
  intros out r.
  enough (Hgen : forall P : world path * outcome unit -> Prop,
             (forall st' o,
                 locked st' = locked st
                 /\ ((fs st' = fs st /\ writes st' = writes st)
                     \/ exists text, fs st' = <[out := TextFile text]> (fs st)
                                     /\ writes st' = writes st ++ [(out, text)])
                 -> P (st', o)) -> P r).
  { apply Hgen. intros st' o Hframe. exact Hframe. }
  intros P HP. subst r.
  unfold WavTableGenV1.process_file, WavTableGenV1.bail. run_io. fold out.
  unfold path_exists.
  destruct (bool_decide (is_Some (fs st !! in_path))); run_io;
    [| frame_close].
  pose proof (wave_open_frame st in_path) as Hopen.
  destruct (wave_open in_path st) as [st0 [w | c | e]];
    cbn [fst] in Hopen; subst st0; run_io; try frame_close.
  pose proof (gui_with_wave_frame st w) as Hframe.
  destruct (WavTableGenV1.with_wave w st)
    as [st1 [[[rate frames] raw] | c | e]];
    cbn in Hframe; destruct Hframe as (Hfs & Hl & Hw); run_io;
    try frame_close.
  unfold write_text.
  destruct (locked st1 !! out) as [f |];
    [destruct (reached f) |]; run_io; frame_close.
Qed.


(** *** Batches *)

Lemma for_each_cons {A} (x : A) (l : list A) (body : A -> M path unit) st :
  for_each (x :: l) body st
  = match body x st with
    | (st', Ret _) => for_each l body st'
    | (st', Exit c) => (st', Exit c)
    | (st', Raise e) => (st', Raise e)
    end.
Proof. reflexivity. Qed.

(** A loop whose body only ever writes its item's output path keeps every
    other file. *)
Lemma for_each_frame (out_of : path -> path) (body : path -> M path unit) :
  (forall p st,
      locked (body p st).1 = locked st
      /\ ((fs (body p st).1 = fs st /\ writes (body p st).1 = writes st)
          \/ exists text,
               fs (body p st).1 = <[out_of p := TextFile text]> (fs st)
               /\ writes (body p st).1 = writes st ++ [(out_of p, text)])) ->
  forall (batch : list path) st,
    let r := for_each batch body st in
    locked r.1 = locked st
    /\ (forall q, ~ In q (map out_of batch) -> fs r.1 !! q = fs st !! q)
    /\ exists extra,
         writes r.1 = writes st ++ extra
         /\ Forall (fun wr => In wr.1 (map out_of batch)) extra.
Proof.
  intros Hbody batch.
  induction batch as [|p batch IH]; intros st r; subst r.
  { cbn. repeat split. exists []. now rewrite app_nil_r. }
  rewrite for_each_cons.
  destruct (Hbody p st) as (Hl & Hstep).
  assert (Hone : (forall q, ~ In q (map out_of (p :: batch)) ->
                      fs (body p st).1 !! q = fs st !! q)
                 /\ exists extra,
                      writes (body p st).1 = writes st ++ extra
                      /\ Forall (fun wr => In wr.1 (map out_of (p :: batch)))
                                extra).
  { destruct Hstep as [[Hfs Hw] | (text & Hfs & Hw)].
    - split; [intros q _; now rewrite Hfs |].
      exists []. rewrite app_nil_r. split; [exact Hw | constructor].
    - split.
      + intros q Hq. rewrite Hfs. apply lookup_insert_ne.
        intros Heq. apply Hq. left. exact Heq.
      + exists [(out_of p, text)]. split; [exact Hw |].
        constructor; [now left | constructor]. }
  destruct (body p st) as [st1 [[] | c | e]]; cbn [fst snd] in *;
    try (split; [exact Hl | exact Hone]).
  destruct (IH st1) as (Hl' & Hfs' & extra' & Hw' & Hall').
  destruct Hone as (Hfs1 & extra & Hw1 & Hall1).
  split; [congruence |]. split.
  - intros q Hq. rewrite Hfs'; [apply Hfs1; exact Hq |].
    intros Hin. apply Hq. now right.
  - exists (extra ++ extra'). split.
    + rewrite Hw', Hw1. now rewrite app_assoc.
    + apply Forall_app. split; [exact Hall1 |].
      eapply Forall_impl; [exact Hall' |]. intros wr Hin. now right.
Qed.

(** X8.  Whatever the batch and however the run ends, [main] changes no file
    other than the output paths of the batch, and every write it makes
    goes to one of them.  An input that is nobody's output is still there
    afterwards. *)
Theorem batch_touches_only_outputs st (args : Convert.Namespace)
        (picked : list path) :
  let cli := Convert.main args st in
  let cli_outs :=
    map (fun p => Convert.out_path_for p (Convert.output_dir args))
        (Convert.files args) in
  let gui := WavTableGenV1.main picked st in
  let gui_outs := map (fun p => with_suffix p ".txt") picked in
  ((forall q, ~ In q cli_outs -> fs cli.1 !! q = fs st !! q)
   /\ exists extra, writes cli.1 = writes st ++ extra
                    /\ Forall (fun wr => In wr.1 cli_outs) extra)
  /\ ((forall q, ~ In q gui_outs -> fs gui.1 !! q = fs st !! q)
      /\ exists extra, writes gui.1 = writes st ++ extra
                       /\ Forall (fun wr => In wr.1 gui_outs) extra).
Proof.
  intros cli cli_outs gui gui_outs.
  assert (Hnone : forall outs : list path,
             exists extra : list (path * string),
               writes st = writes st ++ extra
               /\ Forall (fun wr => In wr.1 outs) extra).
  { intros outs. exists []. now rewrite app_nil_r. }
  split.
  - subst cli. unfold Convert.main. run_io.
    destruct (Z.of_nat (length (Convert.files args)) >? Convert.MAX_FILES);
      run_io; [split; [reflexivity | apply Hnone] |].
    pose proof (precheck_frame (Convert.files args) st) as Hpre.
    destruct (for_each (Convert.files args) Convert.precheck st)
      as [st1 [[] | c | e]]; cbn in Hpre;
      destruct Hpre as (Hfs & Hw & _ & Hl & _);
      try (cbn [fst]; rewrite Hfs, Hw; split; [reflexivity | apply Hnone]).
    pose proof (for_each_frame
                  (fun p => Convert.out_path_for p (Convert.output_dir args))
                  (fun p => Convert.process_file p (Convert.output_dir args)
                              (Convert.verbose args) (Convert.max_seconds args))
                  (fun p st' => cli_process_frame st' p _ _ _)
                  (Convert.files args) st1) as Hloop.
    cbv zeta in Hloop. fold cli_outs in Hloop.
    destruct (for_each (Convert.files args) _ st1) as [st2 [[] | c | e]];
      cbn [fst snd] in Hloop; run_io;
      destruct Hloop as (_ & Hfs2 & extra & Hw2 & Hall);
      (split; [intros q Hq; rewrite (Hfs2 q Hq); now rewrite Hfs
              | exists extra; split; [now rewrite Hw2, Hw | exact Hall]]).
  - subst gui. unfold WavTableGenV1.main, WavTableGenV1.bail. run_io.
    destruct (bool_decide (picked = [])); run_io;
      [split; [reflexivity | apply Hnone] |].
    destruct (Z.of_nat (length picked) >? WavTableGenV1.MAX_FILES); run_io;
      [split; [reflexivity | apply Hnone] |].
    destruct (for_each_frame (fun p => with_suffix p ".txt")
                WavTableGenV1.process_file
                (fun p st' => gui_process_frame st' p) picked st)
      as (_ & Hfs & Hw).
    split; assumption.
Qed.










(** With nothing picked in the dialog, [main] ends at once: the text
    [Cancelled by user] goes to the error stream, no box is shown, nothing
    is written, and the status is 1. *)
Theorem empty_selection_cancels st :
  let r := WavTableGenV1.main [] st in
  r.2 = Exit 1 /\ exit_status r.2 = 1
  /\ stderr r.1 = stderr st ++ ["Cancelled by user"]
  /\ dialogs r.1 = dialogs st /\ fs r.1 = fs st /\ writes r.1 = writes st.
Proof. repeat split. Qed.

Lemma gui_loop_converts (src : gmap path file) (batch : list path) :
  let out p := with_suffix p ".txt" in
  (forall p, In p batch ->
     exists w, src !! p = Some (WavFile w) /\ pcm_mono16 w) ->
  (forall p q, In p batch -> In q batch -> out p <> q) ->
  forall st,
    (forall p, In p batch -> fs st !! p = src !! p) ->
    (forall p, In p batch -> locked st !! out p = None) ->
    exists st' (raws : list (list byte)),
      for_each batch WavTableGenV1.process_file st = (st', Ret tt)
      /\ Forall2 (fun p raw =>
                    exists w, src !! p = Some (WavFile w)
                      /\ raw = Wave.readframes w
                                 (Z.min (Wave.getframerate w * 20)
                                        (Wave.getnframes w)))
                 batch raws
      /\ writes st'
         = writes st
           ++ zip_with (fun p raw => (out p, Hex.hex_line raw)) batch raws
      /\ dialogs st'
         = dialogs st
           ++ zip_with (fun p raw =>
                          ShowInfo "Done" (wrote_line raw (path_name (out p))))
                       batch raws.
Proof.
  intros out Hvalid Hdistinct.
  induction batch as [|p batch IH]; intros st Hsrc Hlock.
  { exists st, []. cbn. rewrite !app_nil_r. repeat split. constructor. }
  destruct (Hvalid p (or_introl eq_refl)) as (w & Hw & Hv).
  pose proof (Hlock p (or_introl eq_refl)) as Hout.
  assert (Hf : fs st !! p = Some (WavFile w))
    by (rewrite (Hsrc p (or_introl eq_refl)); exact Hw).
  destruct (gui_process_valid st p w Hf Hv Hout)
    as (Hret & Hfs & Hwrites & Hl & Hd).
  rewrite for_each_cons.
  destruct (WavTableGenV1.process_file p st) as [st1 o].
  cbn [fst snd] in *. subst o.
  destruct IH with (st := st1) as (st' & raws & Hrun & Hall & Hw' & Hd').
  { intros q Hq. apply Hvalid. now right. }
  { intros q r Hq Hr. apply Hdistinct; now right. }
  { intros q Hq. rewrite Hfs, lookup_insert_ne.
    - apply Hsrc. now right.
    - apply Hdistinct; [now left | now right]. }
  { intros q Hq. rewrite Hl. apply Hlock. now right. }
  exists st',
    (Wave.readframes w (Z.min (Wave.getframerate w * 20) (Wave.getnframes w))
       :: raws).
  rewrite Hrun. split; [reflexivity |]. split.
  - constructor; [| exact Hall]. exists w. split; [exact Hw | reflexivity].
  - cbn [zip_with]. split.
    + rewrite Hw', Hwrites, <- app_assoc. reflexivity.
    + rewrite Hd', Hd, <- app_assoc. reflexivity.
Qed.

(** X12.  A selection of one to 18 valid files, none of whose outputs is another
    picked file, is converted in full and in order by the dialog [main]:
    one write and one [Done] box per file, carrying its byte and character
    counts. *)
Theorem gui_batch_converts st (picked : list path) :
  let out p := with_suffix p ".txt" in
  picked <> [] ->
  Z.of_nat (length picked) <= 18 ->
  (forall p, In p picked ->
     exists w, fs st !! p = Some (WavFile w) /\ pcm_mono16 w) ->
  (forall p q, In p picked -> In q picked -> out p <> q) ->
  (forall p, In p picked -> locked st !! out p = None) ->
  let r := WavTableGenV1.main picked st in
  exists raws : list (list byte),
    r.2 = Ret tt
    /\ Forall2 (fun p raw =>
                  exists w, fs st !! p = Some (WavFile w)
                    /\ raw = Wave.readframes w
                               (Z.min (Wave.getframerate w * 20)
                                      (Wave.getnframes w)))
               picked raws
    /\ writes r.1
       = writes st
         ++ zip_with (fun p raw => (out p, Hex.hex_line raw)) picked raws
    /\ dialogs r.1
       = dialogs st
         ++ zip_with (fun p raw =>
                        ShowInfo "Done" (wrote_line raw (path_name (out p))))
                     picked raws.
Proof.
  intros out Hne Hn Hvalid Hdistinct Hlock r. subst r.
  unfold WavTableGenV1.main.
  rewrite bool_decide_eq_false_2 by exact Hne.
  assert (Hle : (Z.of_nat (length picked) >? WavTableGenV1.MAX_FILES) = false).
  { unfold WavTableGenV1.MAX_FILES.
    destruct (Z.gtb_spec (Z.of_nat (length picked)) 18); [lia | reflexivity]. }
  rewrite Hle. run_io.
  destruct (gui_loop_converts (fs st) picked Hvalid Hdistinct st)
    as (st' & raws & Hrun & Hall & Hw & Hd); [reflexivity | exact Hlock |].
  rewrite Hrun. exists raws. repeat split; assumption.
Qed.


(** X2.  Raising the seconds bound only extends the result: the bytes read
    under the shorter bound are the first bytes read under the longer one,
    and the shorter listing is the beginning of the longer listing. *)
Theorem longer_bound_extends_listing st w (shorter longer : Z) :
  pcm_mono16 w ->
  0 <= Wave.getframerate w ->
  0 <= shorter <= longer ->
  exists (frames1 frames2 : Z) (raw1 raw2 : list byte),
    Convert.with_wave w shorter st
    = (st, Ret (Wave.getframerate w, frames1, raw1))
    /\ Convert.with_wave w longer st
       = (st, Ret (Wave.getframerate w, frames2, raw2))
    /\ frames1 <= frames2
    /\ raw1 = firstn (length raw1) raw2
    /\ Py.startswith (Hex.hex_line raw1) (Hex.hex_line raw2) = true.
Proof.
  intros Hv Hrate Hle.
  set (total := Wave.getnframes w).
  set (frames1 := Z.min (Wave.getframerate w * shorter) total).
  set (frames2 := Z.min (Wave.getframerate w * longer) total).
  pose proof (getnframes_nonneg w Hv) as Htotal. fold total in Htotal.
  assert (Hord : 0 <= frames1 <= frames2) by (subst frames1 frames2; nia).
  assert (Hcap : frames2 <= total) by (subst frames2; lia).
  pose proof (readframes_mono16 w frames1 Hv) as Hr1.
  pose proof (readframes_mono16 w frames2 Hv) as Hr2.
  fold total in Hr1, Hr2.
  specialize (Hr1 ltac:(lia)). specialize (Hr2 ltac:(lia)).
  assert (Hpre : Wave.readframes w frames1
                 = firstn (length (Wave.readframes w frames1))
                          (Wave.readframes w frames2)).
  { rewrite Hr1, Hr2. rewrite firstn_firstn, length_firstn.
    replace (Nat.min (Nat.min (Z.to_nat (2 * frames1))
                              (length (Wave.data_chunk w)))
                     (Z.to_nat (2 * frames2)))
      with (Nat.min (Z.to_nat (2 * frames1)) (length (Wave.data_chunk w)))
      by lia.
    destruct (Nat.le_gt_cases (Z.to_nat (2 * frames1))
                (length (Wave.data_chunk w))) as [Hin | Hout].
    - now rewrite Nat.min_l by exact Hin.
    - rewrite Nat.min_r by lia.
      rewrite firstn_all, firstn_all2 by lia. reflexivity. }
  exists frames1, frames2, (Wave.readframes w frames1),
    (Wave.readframes w frames2).
  split; [apply (cli_with_wave_valid st w shorter Hv) |].
  split; [apply (cli_with_wave_valid st w longer Hv) |].
  split; [lia |]. split; [exact Hpre |].
  rewrite Hpre at 1. apply hex_line_prefix.
Qed.

(** X19.  From a valid file, whole or cut short, and under a seconds bound
    that is not negative, the bytes listed are the first bytes of the data
    the file holds: two for each of the [min(rate * max_seconds,
    total_frames)] frames, or fewer when the data ends before.  Nothing is
    added to make up for missing data. *)
Theorem listing_is_data_prefix st w (max_seconds : Z) :
  pcm_mono16 w ->
  0 <= max_seconds ->
  let frames :=
    Z.min (Wave.getframerate w * max_seconds) (Wave.getnframes w) in
  let raw_bytes := firstn (Z.to_nat (2 * frames)) (Wave.data_chunk w) in
  Convert.with_wave w max_seconds st
  = (st, Ret (Wave.getframerate w, frames, raw_bytes))
  /\ Z.of_nat (length raw_bytes)
     = Z.min (2 * frames) (Z.of_nat (length (Wave.data_chunk w)))
  /\ Py.startswith (Hex.hex_line raw_bytes)
       (Hex.hex_line (Wave.data_chunk w)) = true.
Proof.
  intros Hv Hsec frames raw_bytes.
  pose proof (getnframes_nonneg w Hv) as Htotal.
  assert (Hrate : 0 <= Wave.getframerate w)
    by (unfold Wave.getframerate; lia).
  assert (Hframes : 0 <= frames <= Wave.getnframes w) by (subst frames; nia).
  split; [| split].
  - subst raw_bytes. rewrite <- (readframes_mono16 w frames Hv Hframes).
    apply (cli_with_wave_valid st w max_seconds Hv).
  - subst raw_bytes. rewrite length_firstn. lia.
  - apply hex_line_prefix.
Qed.

(** X20.  A PCM header that declares samples of no bits, or no channel, is
    refused by the reader itself, before any check of the converters: the
    command-line converter reports [bad sample width] or
    [bad # of channels] as an error of that file and exits with status 1,
    and in the dialog converter the exception escapes without a box.
    Nothing is written. *)
Theorem hollow_header_refused st in_path (h : Wave.fmt) (size : N)
        (data : list byte) (output_dir : option path) (verbose : bool)
        (max_seconds : Z) :
  fs st !! in_path = Some (Wav h size data) ->
  Wave.wFormatTag h = Wave.WAVE_FORMAT_PCM ->
  Wave.wBitsPerSample h = 0%N \/ Wave.nChannels h = 0%N ->
  let cli := Convert.process_file in_path output_dir verbose max_seconds st in
  let gui := WavTableGenV1.process_file in_path st in
  let refusal :=
    if (Wave.wBitsPerSample h =? 0)%N then "bad sample width"
    else "bad # of channels" in
  (cli.2 = Exit 1
   /\ stderr cli.1
      = stderr st ++ ["Error processing " +:+ path_str in_path +:+ ": "
                      +:+ refusal]
   /\ stdout cli.1 = stdout st /\ fs cli.1 = fs st /\ writes cli.1 = writes st)
  /\ (gui.2 = Raise (WaveError refusal) /\ dialogs gui.1 = dialogs st
      /\ fs gui.1 = fs st /\ writes gui.1 = writes st).
Proof.
  intros Hf Htag Hbad cli gui refusal. subst cli gui.
  assert (Hopen : wave_open in_path st = (st, Raise (WaveError refusal))).
  { unfold wave_open. rewrite Hf. unfold Wave.read_fmt. rewrite Htag.
    cbn [N.eqb Wave.WAVE_FORMAT_PCM Pos.eqb negb]. subst refusal.
    destruct (N.eqb_spec (Wave.wBitsPerSample h) 0) as [Hz | Hnz].
    - rewrite Hz. reflexivity.
    - assert (Hw : (0 < (Wave.wBitsPerSample h + 7) / 8)%N)
        by (apply N.div_str_pos; lia).
      destruct ((Wave.wBitsPerSample h + 7) / 8)%N as [|width]; [lia |].
      destruct Hbad as [Hbits | Hch]; [congruence |]. now rewrite Hch. }
  unfold Convert.process_file, WavTableGenV1.process_file.
  run_io. rewrite (path_exists_present _ _ _ Hf). run_io. rewrite Hopen.
  run_io. repeat split.
Qed.

(** *** Text files as input *)

Lemma not_riff_open st in_path (s : string) :
  fs st !! in_path = Some (TextFile s) ->
  substring 0 4 s <> "RIFF" ->
  wave_open in_path st = (st, Raise (refusal_of s)).
Proof.
  intros Hf Hs. unfold wave_open, refusal_of. rewrite Hf. unfold Wave.initfp.
  destruct (Nat.ltb_spec (String.length s) 8) as [Hshort | Hlong].
  - replace (Wave.size_of s <? 8)%N with true
      by (symmetry; apply N.ltb_lt; unfold Wave.size_of; lia).
    reflexivity.
  - replace (Wave.size_of s <? 8)%N with false
      by (symmetry; apply N.ltb_ge; unfold Wave.size_of; lia).
    apply String.eqb_neq in Hs. now rewrite Hs.
Qed.

Lemma open_failure_run st in_path (f : file) (e : exn)
      (output_dir : option path) (verbose : bool) (max_seconds : Z) :
  fs st !! in_path = Some f ->
  wave_open in_path st = (st, Raise e) ->
  let cli := Convert.process_file in_path output_dir verbose max_seconds st in
  let gui := WavTableGenV1.process_file in_path st in
  (cli.2 = Exit 1
   /\ stderr cli.1
      = stderr st
        ++ [(if is_wave_error e then "Error processing "
             else "Unexpected error processing ")
            +:+ path_str in_path +:+ ": " +:+ exn_str e]
   /\ stdout cli.1 = stdout st /\ fs cli.1 = fs st /\ writes cli.1 = writes st)
  /\ (gui.2 = Raise e /\ dialogs gui.1 = dialogs st
      /\ fs gui.1 = fs st /\ writes gui.1 = writes st).
Proof.
  intros Hf Hopen cli gui. subst cli gui.
  unfold Convert.process_file, WavTableGenV1.process_file.
  run_io. rewrite (path_exists_present _ _ _ Hf). run_io. rewrite Hopen. run_io.
  destruct (is_wave_error e); run_io; repeat split.
Qed.

Lemma hex_line_head (raw_bytes : list byte) :
  substring 0 4 (Hex.hex_line raw_bytes) <> "RIFF".
Proof.
  destruct raw_bytes as [| b rest]; [discriminate |].
  rewrite hex_line_cons.
  destruct rest; rewrite entry_digits; discriminate.
Qed.

Lemma hex_line_short (raw_bytes : list byte) :
  (String.length (Hex.hex_line raw_bytes) <? 8)%nat
  = (length raw_bytes <? 2)%nat.
Proof.
  destruct raw_bytes as [| b rest]; [reflexivity |].
  rewrite hex_line_length by discriminate. cbn [length].
  destruct rest as [| b' rest]; [reflexivity |].
  cbn [length].
  destruct (Nat.ltb_spec (5 * S (S (length rest)) - 1) 8);
    destruct (Nat.ltb_spec (S (S (length rest))) 2); lia || reflexivity.
Qed.

(** X21.  A text file that does not begin with the four bytes [RIFF] is
    never converted.  [wave.open] refuses it: with [EOFError], whose text
    is empty, when the file is shorter than the eight bytes of a chunk
    header, and with 'file does not start with RIFF id' otherwise.  The
    command-line converter reports the first as an unexpected error and
    the second as an error, and exits with status 1; in the dialog
    converter the exception escapes.  Nothing is written. *)
Theorem not_riff_refused st in_path (s : string)
        (output_dir : option path) (verbose : bool) (max_seconds : Z) :
  fs st !! in_path = Some (TextFile s) ->
  substring 0 4 s <> "RIFF" ->
  let cli := Convert.process_file in_path output_dir verbose max_seconds st in
  let gui := WavTableGenV1.process_file in_path st in
  let short := (String.length s <? 8)%nat in
  (cli.2 = Exit 1
   /\ stderr cli.1
      = stderr st
        ++ [if short
            then "Unexpected error processing " +:+ path_str in_path +:+ ": "
            else "Error processing " +:+ path_str in_path
                 +:+ ": file does not start with RIFF id"]
   /\ stdout cli.1 = stdout st /\ fs cli.1 = fs st /\ writes cli.1 = writes st)
  /\ (gui.2 = Raise (if short then EOFError
                     else WaveError "file does not start with RIFF id")
      /\ dialogs gui.1 = dialogs st
      /\ fs gui.1 = fs st /\ writes gui.1 = writes st).
Proof.
  intros Hf Hs cli gui short.
  pose proof (open_failure_run st in_path _ _ output_dir verbose max_seconds
                Hf (not_riff_open st in_path s Hf Hs)) as Hrun.
  subst cli gui short. unfold refusal_of in Hrun.
  destruct (String.length s <? 8)%nat; cbn [is_wave_error exn_str] in Hrun;
    rewrite ?append_nil_r in Hrun; exact Hrun.
Qed.

(** X22.  A listing the converters have written is not an input they
    accept: it is empty or begins with [0x], so [wave.open] refuses it,
    with [EOFError] when it lists fewer than two bytes and with 'file
    does not start with RIFF id' otherwise; the command-line converter
    exits with status 1 and nothing is written. *)
Theorem listing_not_reconverted st in_path (raw_bytes : list byte)
        (output_dir : option path) (verbose : bool) (max_seconds : Z) :
  fs st !! in_path = Some (TextFile (Hex.hex_line raw_bytes)) ->
  let cli := Convert.process_file in_path output_dir verbose max_seconds st in
  let gui := WavTableGenV1.process_file in_path st in
  let short := (length raw_bytes <? 2)%nat in
  (cli.2 = Exit 1
   /\ stderr cli.1
      = stderr st
        ++ [if short
            then "Unexpected error processing " +:+ path_str in_path +:+ ": "
            else "Error processing " +:+ path_str in_path
                 +:+ ": file does not start with RIFF id"]
   /\ stdout cli.1 = stdout st /\ fs cli.1 = fs st /\ writes cli.1 = writes st)
  /\ (gui.2 = Raise (if short then EOFError
                     else WaveError "file does not start with RIFF id")
      /\ dialogs gui.1 = dialogs st
      /\ fs gui.1 = fs st /\ writes gui.1 = writes st).
Proof.
  intros Hf cli gui short.
  pose proof (open_failure_run st in_path _ _ output_dir verbose max_seconds
                Hf (not_riff_open st in_path _ Hf (hex_line_head raw_bytes)))
    as Hrun.
  subst cli gui short. unfold refusal_of in Hrun.
  rewrite hex_line_short in Hrun.
  destruct (length raw_bytes <? 2)%nat; cbn [is_wave_error exn_str] in Hrun;
    rewrite ?append_nil_r in Hrun; exact Hrun.
Qed.

End converter_errors.

(** ** What the array pattern can match *)

Section pattern_facts.

(** *** Characters of a text *)

Lemma concat_cons (ch : string) (l : list string) :
  String.concat EmptyString (ch :: l) = ch +:+ String.concat EmptyString l.
Proof.
  destruct l; cbn [String.concat]; [now rewrite append_nil_r | reflexivity].
Qed.

Lemma concat_app (front back : list string) :
  String.concat EmptyString (front ++ back)
  = String.concat EmptyString front +:+ String.concat EmptyString back.
Proof.
  induction front as [|ch front IH]; [reflexivity |].
  cbn [app]. rewrite !concat_cons, IH. now rewrite append_assoc.
Qed.

Lemma chars_eq (a : ascii) (s1 : string) :
  Py.chars (String a s1)
  = match s1 with
    | String b s2 =>
        if Py.two_bytes a b
        then String a (String b EmptyString) :: Py.chars s2
        else
          match s2 with
          | String c s3 =>
              if Py.three_bytes a b c
              then String a (String b (String c EmptyString)) :: Py.chars s3
              else
                match s3 with
                | String d s4 =>
                    if Py.four_bytes a b c d
                    then String a (String b (String c (String d EmptyString)))
                         :: Py.chars s4
                    else String a EmptyString :: Py.chars s1
                | EmptyString => String a EmptyString :: Py.chars s1
                end
          | EmptyString => String a EmptyString :: Py.chars s1
          end
    | EmptyString => [String a EmptyString]
    end.
Proof. destruct s1; reflexivity. Qed.

Lemma trail_high (a : ascii) : Py.trail a = true -> (128 <= Py.code a)%N.
Proof.
  unfold Py.trail. intros Ht. apply andb_true_iff in Ht.
  destruct Ht as [Hlo _]. now apply N.leb_le in Hlo.
Qed.

Lemma one_char_single (a : ascii) : one_char (String a EmptyString).
Proof.
  split; [discriminate |]. intros c Hc _. cbn [Py.mem] in Hc.
  rewrite orb_false_r in Hc. apply Ascii.eqb_eq in Hc. now subst.
Qed.

(** A sequence of bytes that are all 128 or more is a character. *)
Lemma one_char_high (ch : string) :
  ch <> EmptyString ->
  (forall c, Py.mem c ch = true -> (128 <= Py.code c)%N) ->
  one_char ch.
Proof.
  intros Hne Hhigh. split; [exact Hne |].
  intros c Hc Hlow. apply Hhigh in Hc. lia.
Qed.

Ltac high_bytes :=
  let c := fresh "c" in
  let Hc := fresh "Hc" in
  intros c Hc; cbn [Py.mem] in Hc;
  repeat match goal with
         | H : _ || _ = true |- _ => apply orb_true_iff in H; destruct H as [H | H]
         | H : Ascii.eqb _ _ = true |- _ => apply Ascii.eqb_eq in H; subst
         | H : false = true |- _ => discriminate H
         end;
  auto using trail_high; lia.

(** Cutting a text into characters loses nothing, and every piece is a
    character. *)
Lemma chars_spec (s : string) :
  String.concat EmptyString (Py.chars s) = s /\ Forall one_char (Py.chars s).
Proof.
  enough (Hlen : forall n s, (String.length s <= n)%nat ->
             String.concat EmptyString (Py.chars s) = s
             /\ Forall one_char (Py.chars s))
    by (apply (Hlen (String.length s)); lia).
  clear s. induction n as [|n IH]; intros s Hn.
  { destruct s; [split; [reflexivity | constructor] | cbn in Hn; lia]. }
  destruct s as [|a s1]; [split; [reflexivity | constructor] |].
  cbn [String.length] in Hn.
  assert (Hone : String.concat EmptyString (String a EmptyString :: Py.chars s1)
                 = String a s1
                 /\ Forall one_char (String a EmptyString :: Py.chars s1)).
  { destruct (IH s1) as [Hs Hall]; [lia |].
    rewrite concat_cons, Hs. split; [reflexivity |].
    constructor; [apply one_char_single | exact Hall]. }
  rewrite chars_eq.
  destruct s1 as [|b s2]; [split; [reflexivity | repeat constructor;
                                                  apply one_char_single] |].
  cbn [String.length] in Hn.
  destruct (Py.two_bytes a b) eqn:H2.
  { destruct (IH s2) as [Hs Hall]; [lia |].
    rewrite concat_cons, Hs. split; [reflexivity |].
    constructor; [| exact Hall].
    unfold Py.two_bytes in H2.
    repeat (apply andb_true_iff in H2; destruct H2 as [H2 ?]).
    apply N.leb_le in H2.
    apply one_char_high; [discriminate | high_bytes]. }
  destruct s2 as [|c s3]; [exact Hone |].
  cbn [String.length] in Hn.
  destruct (Py.three_bytes a b c) eqn:H3.
  { destruct (IH s3) as [Hs Hall]; [lia |].
    rewrite concat_cons, Hs. split; [reflexivity |].
    constructor; [| exact Hall].
    unfold Py.three_bytes in H3.
    repeat (apply andb_true_iff in H3; destruct H3 as [H3 ?]).
    apply N.leb_le in H3.
    apply one_char_high; [discriminate | high_bytes]. }
  destruct s3 as [|d s4]; [exact Hone |].
  cbn [String.length] in Hn.
  destruct (Py.four_bytes a b c d) eqn:H4; [| exact Hone].
  destruct (IH s4) as [Hs Hall]; [lia |].
  rewrite concat_cons, Hs. split; [reflexivity |].
  constructor; [| exact Hall].
  unfold Py.four_bytes in H4.
  repeat (apply andb_true_iff in H4; destruct H4 as [H4 ?]).
  apply N.leb_le in H4.
  apply one_char_high; [discriminate | high_bytes].
Qed.

Lemma chars_concat (s : string) : String.concat EmptyString (Py.chars s) = s.
Proof. apply chars_spec. Qed.

(** No byte below 128 is in a text made of characters none of which is
    that byte. *)
Lemma mem_concat (c : ascii) (l : list string) :
  (Py.code c < 128)%N ->
  Forall one_char l ->
  Forall (fun ch => ch <> String c EmptyString) l ->
  Py.mem c (String.concat EmptyString l) = false.
Proof.
  intros Hc Hall Hno. induction l as [|ch l IH]; [reflexivity |].
  inversion Hall as [|? ? [_ Hch] Hall']; subst.
  inversion Hno as [|? ? Hne Hno']; subst.
  rewrite concat_cons, mem_append, (IH Hall' Hno'), orb_false_r.
  destruct (Py.mem c ch) eqn:Hmem; [| reflexivity].
  destruct Hne. now apply Hch.
Qed.

Lemma concat_nonempty (l : list string) :
  l <> [] -> Forall one_char l -> String.concat EmptyString l <> EmptyString.
Proof.
  intros Hne Hall. destruct l as [|ch l]; [congruence |].
  inversion Hall as [|? ? [Hch _] _]; subst. rewrite concat_cons.
  destruct ch; [congruence | discriminate].
Qed.

(** *** Occurrences *)

Lemma startswith_prefix (a b : string) :
  forall s, Py.startswith (a +:+ b) s = true -> Py.startswith a s = true.
Proof.
  induction a as [|x a IH]; intros s Hs; [reflexivity |].
  destruct s as [|y s]; [discriminate Hs |].
  cbn [String.append Py.startswith] in *.
  apply andb_true_iff in Hs. destruct Hs as [Hx Hs].
  now rewrite Hx, (IH s Hs).
Qed.

Lemma contains_prefix (a b : string) :
  forall s, Py.contains (a +:+ b) s = true -> Py.contains a s = true.
Proof.
  induction s as [|y s IH]; cbn [Py.contains]; intros Hs.
  - rewrite orb_false_r in *. now apply startswith_prefix with b.
  - apply orb_true_iff in Hs. destruct Hs as [Hs | Hs].
    + now rewrite (startswith_prefix a b _ Hs).
    + rewrite (IH Hs). apply orb_true_r.
Qed.

Lemma contains_intro (t : string) (pre post : string) :
  Py.contains t (pre +:+ t +:+ post) = true.
Proof.
  induction pre as [|y pre IH].
  - cbn [String.append].
    destruct (t +:+ post) eqn:Heq; cbn [Py.contains];
      rewrite <- Heq, startswith_append; reflexivity.
  - cbn [String.append Py.contains]. rewrite IH. apply orb_true_r.
Qed.

(** *** What the matcher consumes *)

Lemma fed_all_nil (st : Re.caps) : fed_all [] st = st.
Proof.
  destruct st as [d o]. unfold fed_all. cbn. f_equal.
  rewrite <- (map_id o) at 2. apply map_ext. intros g. apply append_nil_r.
Qed.

Lemma fed_all_app (front back : list string) (st : Re.caps) :
  fed_all back (fed_all front st) = fed_all (front ++ back) st.
Proof.
  unfold fed_all. cbn. f_equal. rewrite map_map. apply map_ext.
  intros g. now rewrite concat_app, append_assoc.
Qed.

Lemma feed_fed_all (ch : string) (st : Re.caps) :
  Re.feed ch st = fed_all [ch] st.
Proof. reflexivity. Qed.

(** Matching a literal text consumes exactly its characters and feeds
    them to the groups that are open. *)
Lemma run_lit (t : string) (r : list Re.atom) :
  forall (s : list string) (st : Re.caps) res,
    Re.run (Re.lit t ++ r) s st = Some res ->
    exists rest,
      s = Py.chars t ++ rest
      /\ Re.run r rest (fed_all (Py.chars t) st) = Some res.
Proof.
  unfold Re.lit. induction (Py.chars t) as [|a toks IH]; intros s st res Hrun.
  - exists s. split; [reflexivity |]. now rewrite fed_all_nil.
  - cbn [map app Re.run] in Hrun. destruct s as [|ch s]; [discriminate |].
    destruct (String.eqb_spec a ch) as [<- |]; [| discriminate].
    destruct (IH s (Re.feed a st) res Hrun) as (rest & -> & Hrest).
    exists rest. split; [reflexivity |].
    now rewrite feed_fed_all, fed_all_app in Hrest.
Qed.

(** A greedy repetition consumes characters of its class only. *)
Lemma many_consumes {R} (p : string -> bool)
      (k : list string -> Re.caps -> option R) :
  forall (s : list string) (st : Re.caps) res,
    Re.many p k s st = Some res ->
    exists (taken rest : list string),
      s = taken ++ rest
      /\ Forall (fun ch => p ch = true) taken
      /\ k rest (fed_all taken st) = Some res.
Proof.
  assert (Hstop : forall s st res,
             k s st = Some res ->
             exists (taken rest : list string),
               s = taken ++ rest
               /\ Forall (fun ch => p ch = true) taken
               /\ k rest (fed_all taken st) = Some res).
  { intros s st res Hk. exists [], s. split; [reflexivity |].
    split; [constructor |]. now rewrite fed_all_nil. }
  induction s as [|a s IH]; intros st res Hrun; cbn [Re.many] in Hrun.
  - now apply Hstop.
  - destruct (p a) eqn:Hp; [| now apply Hstop].
    destruct (Re.many p k s (Re.feed a st)) as [res' |] eqn:Hmore;
      [| now apply Hstop].
    injection Hrun as <-.
    destruct (IH (Re.feed a st) res' Hmore) as (taken & rest & -> & Hall & Hk).
    exists (a :: taken), rest. split; [reflexivity |].
    split; [now constructor |].
    now rewrite feed_fed_all, fed_all_app in Hk.
Qed.

Lemma plus_consumes (p : string -> bool) (r : list Re.atom) :
  forall (s : list string) (st : Re.caps) res,
    Re.run (Re.Plus p :: r) s st = Some res ->
    exists (first : string) (more rest : list string),
      s = first :: more ++ rest
      /\ Forall (fun ch => p ch = true) (first :: more)
      /\ Re.run r rest (fed_all (first :: more) st) = Some res.
Proof.
  intros s st res Hrun. cbn [Re.run] in Hrun.
  destruct s as [|a s]; [discriminate |].
  destruct (p a) eqn:Hp; [| discriminate].
  destruct (many_consumes p (Re.run r) s (Re.feed a st) res Hrun)
    as (more & rest & -> & Hall & Hk).
  exists a, more, rest. split; [reflexivity |].
  split; [now constructor |].
  now rewrite feed_fed_all, fed_all_app in Hk.
Qed.

Lemma run_open (r : list Re.atom) (s : list string) (st : Re.caps) :
  Re.run (Re.Open :: r) s st = Re.run r s (Re.open_group st).
Proof. reflexivity. Qed.

Lemma run_close (r : list Re.atom) (s : list string) (st : Re.caps) :
  Re.run (Re.Close :: r) s st = Re.run r s (Re.close_group st).
Proof. reflexivity. Qed.

(** Every match [findall] reports is a match at some place of the
    text. *)
Lemma findall_from_match (atoms : list Re.atom) (groups : list string) :
  forall (s : list string) (skip : nat),
    In groups (Re.findall_go atoms s skip) ->
    exists (before at_text : list string) (n : nat),
      s = before ++ at_text
      /\ Re.match_at atoms at_text = Some (groups, n).
Proof.
  induction s as [|a s IH]; intros skip Hin; [destruct Hin |].
  assert (Hlater : forall k, In groups (Re.findall_go atoms s k) ->
            exists (before at_text : list string) (n : nat),
              a :: s = before ++ at_text
              /\ Re.match_at atoms at_text = Some (groups, n)).
  { intros k Hk. destruct (IH k Hk) as (before & at_text & n & -> & Hm).
    now exists (a :: before), at_text, n. }
  cbn [Re.findall_go] in Hin. destruct skip as [|skip]; [| eauto].
  destruct (Re.match_at atoms (a :: s)) as [[g n] |] eqn:Hm; [| eauto].
  destruct Hin as [<- | Hin]; [| eauto].
  now exists [], (a :: s), n.
Qed.

(** What a match of the array pattern is made of. *)
Lemma pattern_groups (at_text : list string) (st : Re.caps)
      (rest : list string) :
  Re.run SplitSamples.pattern at_text
    {| Re.done_groups := []; Re.open_groups := [] |} = Some (st, rest) ->
  exists (digits payload : list string),
    digits <> [] /\ Forall (fun ch => Py.isdecimal ch = true) digits
    /\ payload <> []
    /\ Forall (fun ch => ch <> "}"%string) payload
    /\ at_text
       = Py.chars "const uint8_t " ++ Py.chars "sample" ++ digits
         ++ Py.chars "[] PROGMEM = {" ++ payload ++ Py.chars "};" ++ rest
    /\ Re.done_groups st
       = [String.concat EmptyString payload;
          "sample" +:+ String.concat EmptyString digits].
Proof.
  intros Hrun. unfold SplitSamples.pattern in Hrun.
  apply run_lit in Hrun. destruct Hrun as (s1 & -> & Hrun).
  cbn [app] in Hrun. rewrite run_open in Hrun.
  apply run_lit in Hrun. destruct Hrun as (s2 & -> & Hrun).
  cbn [app] in Hrun. apply plus_consumes in Hrun.
  destruct Hrun as (d & ds & s3 & -> & Hdigits & Hrun).
  rewrite run_close in Hrun.
  apply run_lit in Hrun. destruct Hrun as (s4 & -> & Hrun).
  cbn [app] in Hrun. rewrite run_open in Hrun.
  apply plus_consumes in Hrun.
  destruct Hrun as (b & bs & s5 & -> & Hpayload & Hrun).
  rewrite run_close in Hrun.
  rewrite <- (app_nil_r (Re.lit "};")) in Hrun.
  apply run_lit in Hrun. destruct Hrun as (s6 & -> & Hrun).
  cbn [Re.run] in Hrun. injection Hrun as <- <-.
  exists (d :: ds), (b :: bs).
  split; [discriminate |]. split; [exact Hdigits |].
  split; [discriminate |]. split.
  { eapply Forall_impl; [exact Hpayload |]. intros ch Hch ->.
    unfold SplitSamples.not_char in Hch. now rewrite String.eqb_refl in Hch. }
  split; [reflexivity |].
  unfold fed_all, Re.close_group, Re.open_group. cbn [Re.done_groups Re.open_groups map].
  reflexivity.
Qed.

(** Every array the splitter finds stands in the text as a declaration:
    [const uint8_t], the name [sample] with digits after it, the payload
    between braces. *)
Lemma matches_shape (content name data : string) :
  In (name, data) (SplitSamples.find_matches content) ->
  (exists digits : list string,
      digits <> [] /\ Forall (fun ch => Py.isdecimal ch = true) digits
      /\ Forall one_char digits
      /\ name = "sample" +:+ String.concat EmptyString digits)
  /\ Py.mem "/" name = false
  /\ data <> EmptyString
  /\ Py.mem "}" data = false
  /\ Py.contains ("const uint8_t " +:+ name +:+ "[] PROGMEM = {" +:+ data
                  +:+ "};") content = true.
Proof.
  intros Hin. unfold SplitSamples.find_matches, Re.findall in Hin.
  apply in_map_iff in Hin. destruct Hin as (groups & Hpair & Hin).
  apply findall_from_match in Hin.
  destruct Hin as (before & at_text & n & Htext & Hm).
  unfold Re.match_at in Hm.
  destruct (Re.run SplitSamples.pattern at_text _) as [[st rest] |] eqn:Hrun;
    [| discriminate].
  injection Hm as <- _.
  destruct (pattern_groups at_text st rest Hrun)
    as (digits & payload & Hd & Hdigits & Hp & Hpayload & Hat & Hgroups).
  rewrite Hgroups in Hpair. cbn in Hpair. injection Hpair as <- <-.
  destruct (chars_spec content) as [Hcontent Hchars].
  rewrite Htext, Hat in Hchars.
  repeat (apply Forall_app in Hchars; destruct Hchars as [? Hchars]).
  assert (Hone_digits : Forall one_char digits) by assumption.
  assert (Hone_payload : Forall one_char payload) by assumption.
  split; [exists digits; auto |]. split; [| split; [| split]].
  - change (Py.mem "/" (String.concat EmptyString digits) = false).
    apply mem_concat; [reflexivity | exact Hone_digits |].
    eapply Forall_impl; [exact Hdigits |]. intros ch Hch ->. discriminate Hch.
  - now apply concat_nonempty.
  - apply mem_concat; [reflexivity | exact Hone_payload | exact Hpayload].
  - rewrite <- Hcontent, Htext, Hat.
    rewrite !concat_app, !chars_concat.
    match goal with
    | |- Py.contains ?needle ?hay = true =>
        replace hay
          with (String.concat EmptyString before +:+ needle
                +:+ String.concat EmptyString rest);
          [apply contains_intro |]
    end.
    f_equal. repeat (progress (cbn [String.append]; rewrite ?append_assoc)).
    reflexivity.
Qed.

(** X13.  Every array the splitter finds is named [sample] followed by one
    or more decimal digits (of any script), so its name holds no path
    separator; its payload is not empty and holds no closing brace; and
    its declaration stands in the text as it was read. *)
Theorem matched_arrays_shape (content name data : string) :
  In (name, data) (SplitSamples.find_matches content) ->
  (exists digits : list string,
      digits <> [] /\ Forall (fun ch => Py.isdecimal ch = true) digits
      /\ name = "sample" +:+ String.concat EmptyString digits)
  /\ Py.mem "/" name = false
  /\ data <> EmptyString
  /\ Py.mem "}" data = false
  /\ Py.contains ("const uint8_t " +:+ name +:+ "[] PROGMEM = {" +:+ data
                  +:+ "};") content = true.
Proof.
  intros Hin.
  destruct (matches_shape content name data Hin)
    as ((digits & Hne & Hdigits & _ & Hname) & Hrest).
  split; [exists digits; auto | exact Hrest].
Qed.

(** A text that nowhere holds [const uint8_t ] holds no array. *)
Lemma no_declaration_no_match (content : string) :
  Py.contains "const uint8_t " content = false ->
  SplitSamples.find_matches content = [].
Proof.
  intros Hno.
  destruct (SplitSamples.find_matches content) as [|[name data] l] eqn:Hm;
    [reflexivity |].
  destruct (matches_shape content name data) as (_ & _ & _ & _ & Hin).
  { rewrite Hm. now left. }
  apply contains_prefix in Hin. congruence.
Qed.

(** *** Blank payloads *)

Lemma lstrip_nil (l : list string) :
  Py.lstrip_chars l = [] -> Forall (fun ch => Py.isspace ch = true) l.
Proof.
  induction l as [|ch l IH]; [constructor |].
  cbn [Py.lstrip_chars]. destruct (Py.isspace ch) eqn:Hch; [| discriminate].
  intros Hl. constructor; auto.
Qed.

Lemma lstrip_head (l : list string) (ch : string) (rest : list string) :
  Py.lstrip_chars l = ch :: rest -> In ch l /\ Py.isspace ch = false.
Proof.
  induction l as [|x l IH]; cbn [Py.lstrip_chars]; [discriminate |].
  destruct (Py.isspace x) eqn:Hx.
  - intros Hl. destruct (IH Hl). split; [now right | assumption].
  - intros Heq. injection Heq as -> _. split; [now left | exact Hx].
Qed.

Lemma rstrip_keeps (ch : string) (l : list string) :
  Py.isspace ch = false ->
  exists rest, Py.rstrip_chars (ch :: l) = ch :: rest.
Proof.
  intros Hch. cbn [Py.rstrip_chars]. rewrite Hch.
  destruct (Py.rstrip_chars l); eauto.
Qed.

(** A text that strips to nothing is made of white space only. *)
Lemma strip_empty (s : string) :
  Py.strip s = EmptyString ->
  Forall (fun ch => Py.isspace ch = true) (Py.chars s).
Proof.
  unfold Py.strip. intros Hs. apply lstrip_nil.
  destruct (Py.lstrip_chars (Py.chars s)) as [|ch rest] eqn:Hl; [reflexivity |].
  destruct (lstrip_head _ _ _ Hl) as [Hin Hch].
  destruct (rstrip_keeps ch rest Hch) as (r & Hr).
  rewrite Hr, concat_cons in Hs.
  destruct (chars_spec s) as [_ Hall].
  rewrite List.Forall_forall in Hall. destruct (Hall ch Hin) as [Hne _].
  destruct ch; [congruence | discriminate].
Qed.

(** White space holds no comment. *)
Lemma sub_comment_blank (l : list string) :
  Forall (fun ch => Py.isspace ch = true) l ->
  Re.sub_go SplitSamples.comment_pattern EmptyString l 0
  = String.concat EmptyString l.
Proof.
  induction 1 as [|ch l Hch _ IH]; [reflexivity |].
  cbn [Re.sub_go].
  assert (Hm : Re.match_at SplitSamples.comment_pattern (ch :: l) = None).
  { unfold Re.match_at, SplitSamples.comment_pattern, Re.lit.
    change (Py.chars "/*") with ["/"%string; "*"%string].
    cbn [map app Re.run].
    destruct (String.eqb_spec "/" ch) as [<- |]; [discriminate Hch | reflexivity]. }
  now rewrite Hm, IH, concat_cons.
Qed.

Lemma clean_blank (data : string) :
  Py.strip data = EmptyString -> SplitSamples.clean data = EmptyString.
Proof.
  intros Hblank. unfold SplitSamples.clean, Re.sub.
  rewrite (sub_comment_blank _ (strip_empty data Hblank)), chars_concat.
  now rewrite Hblank.
Qed.

End pattern_facts.

Section splitter_more.
Context `{Pathlib path}.
Implicit Types (st : world path) (output_dir : path).

(** X14.  An array whose braces hold only white space (blanks, line
    breaks, or any other character [strip] removes) cleans to the empty
    text, and its turn of the loop only prints the skip notice: no header
    is written and the list of names for the index is left as it was. *)
Theorem blank_payload_skipped st output_dir (name data : string)
        (rest : list (string * string)) (valid_samples : list string) :
  Py.strip data = EmptyString ->
  SplitSamples.clean data = EmptyString
  /\ SplitSamples.samples_loop output_dir ((name, data) :: rest)
       valid_samples st
     = SplitSamples.samples_loop output_dir rest valid_samples
         (print ("Skipping empty sample: " +:+ name) st).1.
Proof.
  intros Hblank. pose proof (clean_blank data Hblank) as Hclean.
  split; [exact Hclean |].
  cbn [SplitSamples.samples_loop]. rewrite Hclean. reflexivity.
Qed.

(** X16.  Without its input file the splitter's [main] only prints a notice, on
    the output stream, and returns: nothing is written and the status is
    0. *)
Theorem split_main_missing_input st :
  fs st !! Path "src/sample.h" = None ->
  let r := SplitSamples.main st in
  r.2 = Ret tt /\ exit_status r.2 = 0
  /\ stdout r.1
     = stdout st ++ ["Error: Input file " +:+ path_str (Path "src/sample.h")
                     +:+ " not found"]
  /\ stderr r.1 = stderr st /\ fs r.1 = fs st /\ writes r.1 = writes st.
Proof.
  intros Hf r. subst r. unfold SplitSamples.main. run_io.
  rewrite (path_exists_absent _ _ Hf). run_io. repeat split.
Qed.

Lemma extract_samples_run st (input_file : path) output_dir (content : string) :
  fs st !! input_file = Some (TextFile content) ->
  locked st = ∅ ->
  let matches := SplitSamples.find_matches content in
  let survivors := List.filter SplitSamples.kept matches in
  exists st' notes,
    SplitSamples.extract_samples input_file output_dir st = (st', Ret tt)
    /\ writes st'
       = writes st ++ map (SplitSamples.array_file output_dir) survivors
         ++ [(path_join output_dir "samples.h",
              SplitSamples.master_content (map fst survivors))]
    /\ locked st' = ∅ /\ stderr st' = stderr st
    /\ stdout st'
       = stdout st
         ++ ["Found " +:+ pretty (Z.of_nat (length matches)) +:+ " sample arrays"]
         ++ notes
         ++ ["Created master include file: "
             +:+ path_str (path_join output_dir "samples.h")]
    /\ length notes = length matches.
Proof.
  intros Hf Hl matches survivors.
  assert (Hloop : forall (l : list (string * string)) st0 acc,
             locked st0 = ∅ ->
             exists st1 notes,
               SplitSamples.samples_loop output_dir l acc st0
               = (st1, Ret (acc ++ map fst (List.filter SplitSamples.kept l)))
               /\ writes st1
                  = writes st0
                    ++ map (SplitSamples.array_file output_dir)
                         (List.filter SplitSamples.kept l)
               /\ locked st1 = ∅ /\ stderr st1 = stderr st0
               /\ stdout st1 = stdout st0 ++ notes
               /\ length notes = length l).
  { induction l as [|[name data] l IH]; intros st0 acc Hl0.
    { exists st0, []. cbn. now rewrite !app_nil_r. }
    assert (Hk : SplitSamples.kept (name, data)
                 = negb (SplitSamples.skipped (SplitSamples.clean data)))
      by reflexivity.
    cbn [SplitSamples.samples_loop List.filter]. rewrite !Hk.
    destruct (SplitSamples.skipped (SplitSamples.clean data)); cbn [negb].
    - run_io.
      match goal with |- context [SplitSamples.samples_loop _ _ _ ?s] =>
        destruct (IH s acc Hl0) as (st1 & notes & Hr & Hw & Hl1 & He & Ho & Hn)
      end.
      rewrite Hr. exists st1, (("Skipping empty sample: " +:+ name) :: notes).
      cbn [writes stdout stderr] in *.
      repeat split; try assumption.
      + now rewrite Ho, <- app_assoc.
      + cbn [length]. now rewrite Hn.
    - run_io. rewrite (write_text_unlocked st0 _ _ Hl0). run_io.
      match goal with |- context [SplitSamples.samples_loop _ _ ?v ?s] =>
        destruct (IH s v Hl0) as (st1 & notes & Hr & Hw & Hl1 & He & Ho & Hn)
      end.
      rewrite Hr.
      exists st1,
        (("Created: " +:+ path_str (path_join output_dir (name +:+ ".h")))
           :: notes).
      cbn [writes stdout stderr] in *.
      split; [cbn [map fst]; now rewrite <- app_assoc |].
      split; [rewrite Hw; cbn [map]; now rewrite <- app_assoc |].
      repeat split; try assumption.
      + now rewrite Ho, <- app_assoc.
      + cbn [length]. now rewrite Hn. }
  unfold SplitSamples.extract_samples. run_io.
  unfold read_text, mkdir_parents. rewrite Hf, Hl, lookup_empty. run_io.
  fold matches.
  match goal with |- context [SplitSamples.samples_loop _ _ _ ?s] =>
    destruct (Hloop matches s [] Hl) as (st1 & notes & Hr & Hw & Hl1 & He & Ho & Hn)
  end.
  rewrite Hr. run_io. rewrite (write_text_unlocked st1 _ _ Hl1). run_io.
  eexists _, notes. split; [reflexivity |].
  cbn [writes stdout stderr locked] in *.
  split; [now rewrite Hw, <- app_assoc |]. split; [exact Hl1 |].
  split; [exact He |]. split; [| exact Hn].
  rewrite Ho, <- !app_assoc. reflexivity.
Qed.

(** X17.  With its input in place and the output location writable, the
    splitter's [main] reads [src/sample.h], writes the headers and then the
    index under [src/samples], reports the count of arrays found first and
    its completion last, one notice per array in between, and ends with
    status 0. *)
Theorem split_main_runs st (content : string) :
  fs st !! Path "src/sample.h" = Some (TextFile content) ->
  locked st = ∅ ->
  let output_dir := Path "src/samples" in
  let matches := SplitSamples.find_matches content in
  let survivors := List.filter SplitSamples.kept matches in
  let header (m : string * string) :=
    (path_join output_dir (m.1 +:+ ".h"),
     header_text m.1
       (SplitSamples.format_lines (Py.split ", " (SplitSamples.clean m.2)))) in
  let r := SplitSamples.main st in
  exists notes,
    r.2 = Ret tt /\ exit_status r.2 = 0
    /\ writes r.1
       = writes st ++ map header survivors
         ++ [(path_join output_dir "samples.h",
              index_text (map fst survivors))]
    /\ stdout r.1
       = stdout st
         ++ ["Found " +:+ pretty (Z.of_nat (length matches)) +:+ " sample arrays"]
         ++ notes
         ++ ["Created master include file: "
             +:+ path_str (path_join output_dir "samples.h");
             "Sample extraction complete!"]
    /\ length notes = length matches
    /\ stderr r.1 = stderr st.
Proof.
  intros Hf Hl output_dir matches survivors header r. subst r.
  unfold SplitSamples.main. run_io.
  rewrite (path_exists_present _ _ _ Hf). run_io.
  destruct (extract_samples_run st (Path "src/sample.h") output_dir content
              Hf Hl) as (st' & notes & Hrun & Hw & _ & He & Ho & Hn).
  fold output_dir. rewrite Hrun. run_io. exists notes.
  split; [reflexivity |]. split; [reflexivity |]. split.
  { rewrite Hw, master_content_text.
    now rewrite (map_ext _ header (array_file_text output_dir)). }
  split; [| split; assumption].
  rewrite Ho, <- !app_assoc. reflexivity.
Qed.


(** X18.  A text without any array declaration still gets an index: the
    splitter reports zero arrays and writes only [samples.h], whose two
    tables are empty. *)
Theorem no_arrays_only_index st (input_file : path) output_dir
        (content : string) :
  fs st !! input_file = Some (TextFile content) ->
  locked st = ∅ ->
  Py.contains "const uint8_t " content = false ->
  let r := SplitSamples.extract_samples input_file output_dir st in
  let empty_index :=
    "#ifndef SAMPLES_H" +:+ Py.nl
    +:+ "#define SAMPLES_H" +:+ Py.nl
    +:+ Py.nl
    +:+ "// Include all individual sample headers" +:+ Py.nl
    +:+ Py.nl
    +:+ "// Array of sample pointers for easy access" +:+ Py.nl
    +:+ "const uint8_t* const samples[] = {" +:+ Py.nl
    +:+ "};" +:+ Py.nl
    +:+ Py.nl
    +:+ "// Array of sample lengths" +:+ Py.nl
    +:+ "const uint16_t sample_lengths[] = {" +:+ Py.nl
    +:+ "};" +:+ Py.nl
    +:+ Py.nl
    +:+ "#define NUM_SAMPLES (sizeof(samples) / sizeof(samples[0]))" +:+ Py.nl
    +:+ Py.nl
    +:+ "#endif // SAMPLES_H" +:+ Py.nl in
  r.2 = Ret tt
  /\ writes r.1 = writes st ++ [(path_join output_dir "samples.h", empty_index)]
  /\ stdout r.1
     = stdout st
       ++ ["Found 0 sample arrays";
           "Created master include file: "
           +:+ path_str (path_join output_dir "samples.h")].
Proof.
  intros Hf Hl Hno r empty_index. subst r.
  destruct (extract_samples_run st input_file output_dir content Hf Hl)
    as (st' & notes & Hrun & Hw & _ & _ & Ho & Hn).
  rewrite (no_declaration_no_match content Hno) in Hw, Ho, Hn.
  destruct notes; [| discriminate Hn].
  rewrite Hrun. cbn [fst snd]. split; [reflexivity |].
  split; [exact Hw | exact Ho].
Qed.

End splitter_more.

(** ** The layout of the byte list *)

Section layout.

Lemma chunks_concat (m : nat) :
  forall (l : list string),
    (length l <= 16 * m)%nat ->
    concat (map (fun k => firstn 16 (skipn (k * 16) l)) (seq 0 m)) = l.
Proof.
  induction m as [|m IH]; intros l Hlen.
  - destruct l; [reflexivity | cbn in Hlen; lia].
  - cbn [seq map concat]. rewrite <- seq_shift, map_map.
    rewrite (map_ext (fun k => firstn 16 (skipn (S k * 16) l))
                     (fun k => firstn 16 (skipn (k * 16) (skipn 16 l)))).
    + rewrite (IH (skipn 16 l)) by (rewrite length_skipn; lia).
      change (skipn (0 * 16) l) with l. apply firstn_skipn.
    + intros k. rewrite skipn_skipn. do 2 f_equal. lia.
Qed.

(** X15.  The byte list is laid out sixteen entries to a line, in order, none
    lost or repeated: there are [ceil(n / 16)] lines; every line is
    indented by four blanks and holds its entries joined by [, ]; every
    line but the last holds exactly sixteen entries and ends with a comma;
    the last holds between one and sixteen and has no comma after it. *)
Theorem format_lines_layout (hex_values : list string) :
  let lines := SplitSamples.format_lines hex_values in
  let chunk k := firstn 16 (skipn (k * 16) hex_values) in
  length lines = ((length hex_values + 15) / 16)%nat
  /\ (forall k, (k < length lines)%nat ->
        nth k lines EmptyString
        = "    " +:+ (if (S k <? length lines)%nat
                      then Py.join ", " (chunk k) +:+ ","
                      else Py.join ", " (chunk k)))
  /\ (forall k, (S k < length lines)%nat -> length (chunk k) = 16%nat)
  /\ (forall k, (k < length lines)%nat ->
        (1 <= length (chunk k) <= 16)%nat)
  /\ concat (map chunk (seq 0 (length lines))) = hex_values.
Proof.
  intros lines chunk.
  set (n := length hex_values).
  assert (Hcount : length lines = ((n + 15) / 16)%nat).
  { subst lines. unfold SplitSamples.format_lines, Py.range_step.
    rewrite !length_map, length_seq. fold n. f_equal. lia. }
  pose proof (Nat.div_mod_eq (n + 15) 16) as Hdiv.
  pose proof (Nat.mod_upper_bound (n + 15) 16) as Hmod.
  assert (Hsize : forall k, length (chunk k) = Nat.min 16 (n - k * 16)).
  { intros k. subst chunk. cbn beta. rewrite length_firstn, length_skipn.
    reflexivity. }
  split; [exact Hcount |]. split; [| split; [| split]].
  - intros k Hk. subst lines.
    unfold SplitSamples.format_lines, Py.range_step in *. fold n in Hk |- *.
    rewrite !length_map, length_seq in Hk.
    rewrite !length_map, length_seq.
    rewrite map_map.
    rewrite (nth_indep _ EmptyString
               ((fun i => "    " +:+ (if (i * 16 + 16 <? n)%nat
                                      then Py.join ", " (chunk i) +:+ ","
                                      else Py.join ", " (chunk i))) O))
      by (rewrite length_map, length_seq; exact Hk).
    rewrite (map_nth (fun i => "    " +:+ (if (i * 16 + 16 <? n)%nat
                                           then Py.join ", " (chunk i) +:+ ","
                                           else Py.join ", " (chunk i)))).
    rewrite seq_nth by exact Hk. cbn [Nat.add].
    replace (n + 16 - 1)%nat with (n + 15)%nat by lia.
    destruct (Nat.ltb_spec (k * 16 + 16) n), (Nat.ltb_spec (S k) ((n + 15) / 16));
      try reflexivity; lia.
  - intros k Hk. rewrite Hsize. lia.
  - intros k Hk. rewrite Hsize. lia.
  - rewrite Hcount. apply chunks_concat. fold n. lia.
Qed.

End layout.

(** ** The further properties on sample inputs *)

Section more_samples.
Import TextPath Examples Gallery.

Lemma bit_depth_rejected_witness :
  fs desk !! "narrow.wav" = Some (WavFile narrow)
  /\ Wave.nChannels (Wave.fmt_of narrow) = 1%N
  /\ Wave.wBitsPerSample (Wave.fmt_of narrow) = 8%N
  /\ (Convert.process_file "narrow.wav" None false 20 desk).2 = Exit 1
  /\ stderr (Convert.process_file "narrow.wav" None false 20 desk).1
     = ["Error: Only 16‑bit PCM is supported."].
Proof.
  assert (Hf : fs desk !! "narrow.wav" = Some (WavFile narrow)) by reflexivity.
  split; [exact Hf |]. split; [reflexivity |]. split; [reflexivity |].
  destruct (bit_depth_rejected desk "narrow.wav" (Wave.fmt_of narrow)
              (Wave.chunksize narrow) (Wave.data_chunk narrow) None false 20
              Hf eq_refl eq_refl) as [(Hexit & Herr & _) _].
  - discriminate.
  - discriminate.
  - split; assumption.
Defined.

Lemma compressed_refused_by_reader_witness :
  fs desk !! "packed.wav" = Some packed
  /\ (Convert.process_file "packed.wav" None false 20 desk).2 = Exit 1
  /\ stderr (Convert.process_file "packed.wav" None false 20 desk).1
     = ["Error processing packed.wav: unknown format: 7"]
  /\ (WavTableGenV1.process_file "packed.wav" desk).2
     = Raise (WaveError "unknown format: 7")
  /\ dialogs (WavTableGenV1.process_file "packed.wav" desk).1 = [].
Proof.
  assert (Hf : fs desk !! "packed.wav" = Some packed) by reflexivity.
  split; [exact Hf |].
  destruct (compressed_refused_by_reader desk "packed.wav" _ _ _ None false 20
              Hf) as [(Hexit & Herr & _) (Hgui & Hd & _)].
  - discriminate.
  - discriminate.
  - repeat split; assumption.
Defined.



Lemma write_failure_reported_witness :
  fs sealed !! "kick.wav" = Some (WavFile kick)
  /\ pcm_mono16 kick
  /\ (Convert.process_file "kick.wav" None false 20 sealed).2 = Exit 1
  /\ stderr (Convert.process_file "kick.wav" None false 20 sealed).1
     = ["Unexpected error processing kick.wav: [Errno 13] Permission denied: 'kick.txt'"]
  /\ fs (Convert.process_file "kick.wav" None false 20 sealed).1 = fs sealed
  /\ (Convert.process_file "kick.wav" None false 20 cramped).2 = Exit 1
  /\ stderr (Convert.process_file "kick.wav" None false 20 cramped).1
     = ["Unexpected error processing kick.wav: [Errno 28] No space left on device"]
  /\ fs (Convert.process_file "kick.wav" None false 20 cramped).1 !! "kick.txt"
     = Some (TextFile "0x00,0x01")
  /\ (WavTableGenV1.process_file "kick.wav" cramped).2
     = Raise (OSError "[Errno 28] No space left on device").
Proof.
  assert (Hf : fs sealed !! "kick.wav" = Some (WavFile kick)) by reflexivity.
  assert (Hg : fs cramped !! "kick.wav" = Some (WavFile kick)) by reflexivity.
  split; [exact Hf |]. split; [exact kick_valid |].
  destruct (write_failure_reported sealed "kick.wav" kick
              {| reason := "[Errno 13] Permission denied: 'kick.txt'";
                 reached := None |} None false 20 Hf kick_valid)
    as (_ & Hsealed & _).
  destruct (write_failure_reported cramped "kick.wav" kick
              {| reason := "[Errno 28] No space left on device";
                 reached := Some 9%nat |} None false 20 Hg kick_valid)
    as (_ & Hcramped & Hgui).
  destruct Hsealed as (Hexit & Herr & _ & Hfs & _);
    [reflexivity | reflexivity |].
  destruct Hcramped as (Hexit' & Herr' & _ & Hfs' & _);
    [reflexivity | reflexivity |].
  destruct Hgui as (Hraise & _); [reflexivity |].
  split; [exact Hexit |]. split; [exact Herr |]. split; [exact Hfs |].
  split; [exact Hexit' |]. split; [exact Herr' |].
  split; [rewrite Hfs'; reflexivity | exact Hraise].
Defined.


(** Discharges the side conditions of the batch theorems on a concrete
    batch: membership is split into its cases and each is computed. *)
Ltac batch_cases :=
  repeat match goal with
         | H : _ \/ _ |- _ => destruct H as [H | H]
         | H : False |- _ => destruct H
         | H : _ = ?p |- _ => is_var p; subst p
         end.

Lemma still_valid : pcm_mono16 still.
Proof. repeat split. Defined.




Lemma gui_batch_converts_witness :
  ["kick.wav"; "still.wav"] <> []
  /\ Z.of_nat (length ["kick.wav"; "still.wav"]) <= 18
  /\ writes (WavTableGenV1.main ["kick.wav"; "still.wav"] desk).1
     = [("kick.txt", "0x00,0x01,0xFF,0x7F,0x10,0x20");
        ("still.txt", EmptyString)]
  /\ dialogs (WavTableGenV1.main ["kick.wav"; "still.wav"] desk).1
     = [ShowInfo "Done" "Wrote 6 bytes (29 characters) to kick.txt";
        ShowInfo "Done" "Wrote 0 bytes (0 characters) to still.txt"]
  /\ exists raws : list (list byte),
       (WavTableGenV1.main ["kick.wav"; "still.wav"] desk).2 = Ret tt
       /\ writes (WavTableGenV1.main ["kick.wav"; "still.wav"] desk).1
          = zip_with (fun p raw => (with_suffix p ".txt", Hex.hex_line raw))
                     ["kick.wav"; "still.wav"] raws.
Proof.
  assert (Hne : ["kick.wav"; "still.wav"] <> []) by discriminate.
  assert (Hn : Z.of_nat (length ["kick.wav"; "still.wav"]) <= 18)
    by (vm_compute; discriminate).
  split; [exact Hne |]. split; [exact Hn |].
  split; [reflexivity |]. split; [reflexivity |].
  destruct (gui_batch_converts desk ["kick.wav"; "still.wav"] Hne Hn)
    as (raws & Hret & _ & Hw & _).
  - intros p Hp. cbn in Hp. batch_cases.
    + exists kick. split; [reflexivity | exact kick_valid].
    + exists still. split; [reflexivity | exact still_valid].
  - intros p q Hp Hq. cbn in Hp, Hq. batch_cases; vm_compute; discriminate.
  - intros p Hp. cbn in Hp. batch_cases; reflexivity.
  - exists raws. split; [exact Hret | exact Hw].
Defined.

Lemma longer_bound_extends_listing_witness :
  pcm_mono16 kick /\ 0 <= Wave.getframerate kick /\ 0 <= 1 <= 3
  /\ Hex.hex_line (Wave.readframes kick 1) = "0x00,0x01"
  /\ Hex.hex_line (Wave.readframes kick 3) = "0x00,0x01,0xFF,0x7F,0x10,0x20"
  /\ exists (frames1 frames2 : Z) (raw1 raw2 : list byte),
       Convert.with_wave kick 1 studio
       = (studio, Ret (Wave.getframerate kick, frames1, raw1))
       /\ Convert.with_wave kick 3 studio
          = (studio, Ret (Wave.getframerate kick, frames2, raw2))
       /\ Py.startswith (Hex.hex_line raw1) (Hex.hex_line raw2) = true.
Proof.
  assert (Hrate : 0 <= Wave.getframerate kick) by (vm_compute; discriminate).
  assert (Hle : 0 <= 1 <= 3) by lia.
  split; [exact kick_valid |]. split; [exact Hrate |]. split; [exact Hle |].
  split; [reflexivity |]. split; [reflexivity |].
  destruct (longer_bound_extends_listing studio kick 1 3 kick_valid Hrate Hle)
    as (f1 & f2 & raw1 & raw2 & H1 & H2 & _ & _ & Hpre).
  exists f1, f2, raw1, raw2. split; [exact H1 |]. split; [exact H2 | exact Hpre].
Defined.

Lemma split_main_missing_input_witness :
  fs studio !! Path "src/sample.h" = None
  /\ (SplitSamples.main studio).2 = Ret tt
  /\ stdout (SplitSamples.main studio).1
     = ["Error: Input file src/sample.h not found"]
  /\ writes (SplitSamples.main studio).1 = [].
Proof.
  assert (Hf : fs studio !! Path "src/sample.h" = None) by reflexivity.
  split; [exact Hf |].
  destruct (split_main_missing_input studio Hf) as (Hret & _ & Ho & _ & _ & Hw).
  repeat split; assumption.
Defined.

Lemma split_main_runs_witness :
  fs sources !! Path "src/sample.h" = Some (TextFile two_arrays)
  /\ locked sources = ∅
  /\ map fst (writes (SplitSamples.main sources).1)
     = ["src/samples/sample1.h"; "src/samples/samples.h"]
  /\ stdout (SplitSamples.main sources).1
     = ["Found 2 sample arrays"; "Created: src/samples/sample1.h";
        "Skipping empty sample: sample2";
        "Created master include file: src/samples/samples.h";
        "Sample extraction complete!"]
  /\ exists notes : list string,
       (SplitSamples.main sources).2 = Ret tt
       /\ length notes = length (SplitSamples.find_matches two_arrays).
Proof.
  assert (Hf : fs sources !! Path "src/sample.h" = Some (TextFile two_arrays))
    by reflexivity.
  split; [exact Hf |]. split; [reflexivity |].
  split; [vm_compute; reflexivity |]. split; [vm_compute; reflexivity |].
  destruct (split_main_runs sources two_arrays Hf eq_refl)
    as (notes & Hret & _ & _ & _ & Hn & _).
  exists notes. split; [exact Hret | exact Hn].
Defined.

Lemma no_arrays_only_index_witness :
  fs bare !! "src/sample.h" = Some (TextFile "// no samples yet")
  /\ locked bare = ∅
  /\ Py.contains "const uint8_t " "// no samples yet" = false
  /\ (SplitSamples.extract_samples "src/sample.h" "src/samples" bare).2
     = Ret tt
  /\ stdout (SplitSamples.extract_samples "src/sample.h" "src/samples" bare).1
     = ["Found 0 sample arrays";
        "Created master include file: src/samples/samples.h"].
Proof.
  assert (Hf : fs bare !! "src/sample.h" = Some (TextFile "// no samples yet"))
    by reflexivity.
  split; [exact Hf |]. split; [reflexivity |]. split; [reflexivity |].
  destruct (no_arrays_only_index bare "src/sample.h" "src/samples"
              "// no samples yet" Hf eq_refl eq_refl) as (Hret & _ & Ho).
  split; [exact Hret | exact Ho].
Defined.

Lemma matched_arrays_shape_witness :
  In ("sample" +:+ fullwidth_one, " 0x03 ")
     (SplitSamples.find_matches wide_text)
  /\ SplitSamples.find_matches wide_text
     = [("sample1", " 0x01, 0x02 "); ("sample" +:+ fullwidth_one, " 0x03 ");
        ("sample3", no_break_space)]
  /\ Py.mem "/" ("sample" +:+ fullwidth_one) = false
  /\ Py.mem "}" " 0x03 " = false.
Proof.
  assert (Hall : SplitSamples.find_matches wide_text
                 = [("sample1", " 0x01, 0x02 ");
                    ("sample" +:+ fullwidth_one, " 0x03 ");
                    ("sample3", no_break_space)]) by (vm_compute; reflexivity).
  assert (Hin : In ("sample" +:+ fullwidth_one, " 0x03 ")
                   (SplitSamples.find_matches wide_text))
    by (rewrite Hall; right; left; reflexivity).
  split; [exact Hin |]. split; [exact Hall |].
  destruct (matched_arrays_shape _ _ _ Hin) as (_ & Hslash & _ & Hbrace & _).
  split; assumption.
Defined.

Lemma blank_payload_skipped_witness :
  Py.strip (" " +:+ Py.nl +:+ no_break_space) = EmptyString
  /\ SplitSamples.clean (" " +:+ Py.nl +:+ no_break_space) = EmptyString
  /\ SplitSamples.samples_loop "src/samples"
       [("sample3", " " +:+ Py.nl +:+ no_break_space)] [] bare
     = ((print "Skipping empty sample: sample3" bare).1, Ret []).
Proof.
  assert (Hb : Py.strip (" " +:+ Py.nl +:+ no_break_space) = EmptyString)
    by reflexivity.
  split; [exact Hb |].
  destruct (blank_payload_skipped bare "src/samples" "sample3"
              (" " +:+ Py.nl +:+ no_break_space) [] [] Hb) as [Hclean Hloop].
  split; [exact Hclean |]. rewrite Hloop. reflexivity.
Defined.

Lemma listing_is_data_prefix_witness :
  pcm_mono16 cut_short /\ 0 <= 20
  /\ Z.min (Wave.getframerate cut_short * 20) (Wave.getnframes cut_short) = 50
  /\ Convert.with_wave cut_short 20 stage
     = (stage, Ret (8000, 50, [x01; x02; x03; x04]))
  /\ Z.of_nat (length [x01; x02; x03; x04]) = Z.min (2 * 50) 4.
Proof.
  assert (Hv : pcm_mono16 cut_short) by (repeat split).
  assert (Hsec : 0 <= 20) by lia.
  split; [exact Hv |]. split; [exact Hsec |]. split; [reflexivity |].
  destruct (listing_is_data_prefix stage cut_short 20 Hv Hsec)
    as (Hread & Hlen & _).
  split; [exact Hread | exact Hlen].
Defined.

Lemma hollow_header_refused_witness :
  fs desk !! "hollow.wav" = Some hollow
  /\ Wave.wBitsPerSample
       {| Wave.wFormatTag := 1; Wave.nChannels := 1;
          Wave.nSamplesPerSec := 8000; Wave.wBitsPerSample := 0 |} = 0%N
  /\ (Convert.process_file "hollow.wav" None false 20 desk).2 = Exit 1
  /\ stderr (Convert.process_file "hollow.wav" None false 20 desk).1
     = ["Error processing hollow.wav: bad sample width"]
  /\ (WavTableGenV1.process_file "hollow.wav" desk).2
     = Raise (WaveError "bad sample width").
Proof.
  assert (Hf : fs desk !! "hollow.wav" = Some hollow) by reflexivity.
  split; [exact Hf |]. split; [reflexivity |].
  destruct (hollow_header_refused desk "hollow.wav" _ _ _ None false 20
              Hf eq_refl (or_introl eq_refl))
    as [(Hexit & Herr & _) (Hgui & _)].
  split; [exact Hexit |]. split; [exact Herr | exact Hgui].
Defined.

Lemma not_riff_refused_witness :
  fs desk !! "old.txt" = Some (TextFile "0x00,0x01")
  /\ substring 0 4 "0x00,0x01" <> "RIFF"
  /\ (Convert.process_file "old.txt" None false 20 desk).2 = Exit 1
  /\ stderr (Convert.process_file "old.txt" None false 20 desk).1
     = ["Error processing old.txt: file does not start with RIFF id"]
  /\ writes (Convert.process_file "old.txt" None false 20 desk).1 = [].
Proof.
  assert (Hf : fs desk !! "old.txt" = Some (TextFile "0x00,0x01"))
    by reflexivity.
  assert (Hs : substring 0 4 "0x00,0x01" <> "RIFF") by discriminate.
  split; [exact Hf |]. split; [exact Hs |].
  destruct (not_riff_refused desk "old.txt" _ None false 20 Hf Hs)
    as [(Hexit & Herr & _ & _ & Hw) _].
  split; [exact Hexit |]. split; [exact Herr | exact Hw].
Defined.

Lemma listing_not_reconverted_witness :
  fs desk !! "old.txt" = Some (TextFile (Hex.hex_line [x00; x01]))
  /\ (Convert.process_file "old.txt" None false 20 desk).2 = Exit 1
  /\ stderr (Convert.process_file "old.txt" None false 20 desk).1
     = ["Error processing old.txt: file does not start with RIFF id"]
  /\ (WavTableGenV1.process_file "old.txt" desk).2
     = Raise (WaveError "file does not start with RIFF id").
Proof.
  assert (Hf : fs desk !! "old.txt" = Some (TextFile (Hex.hex_line [x00; x01])))
    by reflexivity.
  split; [exact Hf |].
  destruct (listing_not_reconverted desk "old.txt" [x00; x01] None false 20 Hf)
    as [(Hexit & Herr & _) (Hgui & _)].
  split; [exact Hexit |]. split; [exact Herr | exact Hgui].
Defined.

(** The reader on the bytes the library writes for [kick]. *)
Lemma kick_bytes_read : Wave.initfp kick_bytes = Wave.Ok kick.
Proof. reflexivity. Qed.

End more_samples.
